(** * drm_hwcomposer: DrmProperty, DrmDevice and the HWC2 layer hooks

    A shallow embedding of
      - drm/DrmProperty.cpp   (property decoding, AtomicSet),
      - drm/DrmDevice.cpp     (device probing, property lookup, dumb buffers),
      - hwc2_device/hwc2_device.cpp (the layer-property entry points),
    and of the composition planner as the design document describes it,
    together with the properties the design document states about them.

    Conventions.  C integers are [Z]; [uint32_t]/[uint64_t] values are the
    non-negative numbers below 2^32 / 2^64, [int32_t] the numbers in
    [-2^31, 2^31).  Bit tests use [Z.land].  A null pointer / empty
    [std::optional] / empty [unique_ptr] is [None].  Where the C++ would index
    or dereference out of bounds the embedding returns [Fault]. *)

From Stdlib Require Import ZArith Lia Bool List String Sorted.
From stdpp Require Import base option list gmap.

Local Open Scope Z_scope.

(** ** errno values and integer widths *)

Module Errno.
Definition ENOENT : Z := 2.
Definition ENOMEM : Z := 12.
Definition EACCES : Z := 13.
Definition ENODEV : Z := 19.
Definition EINVAL : Z := 22.
End Errno.

Definition UINT64_MAX : Z := 2 ^ 64 - 1.

(** The result of running a piece of C++ that may hit undefined behaviour
    (a null dereference, an out-of-range [operator[]]). *)
Inductive outcome (A : Type) : Type :=
| Done (a : A)
| Fault.
Arguments Done {A} a.
Arguments Fault {A}.

Definition is_fault {A} (o : outcome A) : bool :=
  match o with Fault => true | Done _ => false end.

(** ** drm/DrmProperty.cpp *)

Module DrmProperty.
Import Errno.

(** Flag bits of [drmModePropertyRes::flags] (drm_mode.h). *)
Definition DRM_MODE_PROP_RANGE : Z := Z.shiftl 1 1.
Definition DRM_MODE_PROP_IMMUTABLE : Z := Z.shiftl 1 2.
Definition DRM_MODE_PROP_ENUM : Z := Z.shiftl 1 3.
Definition DRM_MODE_PROP_BLOB : Z := Z.shiftl 1 4.
Definition DRM_MODE_PROP_BITMASK : Z := Z.shiftl 1 5.
Definition DRM_MODE_PROP_OBJECT : Z := Z.shiftl 1 6.

Inductive DrmPropertyType : Type :=
| DRM_PROPERTY_TYPE_INT
| DRM_PROPERTY_TYPE_ENUM
| DRM_PROPERTY_TYPE_OBJECT
| DRM_PROPERTY_TYPE_BLOB
| DRM_PROPERTY_TYPE_BITMASK
| DRM_PROPERTY_TYPE_INVALID.

Definition is_blob (t : DrmPropertyType) : bool :=
  match t with DRM_PROPERTY_TYPE_BLOB => true | _ => false end.

(** [struct drm_mode_property_enum]. *)
Record drm_mode_property_enum : Type := {
  e_value : Z;
  e_name : string;
}.

(** [drmModePropertyRes]; the [count_*] fields are the lengths of the
    lists. *)
Record drmModePropertyRes : Type := {
  prop_id : Z;
  flags : Z;
  name : string;
  values : list Z;
  enums : list drm_mode_property_enum;
  blob_ids : list Z;
}.

Record DrmPropertyEnum : Type := {
  enum_value_ : Z;
  enum_name_ : string;
}.

Definition MkDrmPropertyEnum (e : drm_mode_property_enum) : DrmPropertyEnum :=
  {| enum_value_ := e_value e; enum_name_ := e_name e |}.

Record t : Type := {
  obj_id_ : Z;
  id_ : Z;
  type_ : DrmPropertyType;
  flags_ : Z;
  name_ : string;
  value_ : Z;
  values_ : list Z;
  enums_ : list DrmPropertyEnum;
  blob_ids_ : list Z;
}.

(** A default-constructed property (the in-class initialisers). *)
Definition empty : t :=
  {| obj_id_ := 0; id_ := 0; type_ := DRM_PROPERTY_TYPE_INVALID;
     flags_ := 0; name_ := EmptyString; value_ := 0;
     values_ := []; enums_ := []; blob_ids_ := [] |}.

Definition has_flag (fl bit : Z) : bool := negb (Z.land fl bit =? 0).

(** [DrmProperty::Init]: the three loops [emplace_back] onto the vectors the
    object already has, and [type_] is left alone when no flag matches. *)
Definition Init (self : t) (obj_id : Z) (p : drmModePropertyRes) (value : Z) : t :=
  let fl := flags p in
  {| obj_id_ := obj_id;
     id_ := prop_id p;
     flags_ := fl;
     name_ := name p;
     value_ := value;
     values_ := values_ self ++ values p;
     enums_ := enums_ self ++ map MkDrmPropertyEnum (enums p);
     blob_ids_ := blob_ids_ self ++ blob_ids p;
     type_ :=
       if has_flag fl DRM_MODE_PROP_RANGE then DRM_PROPERTY_TYPE_INT
       else if has_flag fl DRM_MODE_PROP_ENUM then DRM_PROPERTY_TYPE_ENUM
       else if has_flag fl DRM_MODE_PROP_OBJECT then DRM_PROPERTY_TYPE_OBJECT
       else if has_flag fl DRM_MODE_PROP_BLOB then DRM_PROPERTY_TYPE_BLOB
       else if has_flag fl DRM_MODE_PROP_BITMASK then DRM_PROPERTY_TYPE_BITMASK
       else type_ self |}.

(** The constructor [DrmProperty(obj_id, p, value)]. *)
Definition make (obj_id : Z) (p : drmModePropertyRes) (value : Z) : t :=
  Init empty obj_id p value.

Definition id (self : t) : Z := id_ self.
Definition get_name (self : t) : string := name_ self.

(** [enums_[i]] for an unsigned index [i]: outside the vector the C++ is
    undefined. *)
Definition enums_at (self : t) (i : Z) : outcome DrmPropertyEnum :=
  match enums_ self !! Z.to_nat i with
  | Some e => Done e
  | None => Fault
  end.

(** [DrmProperty::value]. *)
Definition value (self : t) : outcome (Z * Z) :=
  if is_blob (type_ self) then Done (0, value_ self)
  else
    match values_ self with
    | [] => Done (- ENOENT, 0)
    | _ :: _ =>
        match type_ self with
        | DRM_PROPERTY_TYPE_INT => Done (0, value_ self)
        | DRM_PROPERTY_TYPE_ENUM =>
            if Z.of_nat (length (enums_ self)) <=? value_ self
            then Done (- ENOENT, 0)
            else
              match enums_at self (value_ self) with
              | Done e => Done (0, enum_value_ e)
              | Fault => Fault
              end
        | DRM_PROPERTY_TYPE_OBJECT => Done (0, value_ self)
        | _ => Done (- EINVAL, 0)
        end
    end.

Definition is_immutable (self : t) : bool :=
  negb (id_ self =? 0) && has_flag (flags_ self) DRM_MODE_PROP_IMMUTABLE.

Definition is_range (self : t) : bool :=
  negb (id_ self =? 0) && has_flag (flags_ self) DRM_MODE_PROP_RANGE.

Definition range_min (self : t) : Z * Z :=
  if negb (is_range self) then (- EINVAL, 0)
  else match values_ self with
       | [] => (- ENOENT, 0)
       | v0 :: _ => (0, v0)
       end.

Definition range_max (self : t) : Z * Z :=
  if negb (is_range self) then (- EINVAL, 0)
  else match values_ self with
       | _ :: v1 :: _ => (0, v1)
       | _ => (- ENOENT, 0)
       end.

Fixpoint find_enum (es : list DrmPropertyEnum) (n : string) : Z * Z :=
  match es with
  | [] => (UINT64_MAX, - EINVAL)
  | e :: es' =>
      if String.eqb (enum_name_ e) n then (enum_value_ e, 0)
      else find_enum es' n
  end.

Definition GetEnumValueWithName (self : t) (n : string) : Z * Z :=
  find_enum (enums_ self) n.

(** *** The atomic request of libdrm

    [drmModeAtomicReq] and [drmModeAtomicAddProperty] belong to libdrm
    (xf86drmMode.c), not to this repository.  The request is a growable array
    of (object, property, value) items; [cursor] is the number of items in
    use and [size_items] the allocated capacity.  Adding an item fails with
    [-EINVAL] for a zero object or property id and with [-ENOMEM] when the
    array is full and [realloc] cannot grow it; on success the new cursor is
    returned. *)
Record drmModeAtomicReqItem : Type := {
  object_id : Z;
  property_id : Z;
  item_value : Z;
}.

Record drmModeAtomicReq : Type := {
  items : list drmModeAtomicReqItem;
  size_items : Z;
}.

Definition cursor (req : drmModeAtomicReq) : Z := Z.of_nat (length (items req)).

(** [getpagesize() / sizeof(drmModeAtomicReqItem)] *)
Definition item_size_inc : Z := 4096 / 16.

(** [realloc_ok] says whether the allocator grants a larger array. *)
Definition drmModeAtomicAddProperty (realloc_ok : bool) (req : drmModeAtomicReq)
    (obj prop v : Z) : Z * drmModeAtomicReq :=
  if (obj =? 0) || (prop =? 0) then (- EINVAL, req)
  else
    let push (cap : Z) :=
      let req' := {| items := items req ++
                       [{| object_id := obj; property_id := prop; item_value := v |}];
                     size_items := cap |} in
      (cursor req', req') in
    if size_items req <=? cursor req then
      if realloc_ok then push (size_items req + item_size_inc)
      else (- ENOMEM, req)
    else push (size_items req).

(** [DrmProperty::AtomicSet]; [pset] is passed by reference, so the request
    after the call is returned next to the result. *)
Definition AtomicSet (realloc_ok : bool) (self : t) (pset : drmModeAtomicReq)
    (v : Z) : bool * drmModeAtomicReq :=
  if id_ self =? 0 then (false, pset)
  else
    let '(ret, pset') :=
      drmModeAtomicAddProperty realloc_ok pset (obj_id_ self) (id_ self) v in
    if ret <? 0 then (false, pset') else (true, pset').

End DrmProperty.

(** ** bufferinfo/BufferInfo.h: the enumerations shared by the device and the
    layer front end *)

Module BufferInfo.
Inductive BufferColorSpace : Type :=
| ColorSpace_kUndefined | kItuRec601 | kItuRec709 | kItuRec2020.

Inductive BufferSampleRange : Type :=
| SampleRange_kUndefined | kFullRange | kLimitedRange.

Inductive BufferBlendMode : Type :=
| kUndefined | kNone | kPreMult | kCoverage.

(** [MakeSharedFd] / [MakeUniqueFd]: a negative descriptor gives the null
    handle. *)
Definition MakeSharedFd (fd : Z) : option Z :=
  if fd <? 0 then None else Some fd.

Record t : Type := {
  width : Z;
  height : Z;
  format : Z;
  pitches : list Z;
  prime_fds : list Z;
  modifiers : list Z;
  color_space : BufferColorSpace;
  sample_range : BufferSampleRange;
  blend_mode : BufferBlendMode;
  (** the [DumbBufferFd] kept alive through [fds_shared] *)
  fds_shared : option Z;
}.
End BufferInfo.

(** ** drm/DrmDevice.cpp *)

Module DrmDevice.
Import Errno BufferInfo.

Inductive client_cap : Type :=
| DRM_CLIENT_CAP_UNIVERSAL_PLANES
| DRM_CLIENT_CAP_ATOMIC
| DRM_CLIENT_CAP_WRITEBACK_CONNECTORS.

Inductive device_cap : Type :=
| DRM_CAP_ADDFB2_MODIFIERS
| DRM_CAP_CURSOR_WIDTH
| DRM_CAP_CURSOR_HEIGHT.

(** [drmModeRes]; each [count_*] is the length of its list. *)
Record drmModeRes : Type := {
  min_width : Z;
  max_width : Z;
  min_height : Z;
  max_height : Z;
  crtcs : list Z;
  encoders : list Z;
  connectors : list Z;
}.

Definition count_crtcs (r : drmModeRes) : Z := Z.of_nat (length (crtcs r)).
Definition count_encoders (r : drmModeRes) : Z := Z.of_nat (length (encoders r)).
Definition count_connectors (r : drmModeRes) : Z := Z.of_nat (length (connectors r)).

(** What the operating system and the DRM driver answer to the queries the
    device makes.  [sys_open] is [open(path, O_RDWR | O_CLOEXEC)] (a negative
    number on failure); [drmSetClientCap] is the return code; [drmGetCap] is
    [None] when the call returns nonzero (the out-parameter is then left
    untouched); [drmIsMaster] is read after [drmSetMaster]; the
    [drmMode*Get*] calls are [None] for a null result.
    [drmModeObjectGetProperties] lists (property id, value) pairs. *)
Record Kernel : Type := {
  sys_open : string -> Z;
  drmSetClientCap : Z -> client_cap -> Z;
  drmGetCap : Z -> device_cap -> option Z;
  drmIsMaster : Z -> bool;
  drmModeGetResources : Z -> option drmModeRes;
  drmModeGetPlaneResources : Z -> option (list Z);
  drmModeObjectGetProperties : Z -> Z -> Z -> option (list (Z * Z));
  drmModeGetProperty : Z -> Z -> option DrmProperty.drmModePropertyRes;
}.

(** The [for (i = 0; i < count; ++i)] loops of [Init]: try to create an
    object for every id, keep the ones that were created. *)
Fixpoint create_each {A : Type} (mk : Z -> nat -> option A) (i : nat)
    (ids : list Z) : list A :=
  match ids with
  | [] => []
  | x :: rest =>
      match mk x i with
      | Some a => a :: create_each mk (S i) rest
      | None => create_each mk (S i) rest
      end
  end.

(** The same driver, except that enabling the writeback capability
    returns [writeback] and the modifiers query answers [modifiers]. *)
Definition with_optional_caps (k : Kernel) (writeback : Z) (modifiers : option Z)
    : Kernel :=
  {| sys_open := sys_open k;
     drmSetClientCap := fun fd c =>
       match c with
       | DRM_CLIENT_CAP_WRITEBACK_CONNECTORS => writeback
       | _ => drmSetClientCap k fd c
       end;
     drmGetCap := fun fd c =>
       match c with
       | DRM_CAP_ADDFB2_MODIFIERS => modifiers
       | _ => drmGetCap k fd c
       end;
     drmIsMaster := drmIsMaster k;
     drmModeGetResources := drmModeGetResources k;
     drmModeGetPlaneResources := drmModeGetPlaneResources k;
     drmModeObjectGetProperties := drmModeObjectGetProperties k;
     drmModeGetProperty := drmModeGetProperty k |}.

Section Pipeline.
(** The pipeline objects live in their own translation units
    (DrmCrtc.cpp, DrmEncoder.cpp, DrmConnector.cpp, DrmPlane.cpp); the
    device only needs their factories and [DrmConnector::IsWriteback]. *)
Context {DrmCrtc DrmEncoder DrmConnector DrmPlane : Type}.
Variable DrmCrtc_CreateInstance : Kernel -> Z -> Z -> nat -> option DrmCrtc.
Variable DrmEncoder_CreateInstance : Kernel -> Z -> Z -> nat -> option DrmEncoder.
Variable DrmConnector_CreateInstance : Kernel -> Z -> Z -> nat -> option DrmConnector.
Variable DrmPlane_CreateInstance : Kernel -> Z -> Z -> option DrmPlane.
Variable IsWriteback : DrmConnector -> bool.

Record t : Type := {
  fd_ : option Z;
  index_in_dev_array_ : Z;
  HasAddFb2ModifiersSupport_ : bool;
  cap_cursor_size_ : option (Z * Z);
  min_resolution_ : Z * Z;
  max_resolution_ : Z * Z;
  crtcs_ : list DrmCrtc;
  encoders_ : list DrmEncoder;
  connectors_ : list DrmConnector;
  writeback_connectors_ : list DrmConnector;
  planes_ : list DrmPlane;
}.

(** [DrmDevice::DrmDevice(res_man, index)]. *)
Definition make (index : Z) : t :=
  {| fd_ := None; index_in_dev_array_ := index;
     HasAddFb2ModifiersSupport_ := false; cap_cursor_size_ := None;
     min_resolution_ := (0, 0); max_resolution_ := (0, 0);
     crtcs_ := []; encoders_ := []; connectors_ := [];
     writeback_connectors_ := []; planes_ := [] |}.

Definition set_fd (d : t) (fd : option Z) : t :=
  {| fd_ := fd; index_in_dev_array_ := index_in_dev_array_ d;
     HasAddFb2ModifiersSupport_ := HasAddFb2ModifiersSupport_ d;
     cap_cursor_size_ := cap_cursor_size_ d;
     min_resolution_ := min_resolution_ d; max_resolution_ := max_resolution_ d;
     crtcs_ := crtcs_ d; encoders_ := encoders_ d; connectors_ := connectors_ d;
     writeback_connectors_ := writeback_connectors_ d; planes_ := planes_ d |}.

Definition set_caps (d : t) (modifiers : bool) (cursor : option (Z * Z)) : t :=
  {| fd_ := fd_ d; index_in_dev_array_ := index_in_dev_array_ d;
     HasAddFb2ModifiersSupport_ := modifiers;
     cap_cursor_size_ := cursor;
     min_resolution_ := min_resolution_ d; max_resolution_ := max_resolution_ d;
     crtcs_ := crtcs_ d; encoders_ := encoders_ d; connectors_ := connectors_ d;
     writeback_connectors_ := writeback_connectors_ d; planes_ := planes_ d |}.

Definition set_pipeline (d : t) (res : drmModeRes) (cs : list DrmCrtc)
    (es : list DrmEncoder) (conns : list DrmConnector) : t :=
  {| fd_ := fd_ d; index_in_dev_array_ := index_in_dev_array_ d;
     HasAddFb2ModifiersSupport_ := HasAddFb2ModifiersSupport_ d;
     cap_cursor_size_ := cap_cursor_size_ d;
     min_resolution_ := (min_width res, min_height res);
     max_resolution_ := (max_width res, max_height res);
     crtcs_ := crtcs_ d ++ cs;
     encoders_ := encoders_ d ++ es;
     connectors_ := connectors_ d ++ filter (fun c => IsWriteback c = false) conns;
     writeback_connectors_ :=
       writeback_connectors_ d ++ filter (fun c => IsWriteback c = true) conns;
     planes_ := planes_ d |}.

Definition add_planes (d : t) (ps : list DrmPlane) : t :=
  {| fd_ := fd_ d; index_in_dev_array_ := index_in_dev_array_ d;
     HasAddFb2ModifiersSupport_ := HasAddFb2ModifiersSupport_ d;
     cap_cursor_size_ := cap_cursor_size_ d;
     min_resolution_ := min_resolution_ d; max_resolution_ := max_resolution_ d;
     crtcs_ := crtcs_ d; encoders_ := encoders_ d; connectors_ := connectors_ d;
     writeback_connectors_ := writeback_connectors_ d;
     planes_ := planes_ d ++ ps |}.

(** [DrmDevice::Init]: the return code and the device as the call leaves
    it. *)
Definition Init (k : Kernel) (self : t) (path : string) : Z * t :=
  match MakeSharedFd (sys_open k path) with
  | None => (- ENODEV, set_fd self None)
  | Some fd =>
      let self := set_fd self (Some fd) in
      let ret := drmSetClientCap k fd DRM_CLIENT_CAP_UNIVERSAL_PLANES in
      if negb (ret =? 0) then (ret, self) else
      let ret := drmSetClientCap k fd DRM_CLIENT_CAP_ATOMIC in
      if negb (ret =? 0) then (ret, self) else
      (* a failure here is only logged *)
      let ret := drmSetClientCap k fd DRM_CLIENT_CAP_WRITEBACK_CONNECTORS in
      let cap_value :=
        match drmGetCap k fd DRM_CAP_ADDFB2_MODIFIERS with
        | Some v => v
        | None => 0
        end in
      let cursor :=
        match drmGetCap k fd DRM_CAP_CURSOR_WIDTH with
        | Some w =>
            match drmGetCap k fd DRM_CAP_CURSOR_HEIGHT with
            | Some h => Some (w, h)
            | None => cap_cursor_size_ self
            end
        | None => cap_cursor_size_ self
        end in
      let self := set_caps self (negb (cap_value =? 0)) cursor in
      if negb (drmIsMaster k fd) then (- EACCES, self) else
      match drmModeGetResources k fd with
      | None => (- ENODEV, self)
      | Some res =>
          let cs := create_each (DrmCrtc_CreateInstance k fd) 0 (crtcs res) in
          let es := create_each (DrmEncoder_CreateInstance k fd) 0 (encoders res) in
          let conns :=
            create_each (DrmConnector_CreateInstance k fd) 0 (connectors res) in
          let self := set_pipeline self res cs es conns in
          match drmModeGetPlaneResources k fd with
          | None => (- ENOENT, self)
          | Some plane_ids =>
              let ps :=
                omap (DrmPlane_CreateInstance k fd) plane_ids in
              (0, add_planes self ps)
          end
      end
  end.

(** [DrmDevice::IsKMSDev]. *)
Definition IsKMSDev (k : Kernel) (path : string) : bool :=
  match MakeSharedFd (sys_open k path) with
  | None => false
  | Some fd =>
      match drmModeGetResources k fd with
      | None => false
      | Some res =>
          (0 <? count_crtcs res) && (0 <? count_connectors res)
          && (0 <? count_encoders res)
      end
  end.

(** [DrmDevice::CreateInstance]; [None] is the empty [unique_ptr]. *)
Definition CreateInstance (k : Kernel) (path : string) (index : Z) : option t :=
  if negb (IsKMSDev k path) then None
  else
    let '(ret, device) := Init k (make index) path in
    if negb (ret =? 0) then None else Some device.

(** The scan of [GetProperty]: fetch each listed property until one has
    the wanted name.  [drmModeGetProperty] returning null makes
    [p->name] a null dereference. *)
Fixpoint scan_props (k : Kernel) (fd obj_id : Z) (prop_name : string)
    (props : list (Z * Z)) (property : DrmProperty.t)
    : outcome (bool * DrmProperty.t) :=
  match props with
  | [] => Done (false, property)
  | (pid, pval) :: rest =>
      match drmModeGetProperty k fd pid with
      | None => Fault
      | Some p =>
          if String.eqb (DrmProperty.name p) prop_name
          then Done (true, DrmProperty.Init property obj_id p pval)
          else scan_props k fd obj_id prop_name rest property
      end
  end.

(** [DrmDevice::GetProperty]: the return code and the out-parameter
    [*property]. *)
Definition GetProperty (k : Kernel) (self : t) (obj_id obj_type : Z)
    (prop_name : string) (property : DrmProperty.t)
    : outcome (Z * DrmProperty.t) :=
  match fd_ self with
  | None => Fault
  | Some fd =>
      match drmModeObjectGetProperties k fd obj_id obj_type with
      | None => Done (- ENODEV, property)
      | Some props =>
          match scan_props k fd obj_id prop_name props property with
          | Fault => Fault
          | Done (found, property') =>
              Done (if found then 0 else - ENOENT, property')
          end
      end
  end.

(** *** Kernel objects with manual lifetime

    The dumb-buffer and property-blob calls change what the kernel holds
    for this file descriptor.  [KState] keeps the live GEM handles, the
    live user blobs and the list of calls made so far. *)
Inductive syscall : Type :=
| MODE_CREATE_DUMB (fd width height bpp : Z)
| MODE_MAP_DUMB (fd handle : Z)
| SYS_mmap (fd size offset : Z)
| SYS_memset (addr size : Z)
| SYS_munmap (addr size : Z)
| PRIME_HANDLE_TO_FD (fd handle : Z)
| MODE_DESTROY_DUMB (fd handle : Z)
| MODE_CREATEPROPBLOB (fd length : Z)
| MODE_DESTROYPROPBLOB (fd blob_id : Z).

Record KState : Type := {
  gem_handles : gset Z;
  blobs : gset Z;
  calls : list syscall;
}.

(** How the kernel answers the calls of one [CreateBufferForModeset]:
    [None] is a failed ioctl / [MAP_FAILED] / a nonzero return. *)
Record DumbResponses : Type := {
  r_create_dumb : option (Z * Z * Z);   (* handle, pitch, size *)
  r_map_dumb : option Z;                (* offset *)
  r_mmap : option Z;                    (* address *)
  r_munmap : bool;
  r_prime_fd : option Z;
}.

Definition Sys (A : Type) : Type := KState -> A * KState.
Definition sys_ret {A} (a : A) : Sys A := fun s => (a, s).
Definition sys_bind {A B} (m : Sys A) (f : A -> Sys B) : Sys B :=
  fun s => let '(a, s') := m s in f a s'.

Notation "'let*' x := m 'in' k" := (sys_bind m (fun x => k))
  (at level 10, x name, m at level 100, k at level 200).
Notation "m ;;; k" := (sys_bind m (fun _ => k))
  (at level 100, k at level 200, right associativity).

Definition log (c : syscall) : Sys unit :=
  fun s => (tt, {| gem_handles := gem_handles s; blobs := blobs s;
                   calls := calls s ++ [c] |}).

Definition gem_add (h : Z) : Sys unit :=
  fun s => (tt, {| gem_handles := {[h]} ∪ gem_handles s; blobs := blobs s;
                   calls := calls s |}).

Definition gem_remove (h : Z) : Sys unit :=
  fun s => (tt, {| gem_handles := gem_handles s ∖ {[h]}; blobs := blobs s;
                   calls := calls s |}).

Definition blob_add (b : Z) : Sys unit :=
  fun s => (tt, {| gem_handles := gem_handles s; blobs := {[b]} ∪ blobs s;
                   calls := calls s |}).

Definition blob_remove (b : Z) : Sys unit :=
  fun s => (tt, {| gem_handles := gem_handles s; blobs := blobs s ∖ {[b]};
                   calls := calls s |}).

Definition ioctl_create_dumb (r : DumbResponses) (fd width height bpp : Z)
    : Sys (option (Z * Z * Z)) :=
  log (MODE_CREATE_DUMB fd width height bpp) ;;;
  match r_create_dumb r with
  | Some (handle, pitch, size) =>
      gem_add handle ;;; sys_ret (Some (handle, pitch, size))
  | None => sys_ret None
  end.

Definition ioctl_map_dumb (r : DumbResponses) (fd handle : Z) : Sys (option Z) :=
  log (MODE_MAP_DUMB fd handle) ;;; sys_ret (r_map_dumb r).

Definition sys_mmap (r : DumbResponses) (fd size offset : Z) : Sys (option Z) :=
  log (SYS_mmap fd size offset) ;;; sys_ret (r_mmap r).

Definition sys_memset (addr size : Z) : Sys unit := log (SYS_memset addr size).

Definition sys_munmap (r : DumbResponses) (addr size : Z) : Sys bool :=
  log (SYS_munmap addr size) ;;; sys_ret (r_munmap r).

Definition drmPrimeHandleToFD (r : DumbResponses) (fd handle : Z)
    : Sys (option Z) :=
  log (PRIME_HANDLE_TO_FD fd handle) ;;; sys_ret (r_prime_fd r).

Definition ioctl_destroy_dumb (fd handle : Z) : Sys unit :=
  log (MODE_DESTROY_DUMB fd handle) ;;; gem_remove handle.

Definition kDumbBufferFormat : Z := 0x34325258. (* DRM_FORMAT_XRGB8888 *)
Definition kDumbBufferBpp : Z := 32.
Definition DRM_FORMAT_MOD_NONE : Z := 0.

(** The [done:] label of [CreateBufferForModeset]. *)
Definition done_label (fd handle : Z) (result : option BufferInfo.t)
    : Sys (option BufferInfo.t) :=
  if 0 <? handle
  then ioctl_destroy_dumb fd handle ;;; sys_ret result
  else sys_ret result.

(** [DrmDevice::CreateBufferForModeset]; [*fd_] on a device that was never
    opened is a null dereference. *)
Definition CreateBufferForModeset (r : DumbResponses) (self : t)
    (width height : Z) : outcome (Sys (option BufferInfo.t)) :=
  match fd_ self with
  | None => Fault
  | Some fd =>
      Done (
        let* created := ioctl_create_dumb r fd width height kDumbBufferBpp in
        match created with
        | None => sys_ret None
        | Some (handle, pitch, size) =>
            let buffer_info (prime_fd0 : Z) (shared : option Z) :=
              {| width := width; height := height;
                 format := kDumbBufferFormat;
                 pitches := [pitch; 0; 0; 0];
                 prime_fds := [prime_fd0; -1; -1; -1];
                 modifiers := [DRM_FORMAT_MOD_NONE; 0; 0; 0];
                 color_space := ColorSpace_kUndefined;
                 sample_range := SampleRange_kUndefined;
                 blend_mode := kNone;
                 fds_shared := shared |} in
            let* mapped := ioctl_map_dumb r fd handle in
            match mapped with
            | None => done_label fd handle None
            | Some offset =>
                let* ptr := sys_mmap r fd size offset in
                match ptr with
                | None => done_label fd handle None
                | Some addr =>
                    sys_memset addr size ;;;
                    (* a failed munmap is only logged *)
                    let* _unmapped := sys_munmap r addr size in
                    let* exported := drmPrimeHandleToFD r fd handle in
                    match exported with
                    | None => done_label fd handle None
                    | Some pfd =>
                        done_label fd handle
                          (Some (buffer_info pfd (MakeSharedFd pfd)))
                    end
                end
            end
        end)
  end.

(** [DrmModeUserPropertyBlobUnique]: a [unique_ptr] to the blob id whose
    deleter remembers the device it came from; [None] is the empty
    pointer. *)
Record BlobOwner : Type := {
  owned_blob_id : Z;
  owner_fd : option Z;
}.
Definition DrmModeUserPropertyBlobUnique : Type := option BlobOwner.

(** [DrmDevice::RegisterUserPropertyBlob]; [created] is the kernel's
    answer to the create ioctl ([None] for a nonzero return). *)
Definition RegisterUserPropertyBlob (created : option Z) (self : t)
    (data length : Z) : outcome (Sys DrmModeUserPropertyBlobUnique) :=
  match fd_ self with
  | None => Fault
  | Some fd =>
      Done (
        log (MODE_CREATEPROPBLOB fd length) ;;;
        match created with
        | None => sys_ret None
        | Some blob_id =>
            blob_add blob_id ;;;
            sys_ret (Some {| owned_blob_id := blob_id; owner_fd := fd_ self |})
        end)
  end.

(** The deleter lambda of the returned pointer (a failing destroy ioctl is
    only logged). *)
Definition blob_deleter (it : BlobOwner) : outcome (Sys unit) :=
  match owner_fd it with
  | None => Fault
  | Some fd =>
      Done (log (MODE_DESTROYPROPBLOB fd (owned_blob_id it)) ;;;
            blob_remove (owned_blob_id it))
  end.

(** Releasing a [unique_ptr] (destructor or [reset()]): the deleter runs
    on a non-empty pointer, and the pointer is empty afterwards. *)
Definition release_blob (h : DrmModeUserPropertyBlobUnique)
    : outcome (Sys DrmModeUserPropertyBlobUnique) :=
  match h with
  | None => Done (sys_ret None)
  | Some it =>
      match blob_deleter it with
      | Fault => Fault
      | Done m => Done (m ;;; sys_ret None)
      end
  end.

End Pipeline.

Arguments t : clear implicits.
Arguments make {_ _ _ _} index.

#[global] Instance syscall_eq_dec : EqDecision syscall.
Proof. solve_decision. Defined.

(** How often a call occurs in a list of calls. *)
Definition count_call (c : syscall) (cs : list syscall) : nat :=
  length (filter (fun c' => c' = c) cs).
End DrmDevice.

(** ** hwc2_device/hwc2_device.cpp *)

Module Hwc2Device.
Import BufferInfo.

(** [HWC2::Error] (hwcomposer2.h). *)
Module Error.
Definition None : Z := 0.
Definition BadConfig : Z := 1.
Definition BadDisplay : Z := 2.
Definition BadLayer : Z := 3.
Definition BadParameter : Z := 4.
Definition HasChanges : Z := 5.
Definition NoResources : Z := 6.
Definition NotValidated : Z := 7.
Definition Unsupported : Z := 8.
End Error.

(** [HWC2::BlendMode] (hwcomposer2.h). *)
Module BlendMode.
Definition Invalid : Z := 0.
Definition None : Z := 1.
Definition Premultiplied : Z := 2.
Definition Coverage : Z := 3.
End BlendMode.

(** [HAL_TRANSFORM_*] (system/graphics-base.h). *)
Definition HAL_TRANSFORM_FLIP_H : Z := 1.
Definition HAL_TRANSFORM_FLIP_V : Z := 2.
Definition HAL_TRANSFORM_ROT_90 : Z := 4.

(** [HAL_DATASPACE_*] (system/graphics-base.h). *)
Definition HAL_DATASPACE_STANDARD_MASK : Z := Z.shiftl 63 16.
Definition HAL_DATASPACE_STANDARD_BT709 : Z := Z.shiftl 1 16.
Definition HAL_DATASPACE_STANDARD_BT601_625 : Z := Z.shiftl 2 16.
Definition HAL_DATASPACE_STANDARD_BT601_625_UNADJUSTED : Z := Z.shiftl 3 16.
Definition HAL_DATASPACE_STANDARD_BT601_525 : Z := Z.shiftl 4 16.
Definition HAL_DATASPACE_STANDARD_BT601_525_UNADJUSTED : Z := Z.shiftl 5 16.
Definition HAL_DATASPACE_STANDARD_BT2020 : Z := Z.shiftl 6 16.
Definition HAL_DATASPACE_STANDARD_BT2020_CONSTANT_LUMINANCE : Z := Z.shiftl 7 16.
Definition HAL_DATASPACE_RANGE_MASK : Z := Z.shiftl 7 27.
Definition HAL_DATASPACE_RANGE_FULL : Z := Z.shiftl 1 27.
Definition HAL_DATASPACE_RANGE_LIMITED : Z := Z.shiftl 2 27.

(** A C [float], kept as its 32-bit pattern: the hooks only pass it on. *)
Definition float : Type := Z.

Record Buffer : Type := {
  buffer_handle : Z;
  acquire_fence : option Z;
}.

Record IRect : Type := { i_left : Z; i_top : Z; i_right : Z; i_bottom : Z }.
Record FRect : Type := { f_left : float; f_top : float; f_right : float; f_bottom : float }.

Record LayerTransform : Type := {
  hflip : bool;
  vflip : bool;
  rotate90 : bool;
}.

(** [HwcLayer::LayerProperties]: every member is a [std::optional], empty
    after default construction. *)
Module LayerProperties.
Record t : Type := {
  buffer : option Buffer;
  blend_mode : option BufferBlendMode;
  color_space : option BufferColorSpace;
  sample_range : option BufferSampleRange;
  composition_type : option Z;
  display_frame : option IRect;
  alpha : option float;
  source_crop : option FRect;
  transform : option LayerTransform;
  z_order : option Z;
}.

Definition empty : t :=
  {| buffer := None;
     blend_mode := None;
     color_space := None;
     sample_range := None;
     composition_type := None;
     display_frame := None;
     alpha := None;
     source_crop := None;
     transform := None;
     z_order := None |}.

Definition set_buffer (p : t) (v : Buffer) : t :=
  {| buffer := Some v;
     blend_mode := blend_mode p;
     color_space := color_space p;
     sample_range := sample_range p;
     composition_type := composition_type p;
     display_frame := display_frame p;
     alpha := alpha p;
     source_crop := source_crop p;
     transform := transform p;
     z_order := z_order p |}.

Definition set_blend_mode (p : t) (v : BufferBlendMode) : t :=
  {| buffer := buffer p;
     blend_mode := Some v;
     color_space := color_space p;
     sample_range := sample_range p;
     composition_type := composition_type p;
     display_frame := display_frame p;
     alpha := alpha p;
     source_crop := source_crop p;
     transform := transform p;
     z_order := z_order p |}.

Definition set_color_space (p : t) (v : BufferColorSpace) : t :=
  {| buffer := buffer p;
     blend_mode := blend_mode p;
     color_space := Some v;
     sample_range := sample_range p;
     composition_type := composition_type p;
     display_frame := display_frame p;
     alpha := alpha p;
     source_crop := source_crop p;
     transform := transform p;
     z_order := z_order p |}.

Definition set_sample_range (p : t) (v : BufferSampleRange) : t :=
  {| buffer := buffer p;
     blend_mode := blend_mode p;
     color_space := color_space p;
     sample_range := Some v;
     composition_type := composition_type p;
     display_frame := display_frame p;
     alpha := alpha p;
     source_crop := source_crop p;
     transform := transform p;
     z_order := z_order p |}.

Definition set_composition_type (p : t) (v : Z) : t :=
  {| buffer := buffer p;
     blend_mode := blend_mode p;
     color_space := color_space p;
     sample_range := sample_range p;
     composition_type := Some v;
     display_frame := display_frame p;
     alpha := alpha p;
     source_crop := source_crop p;
     transform := transform p;
     z_order := z_order p |}.

Definition set_display_frame (p : t) (v : IRect) : t :=
  {| buffer := buffer p;
     blend_mode := blend_mode p;
     color_space := color_space p;
     sample_range := sample_range p;
     composition_type := composition_type p;
     display_frame := Some v;
     alpha := alpha p;
     source_crop := source_crop p;
     transform := transform p;
     z_order := z_order p |}.

Definition set_alpha (p : t) (v : float) : t :=
  {| buffer := buffer p;
     blend_mode := blend_mode p;
     color_space := color_space p;
     sample_range := sample_range p;
     composition_type := composition_type p;
     display_frame := display_frame p;
     alpha := Some v;
     source_crop := source_crop p;
     transform := transform p;
     z_order := z_order p |}.

Definition set_source_crop (p : t) (v : FRect) : t :=
  {| buffer := buffer p;
     blend_mode := blend_mode p;
     color_space := color_space p;
     sample_range := sample_range p;
     composition_type := composition_type p;
     display_frame := display_frame p;
     alpha := alpha p;
     source_crop := Some v;
     transform := transform p;
     z_order := z_order p |}.

Definition set_transform (p : t) (v : LayerTransform) : t :=
  {| buffer := buffer p;
     blend_mode := blend_mode p;
     color_space := color_space p;
     sample_range := sample_range p;
     composition_type := composition_type p;
     display_frame := display_frame p;
     alpha := alpha p;
     source_crop := source_crop p;
     transform := Some v;
     z_order := z_order p |}.

Definition set_z_order (p : t) (v : Z) : t :=
  {| buffer := buffer p;
     blend_mode := blend_mode p;
     color_space := color_space p;
     sample_range := sample_range p;
     composition_type := composition_type p;
     display_frame := display_frame p;
     alpha := alpha p;
     source_crop := source_crop p;
     transform := transform p;
     z_order := Some v |}.

End LayerProperties.

(** Modelled from the spec: [HwcLayer] (hwc2_device/HwcLayer.h is not part
    of the sources at hand).  A layer carries the staged value of each
    client-settable attribute: buffer handle and acquire fence, blend mode,
    colour space and sample range, composition-type hint, destination
    frame, plane alpha, source crop, transform and z-order. *)
Module HwcLayer.
Record t : Type := {
  buffer_ : option Buffer;
  blend_mode_ : BufferBlendMode;
  color_space_ : BufferColorSpace;
  sample_range_ : BufferSampleRange;
  composition_type_ : Z;
  display_frame_ : IRect;
  alpha_ : float;
  source_crop_ : FRect;
  transform_ : LayerTransform;
  z_order_ : Z;
}.

(** Modelled from the spec: [HwcLayer::SetLayerProperties] stages the
    members that are present in the argument and leaves the other
    attributes of the layer as they were. *)
Definition SetLayerProperties (l : t) (p : LayerProperties.t) : t :=
  {| buffer_ :=
       match LayerProperties.buffer p with
       | Some b => Some b
       | None => buffer_ l
       end;
     blend_mode_ := default (blend_mode_ l) (LayerProperties.blend_mode p);
     color_space_ := default (color_space_ l) (LayerProperties.color_space p);
     sample_range_ := default (sample_range_ l) (LayerProperties.sample_range p);
     composition_type_ := default (composition_type_ l) (LayerProperties.composition_type p);
     display_frame_ := default (display_frame_ l) (LayerProperties.display_frame p);
     alpha_ := default (alpha_ l) (LayerProperties.alpha p);
     source_crop_ := default (source_crop_ l) (LayerProperties.source_crop p);
     transform_ := default (transform_ l) (LayerProperties.transform p);
     z_order_ := default (z_order_ l) (LayerProperties.z_order p) |}.
End HwcLayer.

(** Modelled from the spec: [HwcDisplay] owns its layers, keyed by the
    layer handle ([hwc2_layer_t]); [get_layer] gives the null pointer for a
    handle that names no layer of the display. *)
Record HwcDisplay : Type := {
  layers_ : gmap Z HwcLayer.t;
}.

(** Modelled from the spec: [HwcDisplay::get_layer], the layer a handle
    names, if any. *)
Definition get_layer (d : HwcDisplay) (layer_id : Z) : option HwcLayer.t :=
  layers_ d !! layer_id.

(** Modelled from the spec: [DrmHwcTwo] owns the displays, keyed by the
    display handle ([hwc2_display_t]); [GetDisplay] gives the null pointer
    for a handle that names no display. *)
Record DrmHwcTwo : Type := {
  displays_ : gmap Z HwcDisplay;
}.

(** Modelled from the spec: [DrmHwcTwo::GetDisplay], the display a handle
    names, if any. *)
Definition GetDisplay (hwc : DrmHwcTwo) (display_id : Z) : option HwcDisplay :=
  displays_ hwc !! display_id.

(** [ilayer] points into the display, which points into the composer: a
    write through it is a write to the composer's state. *)
Definition store_layer (hwc : DrmHwcTwo) (display_id layer_id : Z)
    (idisplay : HwcDisplay) (ilayer : HwcLayer.t) : DrmHwcTwo :=
  {| displays_ :=
       <[display_id := {| layers_ := <[layer_id := ilayer]> (layers_ idisplay) |}]>
         (displays_ hwc) |}.

(** [LOCK_COMPOSER; GET_DISPLAY; GET_LAYER] followed by the body of a
    hook.  The body returns the hook's result and the layer as it leaves
    it. *)
Definition with_layer (hwc : DrmHwcTwo) (display layer : Z)
    (body : HwcLayer.t -> Z * HwcLayer.t) : Z * DrmHwcTwo :=
  match GetDisplay hwc display with
  | None => (Error.BadDisplay, hwc)
  | Some idisplay =>
      match get_layer idisplay layer with
      | None => (Error.BadLayer, hwc)
      | Some ilayer =>
          let '(ret, ilayer') := body ilayer in
          (ret, store_layer hwc display layer idisplay ilayer')
      end
  end.

Definition Hwc2ToColorSpace (dataspace : Z) : BufferColorSpace :=
  let s := Z.land dataspace HAL_DATASPACE_STANDARD_MASK in
  if s =? HAL_DATASPACE_STANDARD_BT709 then kItuRec709
  else if (s =? HAL_DATASPACE_STANDARD_BT601_625)
          || (s =? HAL_DATASPACE_STANDARD_BT601_625_UNADJUSTED)
          || (s =? HAL_DATASPACE_STANDARD_BT601_525)
          || (s =? HAL_DATASPACE_STANDARD_BT601_525_UNADJUSTED) then kItuRec601
  else if (s =? HAL_DATASPACE_STANDARD_BT2020)
          || (s =? HAL_DATASPACE_STANDARD_BT2020_CONSTANT_LUMINANCE) then kItuRec2020
  else ColorSpace_kUndefined.

Definition Hwc2ToSampleRange (dataspace : Z) : BufferSampleRange :=
  let r := Z.land dataspace HAL_DATASPACE_RANGE_MASK in
  if r =? HAL_DATASPACE_RANGE_FULL then kFullRange
  else if r =? HAL_DATASPACE_RANGE_LIMITED then kLimitedRange
  else SampleRange_kUndefined.

(** The [switch] of [SetLayerBlendMode]. *)
Definition to_blend_mode (mode : Z) : BufferBlendMode :=
  if mode =? BlendMode.None then kNone
  else if mode =? BlendMode.Premultiplied then kPreMult
  else if mode =? BlendMode.Coverage then kCoverage
  else kUndefined.

Definition SetLayerBlendMode (hwc : DrmHwcTwo) (display layer mode : Z)
    : Z * DrmHwcTwo :=
  with_layer hwc display layer (fun ilayer =>
    let blend_mode := to_blend_mode mode in
    let layer_properties :=
      LayerProperties.set_blend_mode LayerProperties.empty blend_mode in
    (0, HwcLayer.SetLayerProperties ilayer layer_properties)).

Definition SetLayerBuffer (hwc : DrmHwcTwo) (display layer buffer acquire_fence : Z)
    : Z * DrmHwcTwo :=
  with_layer hwc display layer (fun ilayer =>
    let layer_properties :=
      LayerProperties.set_buffer LayerProperties.empty
        {| buffer_handle := buffer;
           acquire_fence := MakeSharedFd acquire_fence |} in
    (0, HwcLayer.SetLayerProperties ilayer layer_properties)).

Definition SetLayerDataspace (hwc : DrmHwcTwo) (display layer dataspace : Z)
    : Z * DrmHwcTwo :=
  with_layer hwc display layer (fun ilayer =>
    let layer_properties :=
      LayerProperties.set_sample_range
        (LayerProperties.set_color_space LayerProperties.empty
           (Hwc2ToColorSpace dataspace))
        (Hwc2ToSampleRange dataspace) in
    (0, HwcLayer.SetLayerProperties ilayer layer_properties)).

Definition SetLayerCompositionType (hwc : DrmHwcTwo) (display layer type : Z)
    : Z * DrmHwcTwo :=
  with_layer hwc display layer (fun ilayer =>
    let layer_properties :=
      LayerProperties.set_composition_type LayerProperties.empty type in
    (0, HwcLayer.SetLayerProperties ilayer layer_properties)).

Definition SetLayerDisplayFrame (hwc : DrmHwcTwo) (display layer : Z)
    (frame : IRect) : Z * DrmHwcTwo :=
  with_layer hwc display layer (fun ilayer =>
    let layer_properties :=
      LayerProperties.set_display_frame LayerProperties.empty
        {| i_left := i_left frame; i_top := i_top frame;
           i_right := i_right frame; i_bottom := i_bottom frame |} in
    (0, HwcLayer.SetLayerProperties ilayer layer_properties)).

Definition SetLayerPlaneAlpha (hwc : DrmHwcTwo) (display layer : Z)
    (alpha : float) : Z * DrmHwcTwo :=
  with_layer hwc display layer (fun ilayer =>
    let layer_properties :=
      LayerProperties.set_alpha LayerProperties.empty alpha in
    (0, HwcLayer.SetLayerProperties ilayer layer_properties)).

Definition SetLayerSourceCrop (hwc : DrmHwcTwo) (display layer : Z)
    (crop : FRect) : Z * DrmHwcTwo :=
  with_layer hwc display layer (fun ilayer =>
    let layer_properties :=
      LayerProperties.set_source_crop LayerProperties.empty
        {| f_left := f_left crop; f_top := f_top crop;
           f_right := f_right crop; f_bottom := f_bottom crop |} in
    (0, HwcLayer.SetLayerProperties ilayer layer_properties)).

Definition SetLayerTransform (hwc : DrmHwcTwo) (display layer transform : Z)
    : Z * DrmHwcTwo :=
  with_layer hwc display layer (fun ilayer =>
    let layer_properties :=
      LayerProperties.set_transform LayerProperties.empty
        {| hflip := negb (Z.land transform HAL_TRANSFORM_FLIP_H =? 0);
           vflip := negb (Z.land transform HAL_TRANSFORM_FLIP_V =? 0);
           rotate90 := negb (Z.land transform HAL_TRANSFORM_ROT_90 =? 0) |} in
    (0, HwcLayer.SetLayerProperties ilayer layer_properties)).

Definition SetLayerZOrder (hwc : DrmHwcTwo) (display layer z : Z)
    : Z * DrmHwcTwo :=
  with_layer hwc display layer (fun ilayer =>
    let layer_properties :=
      LayerProperties.set_z_order LayerProperties.empty z in
    (0, HwcLayer.SetLayerProperties ilayer layer_properties)).

(** The hooks that take a layer but never look at it. *)
Definition SetCursorPosition (hwc : DrmHwcTwo) (display layer x y : Z)
    : Z * DrmHwcTwo := (0, hwc).
Definition SetLayerColor (hwc : DrmHwcTwo) (display layer color : Z)
    : Z * DrmHwcTwo := (0, hwc).
Definition SetLayerSidebandStream (hwc : DrmHwcTwo) (display layer stream : Z)
    : Z * DrmHwcTwo := (Error.Unsupported, hwc).
Definition SetLayerSurfaceDamage (hwc : DrmHwcTwo) (display layer : Z)
    : Z * DrmHwcTwo := (0, hwc).
Definition SetLayerVisibleRegion (hwc : DrmHwcTwo) (display layer : Z)
    : Z * DrmHwcTwo := (0, hwc).

(** One call of a layer-property setter, as [HookDevGetFunction] hands
    them out: the function descriptor together with the arguments that
    follow the display and layer handles. *)
Inductive LayerSetter : Type :=
| CallSetLayerBlendMode (mode : Z)
| CallSetLayerBuffer (buffer acquire_fence : Z)
| CallSetLayerDataspace (dataspace : Z)
| CallSetLayerCompositionType (type : Z)
| CallSetLayerDisplayFrame (frame : IRect)
| CallSetLayerPlaneAlpha (alpha : float)
| CallSetLayerSourceCrop (crop : FRect)
| CallSetLayerTransform (transform : Z)
| CallSetLayerZOrder (z : Z).

Definition call_setter (c : LayerSetter) (hwc : DrmHwcTwo) (display layer : Z)
    : Z * DrmHwcTwo :=
  match c with
  | CallSetLayerBlendMode mode => SetLayerBlendMode hwc display layer mode
  | CallSetLayerBuffer buffer fence => SetLayerBuffer hwc display layer buffer fence
  | CallSetLayerDataspace ds => SetLayerDataspace hwc display layer ds
  | CallSetLayerCompositionType ty => SetLayerCompositionType hwc display layer ty
  | CallSetLayerDisplayFrame frame => SetLayerDisplayFrame hwc display layer frame
  | CallSetLayerPlaneAlpha alpha => SetLayerPlaneAlpha hwc display layer alpha
  | CallSetLayerSourceCrop crop => SetLayerSourceCrop hwc display layer crop
  | CallSetLayerTransform tr => SetLayerTransform hwc display layer tr
  | CallSetLayerZOrder z => SetLayerZOrder hwc display layer z
  end.

End Hwc2Device.

(** ** The composition planner

    The planner's translation unit is not among the sources at hand; the
    definitions below follow the design document: the data model of section
    3, the algorithm, output ordering and edge cases of section 4.2.  What
    the document leaves to the device (when squashing consecutive layers
    would regress the picture) is a parameter of the planner. *)

Module Planner.
Import BufferInfo Hwc2Device.

(** Modelled from the spec: the plane type, primary / overlay / cursor. *)
Inductive PlaneType : Type := Primary | Overlay | Cursor.

(** Modelled from the spec: the composition-type hint, {device, client,
    cursor, solid-color, invalid}. *)
Inductive CompositionType : Type :=
| Device | Client | CursorType | SolidColor | Invalid.

(** Modelled from the spec: whether two composition types differ. *)
Definition CompositionType_eqb (a b : CompositionType) : bool :=
  match a, b with
  | Device, Device | Client, Client | CursorType, CursorType
  | SolidColor, SolidColor | Invalid, Invalid => true
  | _, _ => false
  end.

(** Modelled from the spec: HardwarePlane (section 3) -- stable identifier,
    plane type, the formats it scans out (each with its modifiers), whether
    it can rotate, the declared maximum cursor size, whether it is the
    client-composition ("framebuffer target") plane of step 4, and the
    per-planning-pass "currently assigned" flag. *)
Record HardwarePlane : Type := {
  plane_id : Z;
  plane_type : PlaneType;
  formats : list (Z * list Z);
  can_rotate : bool;
  max_cursor_size : Z * Z;
  client_target : bool;
  assigned : bool;
}.

(** Modelled from the spec: Layer (section 3), restricted to what the
    planner reads: z-order, buffer format and modifier, destination frame,
    transform, colour space and sample range, composition-type hint. *)
Record Layer : Type := {
  layer_id : Z;
  z_order : Z;
  format : Z;
  modifier : Z;
  frame : IRect;
  transform : LayerTransform;
  color_space : BufferColorSpace;
  sample_range : BufferSampleRange;
  hint : CompositionType;
}.

(** Modelled from the spec: CompositionPlan (section 3) -- the ordered
    layer-to-plane mapping ([None]: client composition), the
    client-composition plane that receives the pre-composited result when
    there is one, and the list of layers whose final composition type
    differs from the hint. *)
Record CompositionPlan : Type := {
  assignment : list (Z * option Z);
  client_plane : option Z;
  changed_types : list (Z * CompositionType);
}.

(** Modelled from the spec: what the document leaves to the target device
    -- whether it can pre-rotate a buffer (step 3), for which consecutive
    layers squashing would regress the picture (step 5), and whether a layer
    that lies outside the display is dropped instead of being forced to
    client composition (edge cases). *)
Record DeviceProfile : Type := {
  pre_rotates : bool;
  regresses : Layer -> Layer -> bool;
  drops_outside : bool;
}.

(** Modelled from the spec: writing the "currently assigned" flag of a
    plane; its identity and capabilities stay as they are. *)
Definition set_assigned (b : bool) (p : HardwarePlane) : HardwarePlane :=
  {| plane_id := plane_id p; plane_type := plane_type p; formats := formats p;
     can_rotate := can_rotate p; max_cursor_size := max_cursor_size p;
     client_target := client_target p; assigned := b |}.

(** Modelled from the spec: "its currently-assigned flag resets every
    planning pass" (section 3, HardwarePlane). *)
Definition reset_planes (ps : list HardwarePlane) : list HardwarePlane :=
  map (set_assigned false) ps.

(** Modelled from the spec: the deterministic (stable) ordering used for the
    layers and for the changed-types list -- an element goes in front of the
    first element that must not precede it. *)
Fixpoint insert_sorted {A} (before : A -> A -> bool) (x : A) (l : list A) : list A :=
  match l with
  | [] => [x]
  | y :: l' => if before y x then y :: insert_sorted before x l' else x :: y :: l'
  end.

(** Modelled from the spec: sorting by repeated stable insertion. *)
Definition sort_by {A} (before : A -> A -> bool) (l : list A) : list A :=
  fold_right (insert_sorted before) [] l.

(** Modelled from the spec: (step 1) descending z-order, ties in creation
    order (the order of the input). *)
Definition sort_layers (ls : list Layer) : list Layer :=
  sort_by (fun y x => z_order x <? z_order y) ls.

(** Modelled from the spec: [PlaneSupportsFormat]. *)
Definition PlaneSupportsFormat (p : HardwarePlane) (fmt md : Z) : bool :=
  existsb (fun fm => (fst fm =? fmt) && existsb (Z.eqb md) (snd fm)) (formats p).

(** Modelled from the spec: (step 3) the capability set covers the layer's
    format and modifier, and a layer that needs rotate-90 is rejected by a
    plane without rotation support "unless the device can pre-rotate". *)
Definition covers (dev : DeviceProfile) (p : HardwarePlane) (l : Layer) : bool :=
  PlaneSupportsFormat p (format l) (modifier l)
  && (negb (rotate90 (transform l)) || can_rotate p || pre_rotates dev).

(** Modelled from the spec: the cursor plane of the registry. *)
Definition is_cursor_plane (p : HardwarePlane) : bool :=
  match plane_type p with Cursor => true | _ => false end.

(** Modelled from the spec: the size of a layer's destination frame. *)
Definition frame_width (l : Layer) : Z := i_right (frame l) - i_left (frame l).
Definition frame_height (l : Layer) : Z := i_bottom (frame l) - i_top (frame l).

(** Modelled from the spec: (step 2) a layer hinted "cursor" that is no
    larger than the plane's declared maximum cursor size. *)
Definition fits_cursor (p : HardwarePlane) (l : Layer) : bool :=
  CompositionType_eqb (hint l) CursorType
  && (frame_width l <=? fst (max_cursor_size p))
  && (frame_height l <=? snd (max_cursor_size p)).

(** Modelled from the spec: (edge cases) a destination frame that lies fully
    outside the display bounds. *)
Definition outside (bounds : IRect) (l : Layer) : bool :=
  (i_right (frame l) <=? i_left bounds) || (i_bottom (frame l) <=? i_top bounds)
  || (i_right bounds <=? i_left (frame l)) || (i_bottom bounds <=? i_top (frame l)).

(** Modelled from the spec: the "next-best unassigned plane".  The planes
    come in the registry's order (primary first, then overlays, cursor
    last) and layers are processed topmost first, so the next-best plane
    for a layer is the last unassigned one that satisfies [ok]; this is the
    choice that leaves the primary plane to the bottom-most layer, as in
    the scenarios of section 8.  The chosen plane is marked assigned. *)
Fixpoint take_plane (ok : HardwarePlane -> bool) (ps : list HardwarePlane)
    : option Z * list HardwarePlane :=
  match ps with
  | [] => (None, [])
  | p :: ps' =>
      match take_plane ok ps' with
      | (Some pid, ps'') => (Some pid, p :: ps'')
      | (None, _) =>
          if negb (assigned p) && ok p
          then (Some (plane_id p), set_assigned true p :: ps')
          else (None, p :: ps')
      end
  end.

(** Modelled from the spec: (step 2) reserve the cursor plane for a single
    cursor layer, the first one in planning order that fits.  A layer whose
    frame lies fully outside the display is "excluded from plane
    consideration" (edge cases) and so is no candidate. *)
Fixpoint reserve_cursor (bounds : IRect) (ls : list Layer) (ps : list HardwarePlane)
    : option (Z * Z) * list HardwarePlane :=
  match ls with
  | [] => (None, ps)
  | l :: ls' =>
      if outside bounds l then reserve_cursor bounds ls' ps
      else
        match take_plane (fun p => is_cursor_plane p && negb (client_target p)
                                   && fits_cursor p l) ps with
        | (Some pid, ps') => (Some (layer_id l, pid), ps')
        | (None, _) => reserve_cursor bounds ls' ps
        end
  end.

(** Modelled from the spec: (steps 3 and 4) bind each remaining layer to the
    next unassigned plane that covers it.  The cursor plane is reserved by
    step 2 and the client-composition plane by step 4, so neither is offered
    here: a layer for which "no plane [is] left, or only the
    client-composition plane remains" fails to bind and goes to client
    composition, and so does a layer whose frame is outside the display. *)
Fixpoint bind_layers (dev : DeviceProfile) (bounds : IRect) (ls : list Layer)
    (ps : list HardwarePlane) : list (Z * option Z) * list HardwarePlane :=
  match ls with
  | [] => ([], ps)
  | l :: ls' =>
      let '(r, ps') :=
        if outside bounds l then (None, ps)
        else take_plane (fun p => negb (is_cursor_plane p)
                                  && negb (client_target p) && covers dev p l) ps in
      let '(rest, ps'') := bind_layers dev bounds ls' ps' in
      ((layer_id l, r) :: rest, ps'')
  end.

(** Modelled from the spec: comparing the colour metadata of two layers. *)
Definition same_color_space (a b : BufferColorSpace) : bool :=
  match a, b with
  | ColorSpace_kUndefined, ColorSpace_kUndefined | kItuRec601, kItuRec601
  | kItuRec709, kItuRec709 | kItuRec2020, kItuRec2020 => true
  | _, _ => false
  end.

Definition same_sample_range (a b : BufferSampleRange) : bool :=
  match a, b with
  | SampleRange_kUndefined, SampleRange_kUndefined | kFullRange, kFullRange
  | kLimitedRange, kLimitedRange => true
  | _, _ => false
  end.

(** Modelled from the spec: (step 5) the example the document gives of
    consecutive layers that must not be squashed: their colour spaces (or
    sample ranges) differ. *)
Definition color_space_mismatch (a b : Layer) : bool :=
  negb (same_color_space (color_space a) (color_space b))
  || negb (same_sample_range (sample_range a) (sample_range b)).

(** Modelled from the spec: (step 5) the layers that are part of a pair of
    consecutive layers, in planning order, for which squashing "would
    regress visual correctness" by the device's rule. *)
Fixpoint regressing_ids (dev : DeviceProfile) (ls : list Layer) : list Z :=
  match ls with
  | [] => []
  | a :: rest =>
      match rest with
      | [] => []
      | b :: _ =>
          if regresses dev a b
          then layer_id a :: layer_id b :: regressing_ids dev rest
          else regressing_ids dev rest
      end
  end.

(** Modelled from the spec: a plane that loses its layer is no longer
    "currently bound to a layer this frame". *)
Definition release_plane (pid : Z) (ps : list HardwarePlane) : list HardwarePlane :=
  map (fun p => if plane_id p =? pid then set_assigned false p else p) ps.

(** Modelled from the spec: (step 5) such layers "must be reassigned to
    client composition": a flagged layer that holds a plane gives it up. *)
Fixpoint reassign (flagged : list Z) (bound : list (Z * option Z))
    (ps : list HardwarePlane) : list (Z * option Z) * list HardwarePlane :=
  match bound with
  | [] => ([], ps)
  | (lid, r) :: bound' =>
      let '(r', ps') :=
        match r with
        | Some pid =>
            if existsb (Z.eqb lid) flagged then (None, release_plane pid ps)
            else (Some pid, ps)
        | None => (None, ps)
        end in
      let '(rest, ps'') := reassign flagged bound' ps' in
      ((lid, r') :: rest, ps'')
  end.

(** Modelled from the spec: (step 4) "the client-composition plane, if one
    exists, is reserved as the single recipient of the pre-composited
    result": it is taken, after every other plane has been tried, exactly
    when some layer is left to client composition. *)
Definition reserve_client_plane (bound : list (Z * option Z))
    (ps : list HardwarePlane) : option Z * list HardwarePlane :=
  if existsb (fun lr => negb (bool_decide (is_Some (snd lr)))) bound
  then take_plane client_target ps
  else (None, ps).

(** Modelled from the spec: the final composition type of a layer -- cursor
    on the cursor plane, device on another plane, client without a plane. *)
Definition final_type (cursor : option (Z * Z)) (binding : option Z) (l : Layer)
    : CompositionType :=
  match cursor with
  | Some (lid, _) =>
      if lid =? layer_id l then CursorType
      else match binding with Some _ => Device | None => Client end
  | None => match binding with Some _ => Device | None => Client end
  end.

(** Modelled from the spec: reading the plan's layer-to-plane mapping. *)
Fixpoint lookup_binding (a : list (Z * option Z)) (lid : Z) : option Z :=
  match a with
  | [] => None
  | (k, v) :: a' => if k =? lid then v else lookup_binding a' lid
  end.

(** Modelled from the spec: (output ordering) only the layers whose final
    type differs from the hint, in ascending layer-id order. *)
Definition changed (cursor : option (Z * Z)) (a : list (Z * option Z))
    (ls : list Layer) : list (Z * CompositionType) :=
  sort_by (fun y x => fst y <=? fst x)
    (omap (fun l =>
             let ty := final_type cursor (lookup_binding a (layer_id l)) l in
             if CompositionType_eqb ty (hint l) then None
             else Some (layer_id l, ty)) ls).

(** Modelled from the spec: (edge cases) the layers the planner keeps: all
    of them, or only those that touch the display where the device drops
    the others. *)
Definition kept (dev : DeviceProfile) (bounds : IRect) (ls : list Layer)
    : list Layer :=
  if drops_outside dev then filter (fun l => outside bounds l = false) ls else ls.

(** Modelled from the spec: [Plan(orderedLayers, availablePlanes)], steps 1
    to 5 in the document's order (the client-composition plane of step 4 is
    settled last, once step 5 has said which layers are left to the client).
    The per-pass flags are reset first; the registry is returned with the
    assignment flags of this pass. *)
Definition Plan (dev : DeviceProfile) (bounds : IRect)
    (orderedLayers : list Layer) (availablePlanes : list HardwarePlane)
    : CompositionPlan * list HardwarePlane :=
  let planes := reset_planes availablePlanes in
  let layers := kept dev bounds orderedLayers in
  let sorted := sort_layers layers in
  let '(cursor, planes) := reserve_cursor bounds sorted planes in
  let remaining :=
    match cursor with
    | Some (lid, _) => filter (fun l => layer_id l ≠ lid) sorted
    | None => sorted
    end in
  let '(bound, planes) := bind_layers dev bounds remaining planes in
  let '(bound, planes) := reassign (regressing_ids dev remaining) bound planes in
  let '(target, planes) := reserve_client_plane bound planes in
  let a :=
    match cursor with
    | Some (lid, pid) => (lid, Some pid) :: bound
    | None => bound
    end in
  ({| assignment := a; client_plane := target;
      changed_types := changed cursor a layers |}, planes).

End Planner.

(** ** Concrete devices, properties and layer sets used to exercise the
    statements below *)

Module Samples.
Import Errno DrmProperty DrmDevice.

Definition demo_enum_property : DrmProperty.t :=
  DrmProperty.make 31
    {| prop_id := 7; flags := DRM_MODE_PROP_ENUM; name := "rotation";
       values := [0; 1];
       enums := [ {| e_value := 10; e_name := "rotate-0" |};
                  {| e_value := 20; e_name := "rotate-90" |} ];
       blob_ids := [] |} 1.

Definition empty_request : drmModeAtomicReq := {| items := []; size_items := 0 |}.

Definition zpos_property : drmModePropertyRes :=
  {| prop_id := 40; flags := DRM_MODE_PROP_RANGE; name := "zpos";
     values := [0; 3]; enums := []; blob_ids := [] |}.

Definition type_property : drmModePropertyRes :=
  {| prop_id := 41; flags := Z.lor DRM_MODE_PROP_ENUM DRM_MODE_PROP_IMMUTABLE;
     name := "type"; values := [0; 1; 2];
     enums := [ {| e_value := 0; e_name := "Overlay" |};
                {| e_value := 1; e_name := "Primary" |};
                {| e_value := 2; e_name := "Cursor" |} ];
     blob_ids := [] |}.

(** A card with one CRTC, one encoder, one connector and one plane (object
    31).  The driver refuses the writeback capability and the modifiers
    query; [universal] and [atomic] are the return codes for the two
    mandatory capabilities. *)
Definition demo_kernel (universal atomic : Z) : Kernel :=
  {| sys_open := fun path => if String.eqb path "/dev/dri/card0" then 3 else -1;
     drmSetClientCap := fun _ c =>
       match c with
       | DRM_CLIENT_CAP_UNIVERSAL_PLANES => universal
       | DRM_CLIENT_CAP_ATOMIC => atomic
       | DRM_CLIENT_CAP_WRITEBACK_CONNECTORS => - EINVAL
       end;
     drmGetCap := fun _ c =>
       match c with
       | DRM_CAP_ADDFB2_MODIFIERS => None
       | DRM_CAP_CURSOR_WIDTH => Some 64
       | DRM_CAP_CURSOR_HEIGHT => Some 64
       end;
     drmIsMaster := fun _ => true;
     drmModeGetResources := fun _ =>
       Some {| min_width := 0; max_width := 4096; min_height := 0;
               max_height := 4096; crtcs := [50]; encoders := [60];
               connectors := [70] |};
     drmModeGetPlaneResources := fun _ => Some [31];
     drmModeObjectGetProperties := fun _ obj _ =>
       if obj =? 31 then Some [(41, 1); (40, 2)] else None;
     drmModeGetProperty := fun _ pid =>
       if pid =? 40 then Some zpos_property
       else if pid =? 41 then Some type_property
       else None |}.

(** A kernel that already holds GEM handle 1 and blob 8 for this client. *)
Definition busy_state : KState :=
  {| gem_handles := {[1]}; blobs := {[8]}; calls := [] |}.

(** Every call of one [CreateBufferForModeset] succeeds: handle 2, pitch
    7680, 8 MiB, mapped at 0x7f0000, exported as descriptor 9. *)
Definition all_succeed : DumbResponses :=
  {| r_create_dumb := Some (2, 7680, 8294400); r_map_dumb := Some 4096;
     r_mmap := Some 0x7f0000; r_munmap := true; r_prime_fd := Some 9 |}.

(** The same, but the export as a prime descriptor fails. *)
Definition export_fails : DumbResponses :=
  {| r_create_dumb := Some (2, 7680, 8294400); r_map_dumb := Some 4096;
     r_mmap := Some 0x7f0000; r_munmap := true; r_prime_fd := None |}.

(** The pipeline objects reduced to their ids. *)
Definition id_factory : Kernel -> Z -> Z -> nat -> option Z :=
  fun _ _ obj _ => Some obj.
Definition plane_factory : Kernel -> Z -> Z -> option Z :=
  fun _ _ obj => Some obj.
Definition never_writeback : Z -> bool := fun _ => false.

Definition demo_device : DrmDevice.t Z Z Z Z :=
  snd (Init id_factory id_factory id_factory plane_factory never_writeback
         (demo_kernel 0 0) (DrmDevice.make 0) "/dev/dri/card0").

(** A composer with one display (handle 0) that has one layer (handle 1). *)
Definition fresh_layer : Hwc2Device.HwcLayer.t :=
  {| Hwc2Device.HwcLayer.buffer_ := None;
     Hwc2Device.HwcLayer.blend_mode_ := BufferInfo.kNone;
     Hwc2Device.HwcLayer.color_space_ := BufferInfo.ColorSpace_kUndefined;
     Hwc2Device.HwcLayer.sample_range_ := BufferInfo.SampleRange_kUndefined;
     Hwc2Device.HwcLayer.composition_type_ := 0;
     Hwc2Device.HwcLayer.display_frame_ :=
       {| Hwc2Device.i_left := 0; Hwc2Device.i_top := 0;
          Hwc2Device.i_right := 0; Hwc2Device.i_bottom := 0 |};
     Hwc2Device.HwcLayer.alpha_ := 0x3f800000;
     Hwc2Device.HwcLayer.source_crop_ :=
       {| Hwc2Device.f_left := 0; Hwc2Device.f_top := 0;
          Hwc2Device.f_right := 0; Hwc2Device.f_bottom := 0 |};
     Hwc2Device.HwcLayer.transform_ :=
       {| Hwc2Device.hflip := false; Hwc2Device.vflip := false;
          Hwc2Device.rotate90 := false |};
     Hwc2Device.HwcLayer.z_order_ := 0 |}.

Definition demo_display : Hwc2Device.HwcDisplay :=
  {| Hwc2Device.layers_ := {[ 1 := fresh_layer ]} |}.

Definition demo_composer : Hwc2Device.DrmHwcTwo :=
  {| Hwc2Device.displays_ := {[ 0 := demo_display ]} |}.

(** The scenario of section 8: a primary plane (id 31) and two overlays
    (ids 32, 33), all scanning out XRGB8888 with the linear modifier, and
    opaque full-screen layers. *)
Definition scenario_plane (pid : Z) (ty : Planner.PlaneType) : Planner.HardwarePlane :=
  {| Planner.plane_id := pid; Planner.plane_type := ty;
     Planner.formats := [(kDumbBufferFormat, [0])];
     Planner.can_rotate := false; Planner.max_cursor_size := (64, 64);
     Planner.client_target := false; Planner.assigned := false |}.

Definition scenario_planes : list Planner.HardwarePlane :=
  [ scenario_plane 31 Planner.Primary; scenario_plane 32 Planner.Overlay;
    scenario_plane 33 Planner.Overlay ].

Definition scenario_layer (lid z md : Z) : Planner.Layer :=
  {| Planner.layer_id := lid; Planner.z_order := z;
     Planner.format := kDumbBufferFormat; Planner.modifier := md;
     Planner.frame :=
       {| Hwc2Device.i_left := 0; Hwc2Device.i_top := 0;
          Hwc2Device.i_right := 1920; Hwc2Device.i_bottom := 1080 |};
     Planner.transform :=
       {| Hwc2Device.hflip := false; Hwc2Device.vflip := false;
          Hwc2Device.rotate90 := false |};
     Planner.color_space := BufferInfo.kItuRec709;
     Planner.sample_range := BufferInfo.kFullRange;
     Planner.hint := Planner.Device |}.

Definition scenario_bounds : Hwc2Device.IRect :=
  {| Hwc2Device.i_left := 0; Hwc2Device.i_top := 0;
     Hwc2Device.i_right := 1920; Hwc2Device.i_bottom := 1080 |}.

Definition three_layers : list Planner.Layer :=
  [ scenario_layer 1 0 0; scenario_layer 2 1 0; scenario_layer 3 2 0 ].

(** The fourth layer carries a modifier no plane supports. *)
Definition four_layers : list Planner.Layer :=
  three_layers ++ [ scenario_layer 4 3 72057594037927937 ].

(** A device that cannot pre-rotate, forces off-display layers to client
    composition, and must not squash layers of different colour spaces. *)
Definition scenario_device : Planner.DeviceProfile :=
  {| Planner.pre_rotates := false;
     Planner.regresses := Planner.color_space_mismatch;
     Planner.drops_outside := false |}.

(** The same device, dropping off-display layers. *)
Definition dropping_device : Planner.DeviceProfile :=
  {| Planner.pre_rotates := false;
     Planner.regresses := Planner.color_space_mismatch;
     Planner.drops_outside := true |}.

(** The same registry with a cursor plane (id 34) and a client-composition
    plane (id 35). *)
Definition full_registry : list Planner.HardwarePlane :=
  scenario_planes
  ++ [ scenario_plane 34 Planner.Cursor;
       {| Planner.plane_id := 35; Planner.plane_type := Planner.Overlay;
          Planner.formats := [(kDumbBufferFormat, [0])];
          Planner.can_rotate := false; Planner.max_cursor_size := (64, 64);
          Planner.client_target := true; Planner.assigned := false |} ].

(** A 32x32 layer hinted "cursor" with its top-left corner at [(x, y)]. *)
Definition cursor_layer (lid z x y : Z) : Planner.Layer :=
  {| Planner.layer_id := lid; Planner.z_order := z;
     Planner.format := kDumbBufferFormat; Planner.modifier := 0;
     Planner.frame :=
       {| Hwc2Device.i_left := x; Hwc2Device.i_top := y;
          Hwc2Device.i_right := x + 32; Hwc2Device.i_bottom := y + 32 |};
     Planner.transform :=
       {| Hwc2Device.hflip := false; Hwc2Device.vflip := false;
          Hwc2Device.rotate90 := false |};
     Planner.color_space := BufferInfo.kItuRec709;
     Planner.sample_range := BufferInfo.kFullRange;
     Planner.hint := Planner.CursorType |}.

(** A full-screen BT.2020 layer. *)
Definition wide_gamut_layer (lid z : Z) : Planner.Layer :=
  {| Planner.layer_id := lid; Planner.z_order := z;
     Planner.format := kDumbBufferFormat; Planner.modifier := 0;
     Planner.frame := scenario_bounds;
     Planner.transform :=
       {| Hwc2Device.hflip := false; Hwc2Device.vflip := false;
          Hwc2Device.rotate90 := false |};
     Planner.color_space := BufferInfo.kItuRec2020;
     Planner.sample_range := BufferInfo.kFullRange;
     Planner.hint := Planner.Device |}.

End Samples.

(** ** hwc2_device.cpp: shortening [__PRETTY_FUNCTION__] for the log *)

Module FuncName.

(** [std::string::npos], and arithmetic in [size_t]. *)
Definition npos : Z := 2 ^ 64 - 1.
Definition size_t (z : Z) : Z := z mod 2 ^ 64.

Definition strlen (s : string) : Z := Z.of_nat (String.length s).

(** [str.find(needle, pos)]: the first position at or after [pos] where
    [needle] occurs, [npos] if there is none. *)
Definition find (str needle : string) (pos : Z) : Z :=
  match String.index (Z.to_nat pos) needle str with
  | Some i => Z.of_nat i
  | None => npos
  end.

(** What a call that may throw gives. *)
Inductive thrown (A : Type) : Type :=
| Returned (a : A)
| OutOfRange.
Arguments Returned {A} a.
Arguments OutOfRange {A}.

(** [str.substr(pos, count)]: throws [std::out_of_range] when [pos] is
    beyond the end, and stops at the end of the string. *)
Definition substr (str : string) (pos count : Z) : thrown string :=
  if strlen str <? pos then OutOfRange
  else Returned (String.substring (Z.to_nat pos)
                   (Z.to_nat (Z.min count (strlen str - pos))) str).

Definition start : string := "func = &".

(** [GetFuncName]. *)
Definition GetFuncName (pretty_function : string) : thrown string :=
  let str := pretty_function in
  let p1 := find str start 0 in
  let p1 := size_t (p1 + strlen start) in
  let p2 := find str "," p1 in
  substr str p1 (size_t (p2 - p1)).

End FuncName.

(** ** Vocabulary of the further statements *)

Module Summary.
Import BufferInfo DrmDevice Hwc2Device.

(** The cursor size [Init] records: both queries have to succeed. *)
Definition cursor_caps (k : Kernel) (fd : Z) (old : option (Z * Z)) : option (Z * Z) :=
  match drmGetCap k fd DRM_CAP_CURSOR_WIDTH, drmGetCap k fd DRM_CAP_CURSOR_HEIGHT with
  | Some w, Some h => Some (w, h)
  | _, _ => old
  end.

(** The entries in front of the first match of [GetProperty]: each can be
    read and has another name. *)
Definition skipped (k : Kernel) (fd : Z) (prop_name : string) (pv : Z * Z) : Prop :=
  exists q, drmModeGetProperty k fd (fst pv) = Some q
            /\ DrmProperty.name q <> prop_name.

(** The [LayerProperties] each setter fills in before it calls
    [SetLayerProperties]. *)
Definition handed (c : LayerSetter) : LayerProperties.t :=
  match c with
  | CallSetLayerBlendMode mode =>
      LayerProperties.set_blend_mode LayerProperties.empty (to_blend_mode mode)
  | CallSetLayerBuffer buffer fence =>
      LayerProperties.set_buffer LayerProperties.empty
        {| buffer_handle := buffer; acquire_fence := MakeSharedFd fence |}
  | CallSetLayerDataspace ds =>
      LayerProperties.set_sample_range
        (LayerProperties.set_color_space LayerProperties.empty (Hwc2ToColorSpace ds))
        (Hwc2ToSampleRange ds)
  | CallSetLayerCompositionType ty =>
      LayerProperties.set_composition_type LayerProperties.empty ty
  | CallSetLayerDisplayFrame frame =>
      LayerProperties.set_display_frame LayerProperties.empty frame
  | CallSetLayerPlaneAlpha alpha =>
      LayerProperties.set_alpha LayerProperties.empty alpha
  | CallSetLayerSourceCrop crop =>
      LayerProperties.set_source_crop LayerProperties.empty crop
  | CallSetLayerTransform t =>
      LayerProperties.set_transform LayerProperties.empty
        {| hflip := negb (Z.land t HAL_TRANSFORM_FLIP_H =? 0);
           vflip := negb (Z.land t HAL_TRANSFORM_FLIP_V =? 0);
           rotate90 := negb (Z.land t HAL_TRANSFORM_ROT_90 =? 0) |}
  | CallSetLayerZOrder z =>
      LayerProperties.set_z_order LayerProperties.empty z
  end.

(** Which of the nine setters a call is. *)
Definition setter_index (c : LayerSetter) : nat :=
  match c with
  | CallSetLayerBlendMode _ => 0
  | CallSetLayerBuffer _ _ => 1
  | CallSetLayerDataspace _ => 2
  | CallSetLayerCompositionType _ => 3
  | CallSetLayerDisplayFrame _ => 4
  | CallSetLayerPlaneAlpha _ => 5
  | CallSetLayerSourceCrop _ => 6
  | CallSetLayerTransform _ => 7
  | CallSetLayerZOrder _ => 8
  end.

(** The standard and range fields of an [android_dataspace_t]:
    [(ds & MASK) >> SHIFT]. *)
Definition standard_field (ds : Z) : Z := Z.land (Z.shiftr ds 16) 63.
Definition range_field (ds : Z) : Z := Z.land (Z.shiftr ds 27) 7.

End Summary.

Module MoreSamples.
Import Errno DrmProperty DrmDevice Samples.

(** The card of [demo_kernel], except that the plane also lists a property
    (id 99) that cannot be fetched, between "type" and "zpos". *)
Definition holey_kernel : Kernel :=
  {| sys_open := sys_open (demo_kernel 0 0);
     drmSetClientCap := drmSetClientCap (demo_kernel 0 0);
     drmGetCap := drmGetCap (demo_kernel 0 0);
     drmIsMaster := drmIsMaster (demo_kernel 0 0);
     drmModeGetResources := drmModeGetResources (demo_kernel 0 0);
     drmModeGetPlaneResources := drmModeGetPlaneResources (demo_kernel 0 0);
     drmModeObjectGetProperties := fun _ obj _ =>
       if obj =? 31 then Some [(41, 1); (99, 0); (40, 2)] else None;
     drmModeGetProperty := drmModeGetProperty (demo_kernel 0 0) |}.

(** A second display (handle 5) with two layers (handles 1 and 2) next to
    the display of [demo_composer]. *)
Definition two_displays : Hwc2Device.DrmHwcTwo :=
  {| Hwc2Device.displays_ :=
       {[ 0 := demo_display;
          5 := {| Hwc2Device.layers_ := {[ 1 := fresh_layer; 2 := fresh_layer ]} |} ]} |}.

End MoreSamples.

(** * Properties *)

(** ** DrmProperty *)

Section DrmPropertyFacts.
Import Errno DrmProperty Samples.

Lemma enums_at_in_range (p : DrmProperty.t) (i : Z) :
  0 <= i < Z.of_nat (length (enums_ p)) ->
  exists e, enums_ p !! Z.to_nat i = Some e /\ enums_at p i = Done e.
Proof.
  intros Hi. unfold enums_at.
  destruct (lookup_lt_is_Some_2 (enums_ p) (Z.to_nat i)) as [e He]; [lia|].
  exists e. by rewrite He.
Qed.

(** C8.  [DrmProperty::value] never indexes [enums_] out of bounds and
    reports every failure through its error code: (0, raw value) for a
    blob property; (-ENOENT, 0) for a non-blob property without values;
    for an enum property with values, (-ENOENT, 0) when the raw value is
    not below the number of enum entries and (0, value of the selected
    entry) otherwise; (-EINVAL, 0) for a bitmask or unrecognised type. *)
Theorem value_reports_by_error_code (p : DrmProperty.t)
    (Hraw : 0 <= value_ p) :
  is_fault (value p) = false
  /\ (type_ p = DRM_PROPERTY_TYPE_BLOB -> value p = Done (0, value_ p))
  /\ (type_ p <> DRM_PROPERTY_TYPE_BLOB -> values_ p = [] ->
      value p = Done (- ENOENT, 0))
  /\ (type_ p = DRM_PROPERTY_TYPE_ENUM -> values_ p <> [] ->
      (Z.of_nat (length (enums_ p)) <= value_ p ->
       value p = Done (- ENOENT, 0))
      /\ (value_ p < Z.of_nat (length (enums_ p)) ->
          exists e, enums_ p !! Z.to_nat (value_ p) = Some e
                    /\ value p = Done (0, enum_value_ e)))
  /\ (type_ p = DRM_PROPERTY_TYPE_BITMASK \/ type_ p = DRM_PROPERTY_TYPE_INVALID ->
      values_ p <> [] -> value p = Done (- EINVAL, 0)).
Proof.
  unfold value.
  destruct (type_ p) eqn:Hty; cbn [is_blob];
    destruct (values_ p) as [|v0 vs] eqn:Hvs;
    repeat split; try done; try (intros; congruence); try (intros [?|?]; congruence).
  all: destruct (Z.leb_spec (Z.of_nat (length (enums_ p))) (value_ p)) as [Hge|Hlt];
    try done; try lia.
  all: destruct (enums_at_in_range p (value_ p)) as (e & He & Hat); [lia|];
    rewrite Hat; try done.
  intros _. by exists e.
Qed.

Lemma value_reports_by_error_code_witness :
  0 <= value_ demo_enum_property
  /\ value demo_enum_property = Done (0, 20)
  /\ is_fault (value demo_enum_property) = false.
Proof.
  assert (H : 0 <= value_ demo_enum_property) by (vm_compute; discriminate).
  pose proof (value_reports_by_error_code demo_enum_property H) as (Hf & _).
  split; [exact H|]. split; [reflexivity|exact Hf].
Defined.

Lemma app_singleton_neq {A} (l : list A) (x : A) : l ++ [x] <> l.
Proof.
  intros Heq. apply (f_equal (@length A)) in Heq.
  rewrite length_app in Heq. cbn in Heq. lia.
Qed.

(** C9.  [AtomicSet] on a property that was never initialised (id 0)
    returns false and leaves the request as it was.  On an initialised
    property it returns true exactly when [drmModeAtomicAddProperty] did not
    report an error, which is exactly when the (object id, property id,
    value) triple was appended to the request; when it returns false the
    request is unchanged. *)
Theorem AtomicSet_appends_or_fails (realloc_ok : bool) (p : DrmProperty.t)
    (pset : drmModeAtomicReq) (v : Z) :
  (id_ p = 0 -> AtomicSet realloc_ok p pset v = (false, pset))
  /\ (id_ p <> 0 ->
      let r := AtomicSet realloc_ok p pset v in
      let triple :=
        {| object_id := obj_id_ p; property_id := id_ p; item_value := v |} in
      fst r =
        negb (fst (drmModeAtomicAddProperty realloc_ok pset (obj_id_ p) (id_ p) v) <? 0)
      /\ (fst r = true <-> items (snd r) = items pset ++ [triple])
      /\ (fst r = false -> snd r = pset)).
Proof.
  unfold AtomicSet. split.
  - intros ->. reflexivity.
  - intros Hid. apply Z.eqb_neq in Hid. rewrite Hid.
    unfold drmModeAtomicAddProperty, cursor. rewrite Hid, orb_false_r.
    destruct (obj_id_ p =? 0); cbn.
    { repeat split; try done. intros Heq. symmetry in Heq.
      by apply app_singleton_neq in Heq. }
    destruct (size_items pset <=? _), realloc_ok; cbn.
    all: try (repeat split; try done; intros Heq; symmetry in Heq;
              by apply app_singleton_neq in Heq).
    all: match goal with
         | |- context [Z.of_nat ?n <? 0] =>
             destruct (Z.ltb_spec (Z.of_nat n) 0) as [Hneg|_]; [lia|]
         end; cbn; repeat split; done.
Qed.

Lemma AtomicSet_appends_or_fails_witness :
  AtomicSet true DrmProperty.empty empty_request 5 = (false, empty_request)
  /\ fst (AtomicSet true demo_enum_property empty_request 5) = true
  /\ fst (AtomicSet false demo_enum_property empty_request 5) = false.
Proof.
  split.
  - apply (AtomicSet_appends_or_fails true DrmProperty.empty empty_request 5).
    reflexivity.
  - assert (Hid : id_ demo_enum_property <> 0) by (vm_compute; discriminate).
    destruct (AtomicSet_appends_or_fails true demo_enum_property empty_request 5)
      as [_ Ht].
    destruct (AtomicSet_appends_or_fails false demo_enum_property empty_request 5)
      as [_ Hf].
    specialize (Ht Hid) as (Ht & _). specialize (Hf Hid) as (Hf & _).
    split; [rewrite Ht | rewrite Hf]; reflexivity.
Defined.

End DrmPropertyFacts.

(** ** DrmDevice: probing and property lookup *)

Section DrmDeviceFacts.
Import Errno BufferInfo DrmDevice Summary.

Context {DrmCrtc DrmEncoder DrmConnector DrmPlane : Type}.
Variable mk_crtc : Kernel -> Z -> Z -> nat -> option DrmCrtc.
Variable mk_encoder : Kernel -> Z -> Z -> nat -> option DrmEncoder.
Variable mk_connector : Kernel -> Z -> Z -> nat -> option DrmConnector.
Variable mk_plane : Kernel -> Z -> Z -> option DrmPlane.
Variable is_writeback : DrmConnector -> bool.

Local Abbreviation device := (DrmDevice.t DrmCrtc DrmEncoder DrmConnector DrmPlane).
Local Abbreviation Init := (Init mk_crtc mk_encoder mk_connector mk_plane is_writeback).
Local Abbreviation CreateInstance :=
  (CreateInstance mk_crtc mk_encoder mk_connector mk_plane is_writeback).
Local Abbreviation GetProperty :=
  (@GetProperty DrmCrtc DrmEncoder DrmConnector DrmPlane).
Local Abbreviation IsKMSDev := DrmDevice.IsKMSDev.

(** The return code of [Init] never looks at the answers to the writeback
    capability and to the modifiers query. *)
Lemma Init_code_ignores_optional_caps (k : Kernel) (self : device)
    (path : string) (wb : Z) (mods : option Z) :
  fst (Init (with_optional_caps k wb mods) self path) = fst (Init k self path).
Proof.
  unfold DrmDevice.Init. cbn.
  destruct (MakeSharedFd (sys_open k path)) as [fd|]; [|reflexivity].
  destruct (drmSetClientCap k fd DRM_CLIENT_CAP_UNIVERSAL_PLANES =? 0); [|reflexivity].
  destruct (drmSetClientCap k fd DRM_CLIENT_CAP_ATOMIC =? 0); [|reflexivity].
  cbn. destruct (drmIsMaster k fd); [|reflexivity]. cbn.
  destruct (drmModeGetResources k fd); [|reflexivity].
  destruct (drmModeGetPlaneResources k fd); reflexivity.
Qed.

(** C2.  Once the node is open, [Init] returns a nonzero code -- and
    [CreateInstance] gives no device -- when enabling universal planes or
    atomic fails.  The writeback capability and the modifiers query do not
    influence the return code; when the modifiers query fails and both
    mandatory capabilities were granted, modifier support is recorded as
    absent. *)
Theorem Init_capability_negotiation (k : Kernel) (self : device)
    (path : string) (index fd : Z)
    (Hopen : MakeSharedFd (sys_open k path) = Some fd) :
  (drmSetClientCap k fd DRM_CLIENT_CAP_UNIVERSAL_PLANES <> 0
   \/ drmSetClientCap k fd DRM_CLIENT_CAP_ATOMIC <> 0 ->
   fst (Init k self path) <> 0 /\ CreateInstance k path index = None)
  /\ (forall wb mods,
        fst (Init (with_optional_caps k wb mods) self path) = fst (Init k self path))
  /\ (drmSetClientCap k fd DRM_CLIENT_CAP_UNIVERSAL_PLANES = 0 ->
      drmSetClientCap k fd DRM_CLIENT_CAP_ATOMIC = 0 ->
      drmGetCap k fd DRM_CAP_ADDFB2_MODIFIERS = None ->
      HasAddFb2ModifiersSupport_ (snd (Init k self path)) = false).
Proof.
  split; [|split].
  - intros Hfail.
    assert (Hcode : forall d, fst (Init k d path) <> 0).
    { intros d. unfold DrmDevice.Init. rewrite Hopen.
      destruct (Z.eqb_spec (drmSetClientCap k fd DRM_CLIENT_CAP_UNIVERSAL_PLANES) 0)
        as [Hu|Hu]; cbn; [|exact Hu].
      destruct (Z.eqb_spec (drmSetClientCap k fd DRM_CLIENT_CAP_ATOMIC) 0)
        as [Ha|Ha]; cbn; [|exact Ha].
      destruct Hfail; contradiction. }
    split; [apply Hcode|].
    unfold DrmDevice.CreateInstance.
    destruct (DrmDevice.IsKMSDev k path); [|reflexivity]. cbn.
    specialize (Hcode (DrmDevice.make index)).
    destruct (Init k (DrmDevice.make index) path) as [ret d]. cbn in Hcode.
    apply Z.eqb_neq in Hcode. by rewrite Hcode.
  - intros wb mods. apply Init_code_ignores_optional_caps.
  - intros Hu Ha Hm. unfold DrmDevice.Init.
    rewrite Hopen, Hu, Ha, Hm. cbn.
    destruct (drmIsMaster k fd); [|reflexivity]. cbn.
    destruct (drmModeGetResources k fd); [|reflexivity].
    destruct (drmModeGetPlaneResources k fd); reflexivity.
Qed.

(** C10.  [CreateInstance] gives a device only for a path that [IsKMSDev]
    accepts and on which [Init] returns 0 (the device is then the one
    [Init] filled in); and [IsKMSDev] holds exactly when the node opens, its
    mode resources can be fetched, and they list at least one CRTC, one
    connector and one encoder. *)
Theorem CreateInstance_needs_kms_and_init (k : Kernel) (path : string) (index : Z) :
  (CreateInstance k path index = None <->
     IsKMSDev k path = false \/ fst (Init k (DrmDevice.make index) path) <> 0)
  /\ (forall d, CreateInstance k path index = Some d ->
        IsKMSDev k path = true
        /\ Init k (DrmDevice.make index) path = (0, d))
  /\ (IsKMSDev k path = true <->
      exists fd res,
        MakeSharedFd (sys_open k path) = Some fd
        /\ drmModeGetResources k fd = Some res
        /\ 0 < count_crtcs res /\ 0 < count_connectors res
        /\ 0 < count_encoders res).
Proof.
  split; [|split].
  - unfold DrmDevice.CreateInstance.
    destruct (DrmDevice.IsKMSDev k path); cbn; [|tauto].
    destruct (Init k (DrmDevice.make index) path) as [ret d]. cbn.
    destruct (Z.eqb_spec ret 0) as [->|Hne]; cbn.
    + split; [discriminate|]. intros [?|?]; congruence.
    + tauto.
  - intros d. unfold DrmDevice.CreateInstance.
    destruct (DrmDevice.IsKMSDev k path); cbn; [|discriminate].
    destruct (Init k (DrmDevice.make index) path) as [ret d'].
    destruct (Z.eqb_spec ret 0) as [->|Hne]; cbn; [|discriminate].
    intros [= ->]. done.
  - unfold DrmDevice.IsKMSDev.
    destruct (MakeSharedFd (sys_open k path)) as [fd|].
    2: { split; [discriminate|]. intros (? & ? & ? & _). discriminate. }
    destruct (drmModeGetResources k fd) as [res|] eqn:Hres.
    2: { split; [discriminate|]. intros (? & ? & ? & ? & _). simplify_eq. }
    rewrite !andb_true_iff, !Z.ltb_lt. split.
    + intros [[? ?] ?]. by exists fd, res.
    + intros (? & ? & ? & ? & ? & ? & ?). by simplify_eq.
Qed.

Lemma scan_props_first_match (k : Kernel) (fd obj_id pid v : Z) (prop_name : string)
    (before after : list (Z * Z)) (p : DrmProperty.drmModePropertyRes)
    (property : DrmProperty.t) :
  Forall (skipped k fd prop_name) before ->
  drmModeGetProperty k fd pid = Some p ->
  DrmProperty.name p = prop_name ->
  scan_props k fd obj_id prop_name (before ++ (pid, v) :: after) property
  = Done (true, DrmProperty.Init property obj_id p v).
Proof.
  intros Hbefore Hp Hname.
  induction Hbefore as [|[pid' v'] before (q & Hq & Hne) _ IH]; cbn.
  - rewrite Hp. apply String.eqb_eq in Hname. by rewrite Hname.
  - cbn in Hq. rewrite Hq. apply String.eqb_neq in Hne. by rewrite Hne.
Qed.

Lemma scan_props_null (k : Kernel) (fd obj_id pid v : Z) (prop_name : string)
    (before after : list (Z * Z)) (property : DrmProperty.t) :
  Forall (skipped k fd prop_name) before ->
  drmModeGetProperty k fd pid = None ->
  scan_props k fd obj_id prop_name (before ++ (pid, v) :: after) property = Fault.
Proof.
  intros Hbefore Hp.
  induction Hbefore as [|[pid' v'] before (q & Hq & Hne) _ IH]; cbn.
  - by rewrite Hp.
  - cbn in Hq. rewrite Hq. apply String.eqb_neq in Hne. by rewrite Hne.
Qed.

Lemma scan_props_result (k : Kernel) (fd obj_id : Z) (prop_name : string)
    (props : list (Z * Z)) (property property' : DrmProperty.t) (found : bool) :
  scan_props k fd obj_id prop_name props property = Done (found, property') ->
  (found = true ->
   exists pid v p,
     (pid, v) ∈ props /\ drmModeGetProperty k fd pid = Some p
     /\ DrmProperty.name p = prop_name
     /\ property' = DrmProperty.Init property obj_id p v)
  /\ (found = false -> property' = property).
Proof.
  induction props as [|[pid v] props IH]; cbn.
  - intros [= <- <-]. split; [discriminate|done].
  - destruct (drmModeGetProperty k fd pid) as [p|] eqn:Hp; [|discriminate].
    destruct (String.eqb_spec (DrmProperty.name p) prop_name) as [Hname|Hne].
    + intros [= <- <-]. split; [|discriminate].
      intros _. exists pid, v, p. split; [left|done].
    + intros Hscan. destruct (IH Hscan) as [Hfound Hsame]. split; [|done].
      intros Ht. destruct (Hfound Ht) as (pid' & v' & p' & Hin & ?).
      exists pid', v', p'. split; [by right|done].
Qed.

(** When every listed property can be read and none has the wanted name,
    the loop runs to the end and finds nothing. *)
Lemma scan_props_all_skipped (k : Kernel) (fd obj_id : Z) (prop_name : string)
    (props : list (Z * Z)) (property : DrmProperty.t) :
  Forall (skipped k fd prop_name) props ->
  scan_props k fd obj_id prop_name props property = Done (false, property).
Proof.
  induction 1 as [|[pid v] props (q & Hq & Hne) _ IH]; cbn; [reflexivity|].
  cbn in Hq. rewrite Hq. apply String.eqb_neq in Hne. by rewrite Hne.
Qed.

(** Conversely, a loop that ends without a match has read every listed
    property and found another name on each. *)
Lemma scan_props_not_found (k : Kernel) (fd obj_id : Z) (prop_name : string)
    (props : list (Z * Z)) (property property' : DrmProperty.t) :
  scan_props k fd obj_id prop_name props property = Done (false, property') ->
  Forall (skipped k fd prop_name) props.
Proof.
  induction props as [|[pid v] props IH]; cbn; [constructor|].
  destruct (drmModeGetProperty k fd pid) as [p|] eqn:Hp; [|discriminate].
  destruct (String.eqb_spec (DrmProperty.name p) prop_name) as [Hname|Hne];
    [discriminate|].
  intros Hscan. constructor; [by exists p|by apply IH].
Qed.

(** C3, as the code has it.  On an open device [GetProperty] returns
    -ENODEV, leaving [*property] alone, when the object's property list
    cannot be fetched.  When the list is fetched, it returns 0 (and
    initialises [*property]) if a property with the wanted name is listed and
    the entries listed before the first such one can be read, and it returns
    -ENOENT (leaving [*property] alone) if every listed property can be read
    and none has the wanted name.  Whenever it returns, the code is 0, -ENOENT
    or -ENODEV, and each code is returned in those circumstances only. *)
Theorem GetProperty_result_codes (k : Kernel) (self : device) (fd obj_id obj_type : Z)
    (prop_name : string) (property : DrmProperty.t)
    (Hfd : fd_ self = Some fd) :
  (drmModeObjectGetProperties k fd obj_id obj_type = None ->
   GetProperty k self obj_id obj_type prop_name property = Done (- ENODEV, property))
  /\ (forall before pid v after p,
        drmModeObjectGetProperties k fd obj_id obj_type
        = Some (before ++ (pid, v) :: after) ->
        Forall (skipped k fd prop_name) before ->
        drmModeGetProperty k fd pid = Some p ->
        DrmProperty.name p = prop_name ->
        GetProperty k self obj_id obj_type prop_name property
        = Done (0, DrmProperty.Init property obj_id p v))
  /\ (forall props,
        drmModeObjectGetProperties k fd obj_id obj_type = Some props ->
        Forall (skipped k fd prop_name) props ->
        GetProperty k self obj_id obj_type prop_name property
        = Done (- ENOENT, property))
  /\ (forall ret property',
        GetProperty k self obj_id obj_type prop_name property = Done (ret, property') ->
        (ret = 0
         /\ exists props pid v p,
             drmModeObjectGetProperties k fd obj_id obj_type = Some props
             /\ (pid, v) ∈ props
             /\ drmModeGetProperty k fd pid = Some p
             /\ DrmProperty.name p = prop_name
             /\ property' = DrmProperty.Init property obj_id p v)
        \/ (ret = - ENOENT /\ property' = property
            /\ exists props,
                drmModeObjectGetProperties k fd obj_id obj_type = Some props
                /\ Forall (skipped k fd prop_name) props)
        \/ (ret = - ENODEV /\ property' = property
            /\ drmModeObjectGetProperties k fd obj_id obj_type = None)).
Proof.
  unfold DrmDevice.GetProperty. rewrite Hfd. split; [|split; [|split]].
  - intros ->. reflexivity.
  - intros before pid v after p -> Hbefore Hp Hname.
    by rewrite (scan_props_first_match k fd obj_id pid v prop_name before after p
                  property Hbefore Hp Hname).
  - intros props -> Hall.
    by rewrite (scan_props_all_skipped k fd obj_id prop_name props property Hall).
  - intros ret property'.
    destruct (drmModeObjectGetProperties k fd obj_id obj_type) as [props|].
    2: { intros [= <- <-]. right. right. done. }
    destruct (scan_props k fd obj_id prop_name props property)
      as [[found p'']|] eqn:Hscan; [|discriminate].
    intros [= <- <-].
    destruct (scan_props_result k fd obj_id prop_name props property p'' found Hscan)
      as [Hfound Hsame].
    destruct found.
    + left. split; [reflexivity|].
      destruct (Hfound eq_refl) as (pid & v & p & ? & ? & ? & ?).
      by exists props, pid, v, p.
    + right. left. split; [reflexivity|]. split; [by apply Hsame|].
      exists props. split; [reflexivity|].
      by apply (scan_props_not_found k fd obj_id prop_name props property p'').
Qed.

End DrmDeviceFacts.

Section DrmDeviceOnSamples.
Import Errno BufferInfo DrmDevice Summary Samples MoreSamples.

Local Abbreviation Init :=
  (Init id_factory id_factory id_factory plane_factory never_writeback).
Local Abbreviation CreateInstance :=
  (CreateInstance id_factory id_factory id_factory plane_factory never_writeback).

Lemma Init_capability_negotiation_witness :
  MakeSharedFd (sys_open (demo_kernel 0 0) "/dev/dri/card0") = Some 3
  /\ fst (Init (demo_kernel 0 0) (DrmDevice.make 0) "/dev/dri/card0") = 0
  /\ HasAddFb2ModifiersSupport_
       (snd (Init (demo_kernel 0 0) (DrmDevice.make 0) "/dev/dri/card0")) = false
  /\ fst (Init (demo_kernel 0 (- EINVAL)) (DrmDevice.make 0) "/dev/dri/card0") <> 0
  /\ CreateInstance (demo_kernel 0 (- EINVAL)) "/dev/dri/card0" 0 = None.
Proof.
  assert (Hopen : forall u a,
             MakeSharedFd (sys_open (demo_kernel u a) "/dev/dri/card0") = Some 3)
    by reflexivity.
  split; [apply Hopen|]. split; [reflexivity|].
  destruct (Init_capability_negotiation id_factory id_factory id_factory
              plane_factory never_writeback (demo_kernel 0 0) (DrmDevice.make 0)
              "/dev/dri/card0" 0 3 (Hopen 0 0)) as (_ & _ & Hmods).
  split; [apply Hmods; reflexivity|].
  destruct (Init_capability_negotiation id_factory id_factory id_factory
              plane_factory never_writeback (demo_kernel 0 (- EINVAL))
              (DrmDevice.make 0) "/dev/dri/card0" 0 3 (Hopen 0 (- EINVAL)))
    as (Hfail & _).
  apply Hfail. right. vm_compute. discriminate.
Defined.

Lemma CreateInstance_needs_kms_and_init_witness :
  CreateInstance (demo_kernel 0 0) "/dev/dri/card0" 0 = Some demo_device
  /\ IsKMSDev (demo_kernel 0 0) "/dev/dri/card0" = true
  /\ CreateInstance (demo_kernel 0 0) "/dev/null" 0 = None.
Proof.
  destruct (CreateInstance_needs_kms_and_init id_factory id_factory id_factory
              plane_factory never_writeback (demo_kernel 0 0) "/dev/dri/card0" 0)
    as (_ & Hsome & _).
  destruct (CreateInstance_needs_kms_and_init id_factory id_factory id_factory
              plane_factory never_writeback (demo_kernel 0 0) "/dev/null" 0)
    as (Hnone & _ & _).
  split; [reflexivity|]. split.
  - apply (Hsome demo_device). reflexivity.
  - apply Hnone. left. reflexivity.
Defined.

(** C3, as stated, fails: asking for a property of an object the driver
    does not know (id 99) gives -ENODEV, which is neither 0 nor -ENOENT. *)
Lemma GetProperty_unknown_object_gives_ENODEV :
  GetProperty (demo_kernel 0 0) demo_device 99 0 "zpos" DrmProperty.empty
    = Done (- ENODEV, DrmProperty.empty)
  /\ - ENODEV <> 0 /\ - ENODEV <> - ENOENT.
Proof. split; [reflexivity|]. split; discriminate. Qed.

Lemma GetProperty_result_codes_witness :
  fd_ demo_device = Some 3
  /\ GetProperty (demo_kernel 0 0) demo_device 99 0 "zpos" DrmProperty.empty
     = Done (- ENODEV, DrmProperty.empty)
  /\ GetProperty (demo_kernel 0 0) demo_device 31 0 "zpos" DrmProperty.empty
     = Done (0, DrmProperty.make 31 zpos_property 2)
  /\ GetProperty holey_kernel demo_device 31 0 "type" DrmProperty.empty
     = Done (0, DrmProperty.make 31 type_property 1)
  /\ GetProperty (demo_kernel 0 0) demo_device 31 0 "alpha" DrmProperty.empty
     = Done (- ENOENT, DrmProperty.empty).
Proof.
  assert (Hfd : fd_ demo_device = Some 3) by reflexivity.
  assert (Htype : forall (k : Kernel) (n : string),
             drmModeGetProperty k 3 41 = Some type_property ->
             n <> "type"%string -> skipped k 3 n (41, 1)).
  { intros k n Hget Hn. exists type_property. split; [exact Hget|].
    intros Heq. apply Hn. by rewrite <- Heq. }
  assert (Hzpos : forall (k : Kernel) (n : string),
             drmModeGetProperty k 3 40 = Some zpos_property ->
             n <> "zpos"%string -> skipped k 3 n (40, 2)).
  { intros k n Hget Hn. exists zpos_property. split; [exact Hget|].
    intros Heq. apply Hn. by rewrite <- Heq. }
  split; [exact Hfd|]. split; [|split; [|split]].
  - apply (GetProperty_result_codes (demo_kernel 0 0) demo_device 3 99 0 "zpos"
             DrmProperty.empty Hfd). reflexivity.
  - destruct (GetProperty_result_codes (demo_kernel 0 0) demo_device 3 31 0 "zpos"
                DrmProperty.empty Hfd) as (_ & Hfirst & _).
    apply (Hfirst [(41, 1)] 40 2 [] zpos_property); try reflexivity.
    constructor; [|constructor]. apply Htype; [reflexivity|discriminate].
  - destruct (GetProperty_result_codes holey_kernel demo_device 3 31 0 "type"
                DrmProperty.empty Hfd) as (_ & Hfirst & _).
    apply (Hfirst [] 41 1 [(99, 0); (40, 2)] type_property); try reflexivity.
    constructor.
  - destruct (GetProperty_result_codes (demo_kernel 0 0) demo_device 3 31 0 "alpha"
                DrmProperty.empty Hfd) as (_ & _ & Hnone & _).
    apply (Hnone [(41, 1); (40, 2)]); [reflexivity|].
    constructor; [apply Htype; [reflexivity|discriminate]|].
    constructor; [apply Hzpos; [reflexivity|discriminate]|constructor].
Defined.

End DrmDeviceOnSamples.

(** ** DrmDevice: kernel objects with manual lifetime *)

Section KernelObjects.
Import Errno BufferInfo DrmDevice.

Context {DrmCrtc DrmEncoder DrmConnector DrmPlane : Type}.
Local Abbreviation device := (DrmDevice.t DrmCrtc DrmEncoder DrmConnector DrmPlane).

Lemma gem_released (h : Z) (live : gset Z) :
  h ∉ live -> ({[h]} ∪ live) ∖ {[h]} = live.
Proof.
  intros Hfresh. apply set_eq. intros x.
  rewrite elem_of_difference, elem_of_union, elem_of_singleton.
  split; [tauto|]. intros Hx. split; [by right|]. by intros ->.
Qed.

(** No buffer was returned, so nothing needs to have succeeded. *)
Lemma ex_comm_r {A} (P : Prop) (Q : A -> Prop) :
  P /\ (exists a, Q a) -> exists a, P /\ Q a.
Proof. intros [HP [a HQ]]. by exists a. Qed.

Local Ltac no_buffer :=
  let Hx := fresh in intros [? Hx]; cbn in Hx; discriminate Hx.

(** The handle the kernel gave out is the one in the destroy call, and that
    call occurs once, at the end. *)
Local Ltac destroyed_once :=
  intros ? ? ? [= <- <- <-]; split; [|reflexivity];
  unfold count_call; cbn; repeat case_decide; done.

(** Whatever the kernel answers, a call of [CreateBufferForModeset] leaves
    the set of live GEM handles as it found it; a handle that was created is
    destroyed exactly once, as the last call made; and a buffer is returned
    only if nothing failed. *)
Lemma CreateBufferForModeset_releases_handle (r : DumbResponses) (self : device)
    (fd width height : Z) (st : KState)
    (Hfd : fd_ self = Some fd)
    (Hhandle : forall handle pitch size,
        r_create_dumb r = Some (handle, pitch, size) ->
        0 < handle /\ handle ∉ gem_handles st) :
  exists m new,
    CreateBufferForModeset r self width height = Done m
    /\ calls (snd (m st)) = calls st ++ new
    /\ gem_handles (snd (m st)) = gem_handles st
    /\ blobs (snd (m st)) = blobs st
    /\ (forall handle pitch size,
          r_create_dumb r = Some (handle, pitch, size) ->
          count_call (MODE_DESTROY_DUMB fd handle) new = 1%nat
          /\ last new = Some (MODE_DESTROY_DUMB fd handle))
    /\ (r_create_dumb r = None \/ r_map_dumb r = None \/ r_mmap r = None
        \/ r_prime_fd r = None -> fst (m st) = None)
    /\ (is_Some (fst (m st)) ->
        is_Some (r_create_dumb r) /\ is_Some (r_map_dumb r)
        /\ is_Some (r_mmap r) /\ is_Some (r_prime_fd r)).
Proof.
  destruct (CreateBufferForModeset r self width height) as [m|] eqn:Hm;
    unfold CreateBufferForModeset in Hm; rewrite Hfd in Hm; [|discriminate].
  injection Hm as <-. eexists _. apply ex_comm_r.
  split; [reflexivity|].
  unfold ioctl_create_dumb, sys_bind at 1 2. cbn [log fst snd].
  destruct (r_create_dumb r) as [[[handle pitch] size]|] eqn:Hcreate.
  2: { exists [MODE_CREATE_DUMB fd width height kDumbBufferBpp].
       cbn. do 5 (split; [done|]). no_buffer. }
  destruct (Hhandle handle pitch size eq_refl) as [Hpos Hfresh].
  assert (Hgt : (0 <? handle) = true) by (apply Z.ltb_lt; lia).
  unfold done_label, ioctl_map_dumb, sys_mmap, sys_memset, sys_munmap,
    drmPrimeHandleToFD, ioctl_destroy_dumb, gem_add, gem_remove, log,
    sys_bind, sys_ret.
  rewrite Hgt. cbn.
  destruct (r_map_dumb r) as [offset|] eqn:Hmap; cbn;
    [destruct (r_mmap r) as [addr|] eqn:Hmmap; cbn;
     [destruct (r_prime_fd r) as [pfd|] eqn:Hprime; cbn|]|].
  all: eexists; rewrite <- !app_assoc; cbn.
  all: split; [reflexivity|]; split; [by apply gem_released|].
  all: split; [reflexivity|]; split; [destroyed_once|].
  - split; [|by repeat split]. intros [[=]|[[=]|[[=]|[=]]]].
  - split; [done|no_buffer].
  - split; [done|no_buffer].
  - split; [done|no_buffer].
Qed.

(** A blob that [RegisterUserPropertyBlob] created stays alive while its
    owner holds it, is destroyed by the one destroy call that releasing the
    owner makes, and the emptied owner makes no further call. *)
Lemma blob_destroyed_on_release (created : option Z) (self : device)
    (fd data len : Z) (st : KState)
    (Hfd : fd_ self = Some fd)
    (Hfresh : forall b, created = Some b -> b ∉ blobs st) :
  exists m,
    RegisterUserPropertyBlob created self data len = Done m
    /\ gem_handles (snd (m st)) = gem_handles st
    /\ calls (snd (m st)) = calls st ++ [MODE_CREATEPROPBLOB fd len]
    /\ match created with
       | None => fst (m st) = None /\ blobs (snd (m st)) = blobs st
       | Some b =>
           b ∈ blobs (snd (m st))
           /\ exists rel,
               release_blob (fst (m st)) = Done rel
               /\ fst (rel (snd (m st))) = None
               /\ blobs (snd (rel (snd (m st)))) = blobs st
               /\ calls (snd (rel (snd (m st)))) =
                    calls st ++ [MODE_CREATEPROPBLOB fd len;
                                 MODE_DESTROYPROPBLOB fd b]
               /\ exists again,
                   release_blob (fst (rel (snd (m st)))) = Done again
                   /\ forall s, again s = (None, s)
       end.
Proof.
  unfold RegisterUserPropertyBlob. rewrite Hfd.
  eexists. split; [reflexivity|].
  destruct created as [b|]; cbn; [|done].
  do 2 (split; [reflexivity|]). split; [set_solver|].
  unfold release_blob, blob_deleter. cbn.
  eexists. split; [reflexivity|]. cbn.
  split; [reflexivity|]. split; [apply gem_released; by apply Hfresh|].
  split; [by rewrite <- app_assoc|].
  eexists. split; [reflexivity|]. done.
Qed.

(** C6.  Kernel objects do not outlive the operation or owner that holds
    them.  (1) [CreateBufferForModeset], on an open device and for a fresh,
    valid (nonzero) handle from the kernel, leaves no GEM handle behind: the
    handle it created is destroyed exactly once, by the last call it makes,
    whether or not the map-dumb ioctl, the mmap or the prime export fail; in
    each of those failure cases no buffer is returned.  (2) A blob created
    by [RegisterUserPropertyBlob] is destroyed exactly once: by releasing
    its owning handle, after which the handle is empty and inert. *)
Theorem kernel_objects_released_on_every_path (r : DumbResponses)
    (created : option Z) (self : device) (fd width height data len : Z)
    (st : KState)
    (Hfd : fd_ self = Some fd)
    (Hhandle : forall handle pitch size,
        r_create_dumb r = Some (handle, pitch, size) ->
        0 < handle /\ handle ∉ gem_handles st)
    (Hblob : forall b, created = Some b -> b ∉ blobs st) :
  (exists m new,
     CreateBufferForModeset r self width height = Done m
     /\ calls (snd (m st)) = calls st ++ new
     /\ gem_handles (snd (m st)) = gem_handles st
     /\ blobs (snd (m st)) = blobs st
     /\ (forall handle pitch size,
           r_create_dumb r = Some (handle, pitch, size) ->
           count_call (MODE_DESTROY_DUMB fd handle) new = 1%nat
           /\ last new = Some (MODE_DESTROY_DUMB fd handle))
     /\ (r_create_dumb r = None \/ r_map_dumb r = None \/ r_mmap r = None
         \/ r_prime_fd r = None -> fst (m st) = None)
     /\ (is_Some (fst (m st)) ->
         is_Some (r_create_dumb r) /\ is_Some (r_map_dumb r)
         /\ is_Some (r_mmap r) /\ is_Some (r_prime_fd r)))
  /\ (exists m,
       RegisterUserPropertyBlob created self data len = Done m
       /\ gem_handles (snd (m st)) = gem_handles st
       /\ calls (snd (m st)) = calls st ++ [MODE_CREATEPROPBLOB fd len]
       /\ match created with
          | None => fst (m st) = None /\ blobs (snd (m st)) = blobs st
          | Some b =>
              b ∈ blobs (snd (m st))
              /\ exists rel,
                  release_blob (fst (m st)) = Done rel
                  /\ fst (rel (snd (m st))) = None
                  /\ blobs (snd (rel (snd (m st)))) = blobs st
                  /\ calls (snd (rel (snd (m st)))) =
                       calls st ++ [MODE_CREATEPROPBLOB fd len;
                                    MODE_DESTROYPROPBLOB fd b]
                  /\ exists again,
                      release_blob (fst (rel (snd (m st)))) = Done again
                      /\ forall s, again s = (None, s)
          end).
Proof.
  split.
  - by apply CreateBufferForModeset_releases_handle.
  - by apply blob_destroyed_on_release.
Qed.

End KernelObjects.

Section KernelObjectsOnSamples.
Import Errno BufferInfo DrmDevice Samples.

(** The exact calls of a run in which only the prime export fails. *)
Example export_failure_trace :
  exists m,
    CreateBufferForModeset export_fails demo_device 1920 1080 = Done m
    /\ fst (m busy_state) = None
    /\ calls (snd (m busy_state)) =
         [ MODE_CREATE_DUMB 3 1920 1080 32; MODE_MAP_DUMB 3 2;
           SYS_mmap 3 8294400 4096; SYS_memset 0x7f0000 8294400;
           SYS_munmap 0x7f0000 8294400; PRIME_HANDLE_TO_FD 3 2;
           MODE_DESTROY_DUMB 3 2 ].
Proof. eexists. split; [reflexivity|]. split; reflexivity. Qed.

Lemma kernel_objects_released_on_every_path_witness :
  fd_ demo_device = Some 3
  /\ (exists m,
        CreateBufferForModeset export_fails demo_device 1920 1080 = Done m
        /\ gem_handles (snd (m busy_state)) = gem_handles busy_state
        /\ fst (m busy_state) = None)
  /\ (exists m,
        RegisterUserPropertyBlob (Some 5) demo_device 0 16 = Done m
        /\ 5 ∈ blobs (snd (m busy_state))).
Proof.
  assert (Hfd : fd_ demo_device = Some 3) by reflexivity.
  assert (Hhandle : forall handle pitch size,
             r_create_dumb export_fails = Some (handle, pitch, size) ->
             0 < handle /\ handle ∉ gem_handles busy_state).
  { intros ? ? ? [= <- <- <-]. split; [lia|].
    cbn. rewrite elem_of_singleton. discriminate. }
  assert (Hblob : forall b, Some 5 = Some b -> b ∉ blobs busy_state).
  { intros ? [= <-]. cbn. rewrite elem_of_singleton. discriminate. }
  destruct (kernel_objects_released_on_every_path export_fails (Some 5)
              demo_device 3 1920 1080 0 16 busy_state Hfd Hhandle Hblob)
    as [(m & new & Hrun & _ & Hgem & _ & _ & Hnone & _)
        (m' & Hreg & _ & _ & Hlive & _)].
  split; [exact Hfd|]. split.
  - exists m. split; [exact Hrun|]. split; [exact Hgem|].
    apply Hnone. right. right. right. reflexivity.
  - exists m'. split; [exact Hreg|exact Hlive].
Defined.

End KernelObjectsOnSamples.

(** ** The layer-property hooks *)

Section LayerHooks.
Import BufferInfo Hwc2Device.

(** C1.  Each of the nine layer-property setters answers BadDisplay when
    the display handle names no display, and BadLayer when the display
    exists but the layer handle names none of its layers; in both cases the
    composer's state (every display, every layer) is returned as it was. *)
Theorem layer_setters_reject_bad_handles (c : LayerSetter) (hwc : DrmHwcTwo)
    (display layer : Z) :
  (GetDisplay hwc display = None ->
   call_setter c hwc display layer = (Error.BadDisplay, hwc))
  /\ (forall idisplay,
        GetDisplay hwc display = Some idisplay ->
        get_layer idisplay layer = None ->
        call_setter c hwc display layer = (Error.BadLayer, hwc)).
Proof.
  split.
  - intros Hd. destruct c; cbn;
      unfold SetLayerBlendMode, SetLayerBuffer, SetLayerDataspace,
        SetLayerCompositionType, SetLayerDisplayFrame, SetLayerPlaneAlpha,
        SetLayerSourceCrop, SetLayerTransform, SetLayerZOrder, with_layer;
      by rewrite Hd.
  - intros idisplay Hd Hl. destruct c; cbn;
      unfold SetLayerBlendMode, SetLayerBuffer, SetLayerDataspace,
        SetLayerCompositionType, SetLayerDisplayFrame, SetLayerPlaneAlpha,
        SetLayerSourceCrop, SetLayerTransform, SetLayerZOrder, with_layer;
      by rewrite Hd, Hl.
Qed.

(** After a successful hook the layer can be read back through the same
    handles. *)
Lemma store_layer_lookup (hwc : DrmHwcTwo) (display layer : Z)
    (idisplay : HwcDisplay) (ilayer : HwcLayer.t) :
  exists idisplay',
    GetDisplay (store_layer hwc display layer idisplay ilayer) display
      = Some idisplay'
    /\ get_layer idisplay' layer = Some ilayer.
Proof.
  eexists. unfold GetDisplay, get_layer, store_layer. cbn.
  split; [apply lookup_insert_eq|]. cbn. apply lookup_insert_eq.
Qed.

(** Masking with a single bit leaves either nothing or that bit. *)
Lemma land_pow2 (t k : Z) :
  0 <= k -> Z.land t (2 ^ k) = if Z.testbit t k then 2 ^ k else 0.
Proof.
  intros Hk. apply Z.bits_inj'. intros n Hn.
  rewrite Z.land_spec, Z.pow2_bits_eqb by lia.
  destruct (Z.eqb_spec k n) as [->|Hne].
  - destruct (Z.testbit t n); cbn.
    + by rewrite Z.pow2_bits_true.
    + by rewrite Z.bits_0.
  - rewrite andb_false_r. destruct (Z.testbit t k).
    + rewrite Z.pow2_bits_false; [done|lia].
    + by rewrite Z.bits_0.
Qed.

Lemma has_bit_iff (t k : Z) :
  0 <= k ->
  negb (Z.land t (2 ^ k) =? 0) = true <-> Z.land t (2 ^ k) = 2 ^ k.
Proof.
  intros Hk. rewrite land_pow2 by done.
  assert (0 < 2 ^ k) by (apply Z.pow_pos_nonneg; lia).
  destruct (Z.testbit t k).
  - destruct (Z.eqb_spec (2 ^ k) 0); [lia|]. done.
  - cbn. split; [discriminate|lia].
Qed.

(** C4.  With handles that resolve, [SetLayerTransform] returns 0 and the
    layer's staged transform has hflip set iff [t] contains
    HAL_TRANSFORM_FLIP_H, vflip set iff it contains HAL_TRANSFORM_FLIP_V, and
    rotate90 set iff it contains HAL_TRANSFORM_ROT_90.  That transform is the
    only member present in the properties the hook hands to the layer. *)
Theorem SetLayerTransform_stages_flags (hwc : DrmHwcTwo) (display layer t : Z)
    (idisplay : HwcDisplay) (ilayer : HwcLayer.t)
    (Hd : GetDisplay hwc display = Some idisplay)
    (Hl : get_layer idisplay layer = Some ilayer) :
  exists hwc' idisplay' ilayer',
    SetLayerTransform hwc display layer t = (0, hwc')
    /\ hwc' = store_layer hwc display layer idisplay
                (HwcLayer.SetLayerProperties ilayer
                   (LayerProperties.set_transform LayerProperties.empty
                      (HwcLayer.transform_ ilayer')))
    /\ GetDisplay hwc' display = Some idisplay'
    /\ get_layer idisplay' layer = Some ilayer'
    /\ (hflip (HwcLayer.transform_ ilayer') = true <->
        Z.land t HAL_TRANSFORM_FLIP_H = HAL_TRANSFORM_FLIP_H)
    /\ (vflip (HwcLayer.transform_ ilayer') = true <->
        Z.land t HAL_TRANSFORM_FLIP_V = HAL_TRANSFORM_FLIP_V)
    /\ (rotate90 (HwcLayer.transform_ ilayer') = true <->
        Z.land t HAL_TRANSFORM_ROT_90 = HAL_TRANSFORM_ROT_90).
Proof.
  unfold SetLayerTransform, with_layer. rewrite Hd, Hl.
  destruct (store_layer_lookup hwc display layer idisplay
              (HwcLayer.SetLayerProperties ilayer
                 (LayerProperties.set_transform LayerProperties.empty
                    {| hflip := negb (Z.land t HAL_TRANSFORM_FLIP_H =? 0);
                       vflip := negb (Z.land t HAL_TRANSFORM_FLIP_V =? 0);
                       rotate90 := negb (Z.land t HAL_TRANSFORM_ROT_90 =? 0) |})))
    as (idisplay' & Hget & Hlayer).
  eexists _, idisplay', _.
  refine (conj eq_refl (conj _ (conj Hget (conj Hlayer _)))); [reflexivity|].
  cbn. split; [apply (has_bit_iff t 0); lia|].
  split; [apply (has_bit_iff t 1); lia|apply (has_bit_iff t 2); lia].
Qed.

(** C5.  With handles that resolve, [SetLayerBlendMode] returns 0 for every
    mode and stages kNone for None, kPreMult for Premultiplied, kCoverage
    for Coverage and kUndefined for any other integer.  That blend mode is
    the only member present in the properties the hook hands to the layer. *)
Theorem SetLayerBlendMode_stages_mode (hwc : DrmHwcTwo) (display layer mode : Z)
    (idisplay : HwcDisplay) (ilayer : HwcLayer.t)
    (Hd : GetDisplay hwc display = Some idisplay)
    (Hl : get_layer idisplay layer = Some ilayer) :
  exists hwc' idisplay' ilayer',
    SetLayerBlendMode hwc display layer mode = (0, hwc')
    /\ hwc' = store_layer hwc display layer idisplay
                (HwcLayer.SetLayerProperties ilayer
                   (LayerProperties.set_blend_mode LayerProperties.empty
                      (HwcLayer.blend_mode_ ilayer')))
    /\ GetDisplay hwc' display = Some idisplay'
    /\ get_layer idisplay' layer = Some ilayer'
    /\ (mode = BlendMode.None -> HwcLayer.blend_mode_ ilayer' = kNone)
    /\ (mode = BlendMode.Premultiplied -> HwcLayer.blend_mode_ ilayer' = kPreMult)
    /\ (mode = BlendMode.Coverage -> HwcLayer.blend_mode_ ilayer' = kCoverage)
    /\ (mode <> BlendMode.None -> mode <> BlendMode.Premultiplied ->
        mode <> BlendMode.Coverage -> HwcLayer.blend_mode_ ilayer' = kUndefined).
Proof.
  unfold SetLayerBlendMode, with_layer. rewrite Hd, Hl.
  destruct (store_layer_lookup hwc display layer idisplay
              (HwcLayer.SetLayerProperties ilayer
                 (LayerProperties.set_blend_mode LayerProperties.empty
                    (to_blend_mode mode))))
    as (idisplay' & Hget & Hlayer).
  eexists _, idisplay', _.
  refine (conj eq_refl (conj _ (conj Hget (conj Hlayer _)))); [reflexivity|].
  cbn. unfold to_blend_mode.
  repeat split.
  - by intros ->.
  - by intros ->.
  - by intros ->.
  - intros H1 H2 H3. apply Z.eqb_neq in H1, H2, H3. by rewrite H1, H2, H3.
Qed.

End LayerHooks.

Section LayerHooksOnSamples.
Import BufferInfo Hwc2Device Samples.

Lemma layer_setters_reject_bad_handles_witness :
  GetDisplay demo_composer 7 = None
  /\ call_setter (CallSetLayerZOrder 3) demo_composer 7 1
     = (Error.BadDisplay, demo_composer)
  /\ get_layer demo_display 9 = None
  /\ call_setter (CallSetLayerBuffer 4096 (-1)) demo_composer 0 9
     = (Error.BadLayer, demo_composer).
Proof.
  assert (Hd : GetDisplay demo_composer 7 = None) by reflexivity.
  assert (Hd0 : GetDisplay demo_composer 0 = Some demo_display) by reflexivity.
  assert (Hl : get_layer demo_display 9 = None) by reflexivity.
  split; [exact Hd|]. split.
  - apply (layer_setters_reject_bad_handles (CallSetLayerZOrder 3)
             demo_composer 7 1). exact Hd.
  - split; [exact Hl|].
    apply (layer_setters_reject_bad_handles (CallSetLayerBuffer 4096 (-1))
             demo_composer 0 9) with (idisplay := demo_display); assumption.
Defined.

Lemma SetLayerTransform_stages_flags_witness :
  exists hwc' idisplay' ilayer',
    SetLayerTransform demo_composer 0 1 5 = (0, hwc')
    /\ GetDisplay hwc' 0 = Some idisplay'
    /\ get_layer idisplay' 1 = Some ilayer'
    /\ hflip (HwcLayer.transform_ ilayer') = true
    /\ rotate90 (HwcLayer.transform_ ilayer') = true.
Proof.
  destruct (SetLayerTransform_stages_flags demo_composer 0 1 5 demo_display
              fresh_layer eq_refl eq_refl)
    as (hwc' & idisplay' & ilayer' & Hrun & _ & Hd & Hl & Hh & _ & Hr).
  exists hwc', idisplay', ilayer'.
  split; [exact Hrun|]. split; [exact Hd|]. split; [exact Hl|].
  split; [apply Hh|apply Hr]; reflexivity.
Defined.

Lemma SetLayerBlendMode_stages_mode_witness :
  (exists hwc' idisplay' ilayer',
     SetLayerBlendMode demo_composer 0 1 BlendMode.Premultiplied = (0, hwc')
     /\ GetDisplay hwc' 0 = Some idisplay'
     /\ get_layer idisplay' 1 = Some ilayer'
     /\ HwcLayer.blend_mode_ ilayer' = kPreMult)
  /\ (exists hwc' idisplay' ilayer',
        SetLayerBlendMode demo_composer 0 1 77 = (0, hwc')
        /\ GetDisplay hwc' 0 = Some idisplay'
        /\ get_layer idisplay' 1 = Some ilayer'
        /\ HwcLayer.blend_mode_ ilayer' = kUndefined).
Proof.
  split.
  - destruct (SetLayerBlendMode_stages_mode demo_composer 0 1
                BlendMode.Premultiplied demo_display fresh_layer eq_refl eq_refl)
      as (hwc' & idisplay' & ilayer' & Hrun & _ & Hd & Hl & _ & Hp & _).
    exists hwc', idisplay', ilayer'. repeat split; try assumption.
    apply Hp. reflexivity.
  - destruct (SetLayerBlendMode_stages_mode demo_composer 0 1 77 demo_display
                fresh_layer eq_refl eq_refl)
      as (hwc' & idisplay' & ilayer' & Hrun & _ & Hd & Hl & _ & _ & _ & Hu).
    exists hwc', idisplay', ilayer'. repeat split; try assumption.
    apply Hu; discriminate.
Defined.

End LayerHooksOnSamples.

(** ** The composition planner *)

Section PlannerFacts.
Import Hwc2Device Planner.

Variable dev : DeviceProfile.























End PlannerFacts.

Section PlannerOnSamples.
Import Hwc2Device Planner Samples.

(** The first scenario of section 8: primary to z 0, the overlays to z 1
    and z 2, and nothing to report as changed. *)
Example three_layers_three_planes :
  fst (Plan scenario_device scenario_bounds three_layers scenario_planes)
  = {| assignment := [(3, Some 33); (2, Some 32); (1, Some 31)];
       client_plane := None;
       changed_types := [] |}.
Proof. reflexivity. Qed.

(** The second scenario: the layer with the unsupported modifier goes to
    client composition and is the only changed one. *)
Example four_layers_three_planes :
  fst (Plan scenario_device scenario_bounds four_layers scenario_planes)
  = {| assignment := [(4, None); (3, Some 33); (2, Some 32); (1, Some 31)];
       client_plane := None;
       changed_types := [(4, Client)] |}.
Proof. reflexivity. Qed.

(** The registry a pass leaves behind has its flags set, and a second pass
    over it reproduces the plan. *)
Example second_pass_on_used_registry :
  map assigned (snd (Plan scenario_device scenario_bounds four_layers
                       scenario_planes))
    = [true; true; true]
  /\ fst (Plan scenario_device scenario_bounds four_layers
            (snd (Plan scenario_device scenario_bounds four_layers
                    scenario_planes)))
     = fst (Plan scenario_device scenario_bounds four_layers scenario_planes).
Proof. split; reflexivity. Qed.

(** Step 2 and the edge case: a cursor layer on the display gets the cursor
    plane; the same layer fully off the display is excluded from plane
    consideration, goes to client composition, and the client-composition
    plane is reserved for the result. *)
Example cursor_layer_on_and_off_display :
  fst (Plan scenario_device scenario_bounds
         (three_layers ++ [cursor_layer 9 5 100 100]) full_registry)
  = {| assignment := [(9, Some 34); (3, Some 33); (2, Some 32); (1, Some 31)];
       client_plane := None;
       changed_types := [] |}
  /\ fst (Plan scenario_device scenario_bounds
            (three_layers ++ [cursor_layer 9 5 4000 100]) full_registry)
     = {| assignment := [(9, None); (3, Some 33); (2, Some 32); (1, Some 31)];
          client_plane := Some 35;
          changed_types := [(9, Client)] |}.
Proof. split; reflexivity. Qed.

(** The layers handed over in another order, over the registry the first
    pass left behind: the same plan. *)
Example reordered_layers_same_plan :
  Plan scenario_device scenario_bounds (rev four_layers)
    (snd (Plan scenario_device scenario_bounds four_layers scenario_planes))
  = Plan scenario_device scenario_bounds four_layers scenario_planes.
Proof. reflexivity. Qed.

(** The other reading of the edge case: a device that drops off-display
    layers plans without them. *)
Example dropped_cursor_layer :
  fst (Plan dropping_device scenario_bounds
         (three_layers ++ [cursor_layer 9 5 4000 100]) full_registry)
  = {| assignment := [(3, Some 33); (2, Some 32); (1, Some 31)];
       client_plane := None;
       changed_types := [] |}.
Proof. reflexivity. Qed.

(** No layers: the empty plan. *)
Example empty_plan :
  Plan scenario_device scenario_bounds [] full_registry
  = ({| assignment := []; client_plane := None; changed_types := [] |},
     full_registry).
Proof. reflexivity. Qed.

(** Step 5: a BT.2020 layer on top of two BT.709 layers.  The pair it forms
    with the layer below it must not be squashed, so both are reassigned to
    client composition and give up their planes; the bottom layer keeps the
    primary plane and the client-composition plane takes the result. *)
Example mismatched_colour_spaces :
  let '(plan, planes) :=
    Plan scenario_device scenario_bounds
      [scenario_layer 1 0 0; scenario_layer 2 1 0; wide_gamut_layer 3 2]
      full_registry in
  plan = {| assignment := [(3, None); (2, None); (1, Some 31)];
            client_plane := Some 35;
            changed_types := [(2, Client); (3, Client)] |}
  /\ map assigned planes = [true; false; false; false; true].
Proof. split; reflexivity. Qed.

End PlannerOnSamples.

(** * Further properties of the code *)

(** ** DrmProperty: initialisation and the accessors *)

Section DrmPropertyAccessors.
Import Errno DrmProperty.

Lemma has_flag_true (fl bit : Z) : Z.land fl bit <> 0 -> has_flag fl bit = true.
Proof. intros H. unfold has_flag. by apply Z.eqb_neq in H as ->. Qed.

(** X1.  A property built from a kernel description that carries the RANGE
    flag, a nonzero id and at least two values is an INT property whatever
    other flag bits are set: [is_range] holds, [value] is the raw value,
    and [range_min] / [range_max] are the first two values. *)
Theorem range_property_accessors (obj v lo hi : Z) (rest : list Z)
    (p : drmModePropertyRes)
    (Hid : prop_id p <> 0)
    (Hflag : Z.land (flags p) DRM_MODE_PROP_RANGE <> 0)
    (Hvals : values p = lo :: hi :: rest) :
  let q := DrmProperty.make obj p v in
  type_ q = DRM_PROPERTY_TYPE_INT
  /\ is_range q = true
  /\ value q = Done (0, v)
  /\ range_min q = (0, lo)
  /\ range_max q = (0, hi).
Proof.
  cbn zeta. unfold DrmProperty.make, value, range_min, range_max, is_range, Init.
  cbn. rewrite (has_flag_true _ _ Hflag), Hvals. cbn.
  apply Z.eqb_neq in Hid. rewrite Hid. done.
Qed.

(** X2.  For an enum property whose entries are numbered by their position
    (entry [i] has value [i]), built from a kernel description without the
    RANGE flag, [value] gives back the raw value whenever it is a valid
    position. *)
Theorem enum_property_value_is_raw (obj v : Z) (p : drmModePropertyRes)
    (Hrange : Z.land (flags p) DRM_MODE_PROP_RANGE = 0)
    (Henum : Z.land (flags p) DRM_MODE_PROP_ENUM <> 0)
    (Hvals : values p <> [])
    (Hnum : forall (i : nat) e, enums p !! i = Some e -> e_value e = Z.of_nat i)
    (Hv : 0 <= v < Z.of_nat (length (enums p))) :
  value (DrmProperty.make obj p v) = Done (0, v).
Proof.
  assert (Hnot : has_flag (flags p) DRM_MODE_PROP_RANGE = false)
    by (unfold has_flag; by rewrite Hrange).
  unfold DrmProperty.make, value, Init, enums_at. cbn.
  rewrite Hnot, (has_flag_true _ _ Henum). cbn.
  destruct (values p) as [|v0 vs]; [done|].
  rewrite length_map.
  destruct (Z.leb_spec (Z.of_nat (length (enums p))) v) as [?|_]; [lia|].
  destruct (lookup_lt_is_Some_2 (enums p) (Z.to_nat v)) as [e He]; [lia|].
  rewrite list_lookup_fmap, He. cbn.
  rewrite (Hnum _ _ He). do 2 f_equal. lia.
Qed.

(** X3.  The range accessors fail with -EINVAL exactly on a property that is
    not a range (in particular on one that was never initialised, whatever
    its flags), with -ENOENT exactly when the range property has too few
    values, and [range_max] succeeding implies [range_min] succeeding. *)
Theorem range_accessors_error_codes (p : DrmProperty.t) :
  (id_ p = 0 -> is_range p = false /\ is_immutable p = false)
  /\ (fst (range_min p) = - EINVAL <-> is_range p = false)
  /\ (fst (range_max p) = - EINVAL <-> is_range p = false)
  /\ (fst (range_min p) = - ENOENT <-> is_range p = true /\ values_ p = [])
  /\ (fst (range_max p) = - ENOENT <->
      is_range p = true /\ (length (values_ p) < 2)%nat)
  /\ (fst (range_max p) = 0 -> fst (range_min p) = 0).
Proof.
  unfold range_min, range_max.
  split.
  { intros Hid. unfold is_range, is_immutable. by rewrite Hid. }
  destruct (is_range p); cbn; destruct (values_ p) as [|v0 [|v1 vs]]; cbn;
    repeat split; try done; try (intros [? ?]; done); try lia;
    try (intros [_ ?]; lia).
Qed.

(** The scan of [GetEnumValueWithName] stops at the first entry that
    carries the name. *)
Lemma find_enum_first (es : list DrmPropertyEnum) (n : string) :
  (forall (i : nat) e,
      es !! i = Some e -> enum_name_ e = n ->
      (forall (j : nat) e', (j < i)%nat -> es !! j = Some e' -> enum_name_ e' <> n) ->
      find_enum es n = (enum_value_ e, 0))
  /\ (snd (find_enum es n) = - EINVAL <-> forall e, e ∈ es -> enum_name_ e <> n)
  /\ (snd (find_enum es n) = 0 <-> exists e, e ∈ es /\ enum_name_ e = n).
Proof.
  induction es as [|e0 es (IH1 & IH2 & IH3)]; cbn.
  - split; [intros i e Hi; by rewrite lookup_nil in Hi|].
    split.
    + split; [|done]. intros _ e He. by apply elem_of_nil in He.
    + split; [discriminate|]. intros (e & He & _). by apply elem_of_nil in He.
  - destruct (String.eqb_spec (enum_name_ e0) n) as [Heq|Hne]; cbn.
    + split; [|split].
      * intros [|i] e Hi Hname Hfirst; cbn in Hi; [by injection Hi as <-|].
        exfalso. apply (Hfirst 0%nat e0); [lia|done|done].
      * split; [discriminate|]. intros Hall. exfalso.
        apply (Hall e0); [left|done].
      * split; [|done]. intros _. exists e0. split; [left|done].
    + split; [|split].
      * intros [|i] e Hi Hname Hfirst; cbn in Hi; [by injection Hi as <-|].
        apply (IH1 i e Hi Hname). intros j e' Hj He'.
        apply (Hfirst (S j) e'); [lia|done].
      * rewrite IH2. split.
        -- intros Hall e He. apply elem_of_cons in He as [->|He]; [done|by apply Hall].
        -- intros Hall e He. apply Hall. by right.
      * rewrite IH3. split.
        -- intros (e & He & Hname). exists e. split; [by right|done].
        -- intros (e & He & Hname).
           apply elem_of_cons in He as [->|He]; [done|by exists e].
Qed.

(** X4.  [GetEnumValueWithName] returns (value, 0) of the first enum entry
    with the given name; its error code is -EINVAL exactly when no entry has
    that name and 0 exactly when one has. *)
Theorem GetEnumValueWithName_finds_first (p : DrmProperty.t) (n : string) :
  (forall (i : nat) e,
      enums_ p !! i = Some e -> enum_name_ e = n ->
      (forall (j : nat) e', (j < i)%nat -> enums_ p !! j = Some e' ->
                            enum_name_ e' <> n) ->
      GetEnumValueWithName p n = (enum_value_ e, 0))
  /\ (snd (GetEnumValueWithName p n) = - EINVAL <->
      forall e, e ∈ enums_ p -> enum_name_ e <> n)
  /\ (snd (GetEnumValueWithName p n) = 0 <->
      exists e, e ∈ enums_ p /\ enum_name_ e = n).
Proof. apply find_enum_first. Qed.

(** X5.  Round trip between [value] and [GetEnumValueWithName]: on an enum
    property with values, pairwise distinct entry names and an in-range raw
    value, [value] succeeds with the value of the selected entry, and looking
    that entry up by its name gives the same value. *)
Theorem enum_value_name_round_trip (p : DrmProperty.t)
    (Hty : type_ p = DRM_PROPERTY_TYPE_ENUM)
    (Hvals : values_ p <> [])
    (Hv : 0 <= value_ p < Z.of_nat (length (enums_ p)))
    (Hnames : NoDup (map enum_name_ (enums_ p))) :
  exists e,
    enums_ p !! Z.to_nat (value_ p) = Some e
    /\ value p = Done (0, enum_value_ e)
    /\ GetEnumValueWithName p (enum_name_ e) = (enum_value_ e, 0).
Proof.
  destruct (enums_at_in_range p (value_ p) Hv) as (e & He & Hat).
  exists e. split; [done|]. split.
  { unfold value. rewrite Hty. cbn. destruct (values_ p); [done|].
    destruct (Z.leb_spec (Z.of_nat (length (enums_ p))) (value_ p)); [lia|].
    by rewrite Hat. }
  apply (proj1 (find_enum_first (enums_ p) (enum_name_ e)) _ e He eq_refl).
  intros j e' Hj He' Hsame.
  assert (Hj' : map enum_name_ (enums_ p) !! j = Some (enum_name_ e))
    by (rewrite list_lookup_fmap, He'; cbn; by rewrite Hsame).
  assert (Hi' : map enum_name_ (enums_ p) !! Z.to_nat (value_ p) = Some (enum_name_ e))
    by (by rewrite list_lookup_fmap, He).
  pose proof (NoDup_lookup _ _ _ _ Hnames Hj' Hi'). lia.
Qed.

(** X6.  [Init] does not clear the vectors: on a property that already holds
    values, enum entries or blob ids the new ones are appended, so a range
    property that is initialised a second time still reports the minimum of
    its first initialisation. *)
Theorem Init_appends_to_used_property (self : DrmProperty.t) (obj v v0 : Z)
    (vs : list Z) (p : drmModePropertyRes)
    (Hold : values_ self = v0 :: vs)
    (Hid : prop_id p <> 0)
    (Hflag : Z.land (flags p) DRM_MODE_PROP_RANGE <> 0) :
  let q := Init self obj p v in
  values_ q = values_ self ++ values p
  /\ enums_ q = enums_ self ++ map MkDrmPropertyEnum (enums p)
  /\ blob_ids_ q = blob_ids_ self ++ blob_ids p
  /\ range_min q = (0, v0).
Proof.
  cbn zeta. unfold range_min, is_range, Init. cbn.
  rewrite (has_flag_true _ _ Hflag), Hold. cbn.
  apply Z.eqb_neq in Hid. rewrite Hid. done.
Qed.

End DrmPropertyAccessors.

Section DrmPropertyAccessorsOnSamples.
Import Errno DrmProperty Samples.

Lemma range_property_accessors_witness :
  value (DrmProperty.make 31 zpos_property 2) = Done (0, 2)
  /\ range_min (DrmProperty.make 31 zpos_property 2) = (0, 0)
  /\ range_max (DrmProperty.make 31 zpos_property 2) = (0, 3).
Proof.
  destruct (range_property_accessors 31 2 0 3 [] zpos_property)
    as (_ & _ & Hv & Hmin & Hmax);
    [discriminate|discriminate|reflexivity|].
  by repeat split.
Defined.

Lemma enum_property_value_is_raw_witness :
  value (DrmProperty.make 31 type_property 2) = Done (0, 2).
Proof.
  apply enum_property_value_is_raw.
  - reflexivity.
  - discriminate.
  - discriminate.
  - intros [|[|[|i]]] e He; cbn in He; try discriminate;
      injection He as <-; reflexivity.
  - cbn. lia.
Defined.

Lemma enum_value_name_round_trip_witness :
  exists e,
    enums_ demo_enum_property !! Z.to_nat (value_ demo_enum_property) = Some e
    /\ value demo_enum_property = Done (0, enum_value_ e)
    /\ GetEnumValueWithName demo_enum_property (enum_name_ e) = (enum_value_ e, 0).
Proof.
  apply enum_value_name_round_trip.
  - reflexivity.
  - discriminate.
  - cbn. lia.
  - cbn. repeat constructor; rewrite ?elem_of_cons, ?elem_of_nil;
      intros H; repeat destruct H as [H|H]; try discriminate H; done.
Defined.

Lemma Init_appends_to_used_property_witness :
  values_ (Init (DrmProperty.make 31 zpos_property 2) 32 type_property 1)
    = [0; 3; 0; 1; 2]
  /\ range_min (Init (DrmProperty.make 31 zpos_property 2) 31
                  {| prop_id := 40; flags := DRM_MODE_PROP_RANGE; name := "zpos";
                     values := [5; 9]; enums := []; blob_ids := [] |} 6)
     = (0, 0).
Proof.
  split; [reflexivity|].
  apply (Init_appends_to_used_property (DrmProperty.make 31 zpos_property 2)
           31 6 0 [3]); [reflexivity|discriminate|discriminate].
Defined.

End DrmPropertyAccessorsOnSamples.

(** ** DrmDevice: what [Init] returns and leaves behind *)

Section DrmDeviceInit.
Import Errno BufferInfo DrmDevice Summary.

Context {DrmCrtc DrmEncoder DrmConnector DrmPlane : Type}.
Variable mk_crtc : Kernel -> Z -> Z -> nat -> option DrmCrtc.
Variable mk_encoder : Kernel -> Z -> Z -> nat -> option DrmEncoder.
Variable mk_connector : Kernel -> Z -> Z -> nat -> option DrmConnector.
Variable mk_plane : Kernel -> Z -> Z -> option DrmPlane.
Variable is_writeback : DrmConnector -> bool.

Local Abbreviation device := (DrmDevice.t DrmCrtc DrmEncoder DrmConnector DrmPlane).
Local Abbreviation Init := (Init mk_crtc mk_encoder mk_connector mk_plane is_writeback).
Local Abbreviation CreateInstance :=
  (CreateInstance mk_crtc mk_encoder mk_connector mk_plane is_writeback).

(** A successful [Init] went through every stage, and the device is the one
    the stages built. *)
Lemma Init_ok_inv (k : Kernel) (self d : device) (path : string) :
  Init k self path = (0, d) ->
  exists fd res plane_ids,
    MakeSharedFd (sys_open k path) = Some fd
    /\ drmSetClientCap k fd DRM_CLIENT_CAP_UNIVERSAL_PLANES = 0
    /\ drmSetClientCap k fd DRM_CLIENT_CAP_ATOMIC = 0
    /\ drmIsMaster k fd = true
    /\ drmModeGetResources k fd = Some res
    /\ drmModeGetPlaneResources k fd = Some plane_ids
    /\ d = add_planes
             (set_pipeline is_writeback
                (set_caps (set_fd self (Some fd))
                   (negb (default 0 (drmGetCap k fd DRM_CAP_ADDFB2_MODIFIERS) =? 0))
                   (cursor_caps k fd (cap_cursor_size_ self)))
                res
                (create_each (mk_crtc k fd) 0 (crtcs res))
                (create_each (mk_encoder k fd) 0 (encoders res))
                (create_each (mk_connector k fd) 0 (connectors res)))
             (omap (mk_plane k fd) plane_ids).
Proof.
  unfold DrmDevice.Init, cursor_caps.
  destruct (MakeSharedFd (sys_open k path)) as [fd|]; [|intros [=]].
  destruct (Z.eqb_spec (drmSetClientCap k fd DRM_CLIENT_CAP_UNIVERSAL_PLANES) 0)
    as [Hu|Hu]; cbn [negb]; [|intros [= ? _]; done].
  destruct (Z.eqb_spec (drmSetClientCap k fd DRM_CLIENT_CAP_ATOMIC) 0)
    as [Ha|Ha]; cbn [negb]; [|intros [= ? _]; done].
  destruct (drmIsMaster k fd) eqn:Hm; cbn [negb]; [|intros [=]].
  destruct (drmModeGetResources k fd) as [res|] eqn:Hres; [|intros [=]].
  destruct (drmModeGetPlaneResources k fd) as [plane_ids|] eqn:Hpl; [|intros [=]].
  intros [= <-]. exists fd, res, plane_ids.
  do 6 (split; [done|]). cbn.
  destruct (drmGetCap k fd DRM_CAP_ADDFB2_MODIFIERS); cbn;
    destruct (drmGetCap k fd DRM_CAP_CURSOR_WIDTH);
    destruct (drmGetCap k fd DRM_CAP_CURSOR_HEIGHT); reflexivity.
Qed.

(** One stage of [Init]: everything about the first stage that fails (or
    about the success of all of them) is in the context. *)
Local Ltac init_stage :=
  repeat match goal with
         | |- _ /\ _ => split
         | |- _ <-> _ => split
         | |- _ -> _ => intros ?
         | |- forall _, _ => intros ?
         | H : exists _, _ |- _ => destruct H as [? H]
         | H : _ /\ _ |- _ => destruct H as [? ?]
         | H : is_Some _ |- _ => destruct H as [? ?]
         end;
  simplify_eq; try congruence; try done; eauto 10.

(** X7.  [Init] returns 0 exactly when the node opens, both mandatory client
    capabilities are granted, the process is DRM master and both resource
    queries answer -- whether or not any CRTC, encoder, connector or plane
    object could be created.  Otherwise the code names the first stage that
    failed: -ENODEV (open), the capability's own code, -EACCES (not master),
    -ENODEV (no mode resources), -ENOENT (no plane resources). *)
Theorem Init_return_code (k : Kernel) (self : device) (path : string) :
  (fst (Init k self path) = 0 <->
   exists fd,
     MakeSharedFd (sys_open k path) = Some fd
     /\ drmSetClientCap k fd DRM_CLIENT_CAP_UNIVERSAL_PLANES = 0
     /\ drmSetClientCap k fd DRM_CLIENT_CAP_ATOMIC = 0
     /\ drmIsMaster k fd = true
     /\ is_Some (drmModeGetResources k fd)
     /\ is_Some (drmModeGetPlaneResources k fd))
  /\ (MakeSharedFd (sys_open k path) = None -> fst (Init k self path) = - ENODEV)
  /\ (forall fd,
        MakeSharedFd (sys_open k path) = Some fd ->
        (drmSetClientCap k fd DRM_CLIENT_CAP_UNIVERSAL_PLANES <> 0 ->
         fst (Init k self path) = drmSetClientCap k fd DRM_CLIENT_CAP_UNIVERSAL_PLANES)
        /\ (drmSetClientCap k fd DRM_CLIENT_CAP_UNIVERSAL_PLANES = 0 ->
            drmSetClientCap k fd DRM_CLIENT_CAP_ATOMIC <> 0 ->
            fst (Init k self path) = drmSetClientCap k fd DRM_CLIENT_CAP_ATOMIC)
        /\ (drmSetClientCap k fd DRM_CLIENT_CAP_UNIVERSAL_PLANES = 0 ->
            drmSetClientCap k fd DRM_CLIENT_CAP_ATOMIC = 0 ->
            (drmIsMaster k fd = false -> fst (Init k self path) = - EACCES)
            /\ (drmIsMaster k fd = true -> drmModeGetResources k fd = None ->
                fst (Init k self path) = - ENODEV)
            /\ (drmIsMaster k fd = true -> is_Some (drmModeGetResources k fd) ->
                drmModeGetPlaneResources k fd = None ->
                fst (Init k self path) = - ENOENT))).
Proof.
  unfold DrmDevice.Init.
  destruct (MakeSharedFd (sys_open k path)) as [fd|] eqn:Hopen; [|init_stage].
  destruct (Z.eqb_spec (drmSetClientCap k fd DRM_CLIENT_CAP_UNIVERSAL_PLANES) 0)
    as [Hu|Hu]; cbn [negb fst]; [|init_stage].
  destruct (Z.eqb_spec (drmSetClientCap k fd DRM_CLIENT_CAP_ATOMIC) 0)
    as [Ha|Ha]; cbn [negb fst]; [|init_stage].
  destruct (drmIsMaster k fd) eqn:Hm; cbn [negb fst]; [|init_stage].
  destruct (drmModeGetResources k fd) as [res|] eqn:Hres; cbn [fst]; [|init_stage].
  destruct (drmModeGetPlaneResources k fd) as [plane_ids|] eqn:Hpl; cbn [fst];
    [|init_stage].
  init_stage.
Qed.

Lemma create_each_length {A} (mk : Z -> nat -> option A) (i : nat) (ids : list Z) :
  (length (create_each mk i ids) <= length ids)%nat.
Proof.
  revert i. induction ids as [|x ids IH]; intros i; cbn; [lia|].
  destruct (mk x i); cbn; specialize (IH (S i)); lia.
Qed.

Lemma omap_length_le {A B} (f : A -> option B) (l : list A) :
  (length (omap f l) <= length l)%nat.
Proof. induction l as [|x l IH]; cbn; [lia|]. destruct (f x); cbn; lia. Qed.

Lemma split_by_writeback (l : list DrmConnector) :
  (length (filter (fun c => is_writeback c = false) l)
   + length (filter (fun c => is_writeback c = true) l) = length l)%nat.
Proof.
  induction l as [|c l IH]; [reflexivity|].
  rewrite !filter_cons. destruct (is_writeback c) eqn:Hc.
  - rewrite decide_False by done. rewrite decide_True by done. cbn. lia.
  - rewrite decide_True by done. rewrite decide_False by done. cbn. lia.
Qed.

Lemma elem_of_create_each {A} (mk : Z -> nat -> option A) (j : nat)
    (ids : list Z) (a : A) :
  a ∈ create_each mk j ids <->
  exists (i : nat) (id : Z), ids !! i = Some id /\ mk id (j + i)%nat = Some a.
Proof.
  revert j. induction ids as [|x ids IH]; intros j; cbn.
  - split; [intros Hin; by apply elem_of_nil in Hin|].
    intros (i & id & Hi & _). by rewrite lookup_nil in Hi.
  - assert (Htail : a ∈ create_each mk (S j) ids <->
                    exists (i : nat) (id : Z),
                      ids !! i = Some id /\ mk id (j + S i)%nat = Some a).
    { rewrite IH. split; intros (i & id & Hi & Hmk); exists i, id;
        (split; [done|]); by replace (j + S i)%nat with (S j + i)%nat in * by lia. }
    destruct (mk x j) as [a0|] eqn:Hx.
    + rewrite elem_of_cons, Htail. split.
      * intros [->|(i & id & Hi & Hmk)].
        -- exists 0%nat, x. split; [done|]. by rewrite Nat.add_0_r.
        -- by exists (S i), id.
      * intros ([|i] & id & Hi & Hmk); cbn in Hi.
        -- injection Hi as <-. rewrite Nat.add_0_r, Hx in Hmk. left. congruence.
        -- right. by exists i, id.
    + rewrite Htail. split.
      * intros (i & id & Hi & Hmk). by exists (S i), id.
      * intros ([|i] & id & Hi & Hmk); cbn in Hi.
        -- injection Hi as <-. rewrite Nat.add_0_r, Hx in Hmk. discriminate.
        -- by exists i, id.
Qed.

(** X8.  After a successful [Init] of a newly constructed device: the
    descriptor is recorded; the resolution limits are the kernel's; there are
    no more CRTCs, encoders, connectors and planes than the kernel listed;
    every connector is in exactly one of the two lists, the writeback ones in
    [writeback_connectors_] and the others in [connectors_]; modifier support
    is on exactly when the query answered a nonzero value; and the cursor
    size is recorded exactly when both cursor queries answered.  Nothing that
    was created is lost: an object is recorded exactly when its factory made
    it for a listed id (at that id's position), and the lists are in the
    kernel's order. *)
Theorem Init_success_state (k : Kernel) (path : string) (index : Z) (d : device)
    (Hok : Init k (DrmDevice.make index) path = (0, d)) :
  exists fd res plane_ids,
    MakeSharedFd (sys_open k path) = Some fd
    /\ drmModeGetResources k fd = Some res
    /\ drmModeGetPlaneResources k fd = Some plane_ids
    /\ fd_ d = Some fd
    /\ index_in_dev_array_ d = index
    /\ min_resolution_ d = (min_width res, min_height res)
    /\ max_resolution_ d = (max_width res, max_height res)
    /\ (length (crtcs_ d) <= length (crtcs res))%nat
    /\ (length (encoders_ d) <= length (encoders res))%nat
    /\ (length (connectors_ d) + length (writeback_connectors_ d)
        <= length (connectors res))%nat
    /\ (length (planes_ d) <= length plane_ids)%nat
    /\ Forall (fun c => is_writeback c = false) (connectors_ d)
    /\ Forall (fun c => is_writeback c = true) (writeback_connectors_ d)
    /\ (HasAddFb2ModifiersSupport_ d = true <->
        exists v, drmGetCap k fd DRM_CAP_ADDFB2_MODIFIERS = Some v /\ v <> 0)
    /\ (forall w h,
          cap_cursor_size_ d = Some (w, h) <->
          drmGetCap k fd DRM_CAP_CURSOR_WIDTH = Some w
          /\ drmGetCap k fd DRM_CAP_CURSOR_HEIGHT = Some h)
    /\ (forall c, c ∈ crtcs_ d <->
                  exists (i : nat) id, crtcs res !! i = Some id
                                       /\ mk_crtc k fd id i = Some c)
    /\ (forall e, e ∈ encoders_ d <->
                  exists (i : nat) id, encoders res !! i = Some id
                                       /\ mk_encoder k fd id i = Some e)
    /\ (forall c, c ∈ connectors_ d <->
                  is_writeback c = false
                  /\ exists (i : nat) id, connectors res !! i = Some id
                                          /\ mk_connector k fd id i = Some c)
    /\ (forall c, c ∈ writeback_connectors_ d <->
                  is_writeback c = true
                  /\ exists (i : nat) id, connectors res !! i = Some id
                                          /\ mk_connector k fd id i = Some c)
    /\ (forall p, p ∈ planes_ d <->
                  exists id, id ∈ plane_ids /\ mk_plane k fd id = Some p)
    /\ crtcs_ d = create_each (mk_crtc k fd) 0 (crtcs res)
    /\ encoders_ d = create_each (mk_encoder k fd) 0 (encoders res)
    /\ connectors_ d
       = filter (fun c => is_writeback c = false)
           (create_each (mk_connector k fd) 0 (connectors res))
    /\ writeback_connectors_ d
       = filter (fun c => is_writeback c = true)
           (create_each (mk_connector k fd) 0 (connectors res))
    /\ planes_ d = omap (mk_plane k fd) plane_ids
    /\ (length (connectors_ d) + length (writeback_connectors_ d)
        = length (create_each (mk_connector k fd) 0 (connectors res)))%nat.
Proof.
  destruct (Init_ok_inv k _ d path Hok)
    as (fd & res & plane_ids & Hopen & _ & _ & _ & Hres & Hpl & ->).
  exists fd, res, plane_ids. do 7 (split; [done|]). cbn.
  split; [apply create_each_length|]. split; [apply create_each_length|].
  split.
  { rewrite split_by_writeback. apply create_each_length. }
  split; [apply omap_length_le|].
  split; [apply Forall_forall; intros c Hc; by apply list_elem_of_filter in Hc as [? _]|].
  split; [apply Forall_forall; intros c Hc; by apply list_elem_of_filter in Hc as [? _]|].
  split.
  - destruct (drmGetCap k fd DRM_CAP_ADDFB2_MODIFIERS) as [v|]; cbn.
    + destruct (Z.eqb_spec v 0) as [->|Hv]; cbn.
      * split; [discriminate|]. intros (? & [= <-] & ?). done.
      * split; [|done]. intros _. by exists v.
    + split; [discriminate|]. intros (? & [=] & _).
  - split.
    { intros w h. unfold cursor_caps. cbn.
      destruct (drmGetCap k fd DRM_CAP_CURSOR_WIDTH) as [w'|];
        destruct (drmGetCap k fd DRM_CAP_CURSOR_HEIGHT) as [h'|];
        split; try done; try (intros [? ?]; done).
      + intros [= -> ->]. done.
      + intros [[= ->] [= ->]]. done. }
    split; [intros c; apply (elem_of_create_each _ 0)|].
    split; [intros e; apply (elem_of_create_each _ 0)|].
    split.
    { intros c. rewrite list_elem_of_filter.
      by rewrite (elem_of_create_each (mk_connector k fd) 0). }
    split.
    { intros c. rewrite list_elem_of_filter.
      by rewrite (elem_of_create_each (mk_connector k fd) 0). }
    split.
    { intros p. rewrite list_elem_of_omap. reflexivity. }
    do 5 (split; [reflexivity|]). apply split_by_writeback.
Qed.

(** X9.  A device handed out by [CreateInstance] is open on a non-negative
    descriptor, carries the index it was created with, and the methods that
    read the descriptor ([CreateBufferForModeset],
    [RegisterUserPropertyBlob]) never dereference a null descriptor on it. *)
Theorem CreateInstance_device_is_open (k : Kernel) (path : string) (index : Z)
    (d : device)
    (Hsome : CreateInstance k path index = Some d) :
  exists fd,
    fd_ d = Some fd
    /\ sys_open k path = fd
    /\ 0 <= fd
    /\ index_in_dev_array_ d = index
    /\ (forall r width height,
          is_fault (CreateBufferForModeset r d width height) = false)
    /\ (forall created data len,
          is_fault (RegisterUserPropertyBlob created d data len) = false).
Proof.
  unfold DrmDevice.CreateInstance in Hsome.
  destruct (DrmDevice.IsKMSDev k path); cbn in Hsome; [|discriminate].
  destruct (Init k (DrmDevice.make index) path) as [ret d'] eqn:Hinit.
  destruct (Z.eqb_spec ret 0) as [->|?]; cbn in Hsome; [|discriminate].
  injection Hsome as ->.
  destruct (Init_ok_inv k _ d path Hinit)
    as (fd & res & plane_ids & Hopen & _ & _ & _ & _ & _ & ->).
  exists fd. split; [reflexivity|].
  unfold MakeSharedFd in Hopen.
  destruct (Z.ltb_spec (sys_open k path) 0); [discriminate|].
  injection Hopen as <-. do 3 (split; [done|]).
  split; intros; reflexivity.
Qed.

End DrmDeviceInit.

(** ** DrmDevice: the property scan and the modeset buffer *)

Section DrmDeviceLookups.
Import Errno BufferInfo DrmDevice Summary.

Context {DrmCrtc DrmEncoder DrmConnector DrmPlane : Type}.
Local Abbreviation device := (DrmDevice.t DrmCrtc DrmEncoder DrmConnector DrmPlane).
Local Abbreviation GetProperty :=
  (@GetProperty DrmCrtc DrmEncoder DrmConnector DrmPlane).

(** X10.  [GetProperty] initialises the out-parameter from the first listed
    property with the requested name, with the value listed next to it, and
    returns 0; the entries after it are not looked at (they may repeat the
    name or be unreadable). *)
Theorem GetProperty_takes_first_match (k : Kernel) (self : device)
    (fd obj_id obj_type pid v : Z) (prop_name : string)
    (before after : list (Z * Z)) (p : DrmProperty.drmModePropertyRes)
    (property : DrmProperty.t)
    (Hfd : fd_ self = Some fd)
    (Hlist : drmModeObjectGetProperties k fd obj_id obj_type
             = Some (before ++ (pid, v) :: after))
    (Hbefore : Forall (skipped k fd prop_name) before)
    (Hp : drmModeGetProperty k fd pid = Some p)
    (Hname : DrmProperty.name p = prop_name) :
  exists property',
    GetProperty k self obj_id obj_type prop_name property = Done (0, property')
    /\ property' = DrmProperty.Init property obj_id p v
    /\ DrmProperty.name_ property' = prop_name
    /\ DrmProperty.obj_id_ property' = obj_id
    /\ DrmProperty.id_ property' = DrmProperty.prop_id p
    /\ DrmProperty.value_ property' = v.
Proof.
  eexists. unfold DrmDevice.GetProperty. rewrite Hfd, Hlist.
  rewrite (scan_props_first_match k fd obj_id pid v prop_name before after p
             property Hbefore Hp Hname).
  repeat split; done.
Qed.

(** X11.  When a listed property in front of the first match cannot be
    fetched ([drmModeGetProperty] gives null), [GetProperty] reads the name
    through the null pointer. *)
Theorem GetProperty_null_property_faults (k : Kernel) (self : device)
    (fd obj_id obj_type pid v : Z) (prop_name : string)
    (before after : list (Z * Z)) (property : DrmProperty.t)
    (Hfd : fd_ self = Some fd)
    (Hlist : drmModeObjectGetProperties k fd obj_id obj_type
             = Some (before ++ (pid, v) :: after))
    (Hbefore : Forall (skipped k fd prop_name) before)
    (Hp : drmModeGetProperty k fd pid = None) :
  GetProperty k self obj_id obj_type prop_name property = Fault.
Proof.
  unfold DrmDevice.GetProperty. rewrite Hfd, Hlist.
  by rewrite (scan_props_null k fd obj_id pid v prop_name before after property
                Hbefore Hp).
Qed.

(** X12.  The out-parameter of [GetProperty] is written only on success:
    with a nonzero return code it is left as it was, and with return code 0
    it has been initialised from a listed, readable property that carries
    the requested name. *)
Theorem GetProperty_writes_only_on_success (k : Kernel) (self : device)
    (obj_id obj_type ret : Z) (prop_name : string)
    (property property' : DrmProperty.t)
    (Hrun : GetProperty k self obj_id obj_type prop_name property
            = Done (ret, property')) :
  (ret <> 0 -> property' = property)
  /\ (ret = 0 ->
      exists fd props pid v p,
        fd_ self = Some fd
        /\ drmModeObjectGetProperties k fd obj_id obj_type = Some props
        /\ (pid, v) ∈ props
        /\ drmModeGetProperty k fd pid = Some p
        /\ DrmProperty.name p = prop_name
        /\ property' = DrmProperty.Init property obj_id p v).
Proof.
  unfold DrmDevice.GetProperty in Hrun.
  destruct (fd_ self) as [fd|] eqn:Hfd; [|discriminate].
  destruct (drmModeObjectGetProperties k fd obj_id obj_type) as [props|] eqn:Hlist.
  2: { injection Hrun as <- <-. split; [done|discriminate]. }
  destruct (scan_props k fd obj_id prop_name props property)
    as [[found p'']|] eqn:Hscan; [|discriminate].
  injection Hrun as <- <-.
  destruct (scan_props_result k fd obj_id prop_name props property p'' found Hscan)
    as [Hfound Hsame].
  destruct found.
  - split; [done|]. intros _.
    destruct (Hfound eq_refl) as (pid & v & p & ? & ? & ? & ?).
    by exists fd, props, pid, v, p.
  - split; [intros _; by apply Hsame|discriminate].
Qed.

(** X13.  When the create, map-dumb, mmap and export calls all succeed,
    [CreateBufferForModeset] returns an XRGB8888 buffer of the requested
    size with the kernel's pitch in plane 0, the exported descriptor in
    plane 0 (and kept alive through [fds_shared]), no modifier, and no GEM
    handle left behind -- whether or not the munmap succeeded. *)
Theorem CreateBufferForModeset_success (r : DumbResponses) (self : device)
    (fd width height handle pitch size offset addr pfd : Z) (st : KState)
    (Hfd : fd_ self = Some fd)
    (Hcreate : r_create_dumb r = Some (handle, pitch, size))
    (Hhandle : 0 < handle /\ handle ∉ gem_handles st)
    (Hmap : r_map_dumb r = Some offset)
    (Hmmap : r_mmap r = Some addr)
    (Hprime : r_prime_fd r = Some pfd) :
  exists m,
    CreateBufferForModeset r self width height = Done m
    /\ fst (m st) =
         Some {| BufferInfo.width := width; BufferInfo.height := height;
                 format := kDumbBufferFormat;
                 pitches := [pitch; 0; 0; 0];
                 prime_fds := [pfd; -1; -1; -1];
                 modifiers := [DRM_FORMAT_MOD_NONE; 0; 0; 0];
                 color_space := ColorSpace_kUndefined;
                 sample_range := SampleRange_kUndefined;
                 blend_mode := kNone;
                 fds_shared := MakeSharedFd pfd |}
    /\ gem_handles (snd (m st)) = gem_handles st.
Proof.
  unfold CreateBufferForModeset. rewrite Hfd. eexists. split; [reflexivity|].
  destruct Hhandle as [Hpos Hfresh]. apply Z.ltb_lt in Hpos.
  unfold ioctl_create_dumb, done_label, ioctl_map_dumb, sys_mmap, sys_memset,
    sys_munmap, drmPrimeHandleToFD, ioctl_destroy_dumb, gem_add, gem_remove, log,
    sys_bind, sys_ret.
  rewrite Hcreate. cbn. rewrite Hmap. cbn. rewrite Hmmap. cbn. rewrite Hprime, Hpos.
  cbn. split; [reflexivity|]. by apply gem_released.
Qed.

(** X14.  The calls [CreateBufferForModeset] makes once the buffer is
    mapped: the mapping is filled with zeros and unmapped before the export
    is attempted, and the handle is destroyed last; only for a handle that is
    not positive is no destroy call made. *)
Theorem CreateBufferForModeset_call_order (r : DumbResponses) (self : device)
    (fd width height handle pitch size offset addr : Z) (st : KState)
    (Hfd : fd_ self = Some fd)
    (Hcreate : r_create_dumb r = Some (handle, pitch, size))
    (Hmap : r_map_dumb r = Some offset)
    (Hmmap : r_mmap r = Some addr) :
  exists m,
    CreateBufferForModeset r self width height = Done m
    /\ calls (snd (m st)) =
         calls st
         ++ [ MODE_CREATE_DUMB fd width height kDumbBufferBpp;
              MODE_MAP_DUMB fd handle;
              SYS_mmap fd size offset;
              SYS_memset addr size;
              SYS_munmap addr size;
              PRIME_HANDLE_TO_FD fd handle ]
         ++ (if 0 <? handle then [MODE_DESTROY_DUMB fd handle] else []).
Proof.
  unfold CreateBufferForModeset. rewrite Hfd. eexists. split; [reflexivity|].
  unfold ioctl_create_dumb, done_label, ioctl_map_dumb, sys_mmap, sys_memset,
    sys_munmap, drmPrimeHandleToFD, ioctl_destroy_dumb, gem_add, gem_remove, log,
    sys_bind, sys_ret.
  rewrite Hcreate. cbn. rewrite Hmap. cbn. rewrite Hmmap. cbn.
  destruct (r_prime_fd r), (0 <? handle); cbn; rewrite <- ?app_assoc; reflexivity.
Qed.

End DrmDeviceLookups.

Section DrmDeviceMoreOnSamples.
Import Errno BufferInfo DrmDevice Summary Samples MoreSamples.

Local Abbreviation Init :=
  (Init id_factory id_factory id_factory plane_factory never_writeback).
Local Abbreviation CreateInstance :=
  (CreateInstance id_factory id_factory id_factory plane_factory never_writeback).

Lemma Init_success_state_witness :
  Init (demo_kernel 0 0) (DrmDevice.make 0) "/dev/dri/card0" = (0, demo_device)
  /\ fd_ demo_device = Some 3
  /\ HasAddFb2ModifiersSupport_ demo_device = false
  /\ cap_cursor_size_ demo_device = Some (64, 64)
  /\ 70 ∈ connectors_ demo_device
  /\ writeback_connectors_ demo_device = [].
Proof.
  assert (Hok : Init (demo_kernel 0 0) (DrmDevice.make 0) "/dev/dri/card0"
                = (0, demo_device)) by reflexivity.
  destruct (Init_success_state id_factory id_factory id_factory plane_factory
              never_writeback (demo_kernel 0 0) "/dev/dri/card0" 0 demo_device Hok)
    as (fd & res & plane_ids & Hopen & Hres & _ & Hfd & _ & _ & _ & _ & _ & _ & _
        & _ & Hwb & _ & Hcur & _ & _ & Hconn & _).
  injection Hopen as <-. injection Hres as <-.
  split; [exact Hok|]. split; [exact Hfd|]. split; [reflexivity|].
  split; [by apply Hcur|].
  split.
  { apply Hconn. split; [reflexivity|]. by exists 0%nat, 70. }
  destruct (writeback_connectors_ demo_device) as [|c cs]; [reflexivity|].
  apply Forall_cons in Hwb as [Hc _]. discriminate Hc.
Defined.

Lemma CreateInstance_device_is_open_witness :
  CreateInstance (demo_kernel 0 0) "/dev/dri/card0" 0 = Some demo_device
  /\ exists fd, fd_ demo_device = Some fd /\ 0 <= fd.
Proof.
  assert (Hsome : CreateInstance (demo_kernel 0 0) "/dev/dri/card0" 0
                  = Some demo_device) by reflexivity.
  split; [exact Hsome|].
  destruct (CreateInstance_device_is_open id_factory id_factory id_factory
              plane_factory never_writeback (demo_kernel 0 0) "/dev/dri/card0" 0
              demo_device Hsome) as (fd & Hfd & _ & Hpos & _).
  by exists fd.
Defined.

Lemma skipped_type_entry (k : Kernel) :
  drmModeGetProperty k 3 41 = Some type_property ->
  Forall (skipped k 3 "zpos") [(41, 1)].
Proof.
  intros Hget. repeat constructor. exists type_property. split; [exact Hget|discriminate].
Defined.

Lemma GetProperty_takes_first_match_witness :
  (exists property',
     GetProperty (demo_kernel 0 0) demo_device 31 0 "zpos" DrmProperty.empty
     = Done (0, property')
     /\ DrmProperty.value_ property' = 2)
  /\ (exists property',
        GetProperty holey_kernel demo_device 31 0 "type" DrmProperty.empty
        = Done (0, property')
        /\ DrmProperty.value_ property' = 1).
Proof.
  split.
  - destruct (GetProperty_takes_first_match (demo_kernel 0 0) demo_device 3 31 0
                40 2 "zpos" [(41, 1)] [] zpos_property DrmProperty.empty
                eq_refl eq_refl (skipped_type_entry (demo_kernel 0 0) eq_refl)
                eq_refl eq_refl)
      as (property' & Hrun & _ & _ & _ & _ & Hv).
    by exists property'.
  - destruct (GetProperty_takes_first_match holey_kernel demo_device 3 31 0
                41 1 "type" [] [(99, 0); (40, 2)] type_property DrmProperty.empty
                eq_refl eq_refl (Forall_nil_2 _) eq_refl eq_refl)
      as (property' & Hrun & _ & _ & _ & _ & Hv).
    by exists property'.
Defined.

Lemma GetProperty_null_property_faults_witness :
  GetProperty holey_kernel demo_device 31 0 "zpos" DrmProperty.empty = Fault.
Proof.
  apply (GetProperty_null_property_faults holey_kernel demo_device 3 31 0 99 0
           "zpos" [(41, 1)] [(40, 2)] DrmProperty.empty eq_refl eq_refl
           (skipped_type_entry holey_kernel eq_refl) eq_refl).
Defined.

Lemma GetProperty_writes_only_on_success_witness :
  exists ret property',
    GetProperty (demo_kernel 0 0) demo_device 31 0 "alpha" demo_enum_property
    = Done (ret, property')
    /\ ret <> 0
    /\ property' = demo_enum_property.
Proof.
  destruct (GetProperty (demo_kernel 0 0) demo_device 31 0 "alpha"
              demo_enum_property) as [[ret property']|] eqn:Hrun;
    [|discriminate Hrun].
  exists ret, property'. split; [reflexivity|].
  assert (Hret : ret <> 0) by (injection Hrun as <- _; discriminate).
  split; [exact Hret|].
  by apply (GetProperty_writes_only_on_success _ _ _ _ _ _ _ _ Hrun).
Defined.

Lemma fresh_handle_two :
  0 < 2 /\ 2 ∉ gem_handles busy_state.
Proof. split; [lia|]. cbn. rewrite elem_of_singleton. discriminate. Defined.

Lemma CreateBufferForModeset_success_witness :
  exists m b,
    CreateBufferForModeset all_succeed demo_device 1920 1080 = Done m
    /\ fst (m busy_state) = Some b
    /\ prime_fds b = [9; -1; -1; -1]
    /\ pitches b = [7680; 0; 0; 0]
    /\ gem_handles (snd (m busy_state)) = gem_handles busy_state.
Proof.
  destruct (CreateBufferForModeset_success all_succeed demo_device 3 1920 1080
              2 7680 8294400 4096 0x7f0000 9 busy_state eq_refl eq_refl
              fresh_handle_two eq_refl eq_refl eq_refl)
    as (m & Hrun & Hres & Hgem).
  eexists m, _. split; [exact Hrun|]. split; [exact Hres|]. by repeat split.
Defined.

Lemma CreateBufferForModeset_call_order_witness :
  exists m,
    CreateBufferForModeset export_fails demo_device 1920 1080 = Done m
    /\ calls (snd (m busy_state)) =
         [ MODE_CREATE_DUMB 3 1920 1080 32; MODE_MAP_DUMB 3 2;
           SYS_mmap 3 8294400 4096; SYS_memset 0x7f0000 8294400;
           SYS_munmap 0x7f0000 8294400; PRIME_HANDLE_TO_FD 3 2;
           MODE_DESTROY_DUMB 3 2 ].
Proof.
  destruct (CreateBufferForModeset_call_order export_fails demo_device 3 1920 1080
              2 7680 8294400 4096 0x7f0000 busy_state eq_refl eq_refl eq_refl
              eq_refl) as (m & Hrun & Hcalls).
  exists m. split; [exact Hrun|exact Hcalls].
Defined.

End DrmDeviceMoreOnSamples.

(** ** The layer-property hooks: what a successful call changes *)

Section LayerHooksState.
Import BufferInfo Hwc2Device Summary.

(** The layer as a setter leaves it. *)
Local Abbreviation staged c ilayer := (HwcLayer.SetLayerProperties ilayer (handed c)).

Lemma call_setter_with_layer (c : LayerSetter) (hwc : DrmHwcTwo) (display layer : Z) :
  call_setter c hwc display layer
  = with_layer hwc display layer (fun ilayer => (0, staged c ilayer)).
Proof.
  destruct c as [mode|buffer fence|ds|ty|[? ? ? ?]|alpha|[? ? ? ?]|t|z]; reflexivity.
Qed.

Lemma call_setter_valid (c : LayerSetter) (hwc : DrmHwcTwo) (display layer : Z)
    (idisplay : HwcDisplay) (ilayer : HwcLayer.t) :
  GetDisplay hwc display = Some idisplay ->
  get_layer idisplay layer = Some ilayer ->
  call_setter c hwc display layer
  = (0, store_layer hwc display layer idisplay (staged c ilayer)).
Proof.
  intros Hd Hl. rewrite call_setter_with_layer. unfold with_layer. by rewrite Hd, Hl.
Qed.

Lemma GetDisplay_store_eq (hwc : DrmHwcTwo) (display layer : Z)
    (idisplay : HwcDisplay) (x : HwcLayer.t) :
  GetDisplay (store_layer hwc display layer idisplay x) display
  = Some {| layers_ := <[layer := x]> (layers_ idisplay) |}.
Proof. unfold GetDisplay, store_layer. cbn. apply lookup_insert_eq. Qed.

Lemma GetDisplay_store_ne (hwc : DrmHwcTwo) (display layer other : Z)
    (idisplay : HwcDisplay) (x : HwcLayer.t) :
  other <> display ->
  GetDisplay (store_layer hwc display layer idisplay x) other = GetDisplay hwc other.
Proof. intros Hne. unfold GetDisplay, store_layer. cbn. by apply lookup_insert_ne. Qed.

(** X15.  A layer-property setter called with handles that resolve returns
    0 and writes exactly one layer: that layer can be read back through the
    same handles, every other layer of the display and every other display
    is as before, and no handle appears or disappears. *)
Theorem layer_setter_writes_one_layer (c : LayerSetter) (hwc : DrmHwcTwo)
    (display layer : Z) (idisplay : HwcDisplay) (ilayer : HwcLayer.t)
    (Hd : GetDisplay hwc display = Some idisplay)
    (Hl : get_layer idisplay layer = Some ilayer) :
  exists hwc' idisplay',
    call_setter c hwc display layer = (0, hwc')
    /\ GetDisplay hwc' display = Some idisplay'
    /\ get_layer idisplay' layer = Some (staged c ilayer)
    /\ (forall other, other <> layer ->
                      get_layer idisplay' other = get_layer idisplay other)
    /\ (forall other, other <> display ->
                      GetDisplay hwc' other = GetDisplay hwc other)
    /\ (forall other, is_Some (GetDisplay hwc' other) <-> is_Some (GetDisplay hwc other))
    /\ (forall other, is_Some (get_layer idisplay' other)
                      <-> is_Some (get_layer idisplay other)).
Proof.
  eexists _, _. split; [by apply call_setter_valid|].
  split; [apply GetDisplay_store_eq|].
  unfold get_layer. cbn.
  split; [apply lookup_insert_eq|].
  split; [intros other Hne; by apply lookup_insert_ne|].
  split; [intros other Hne; by apply GetDisplay_store_ne|].
  split.
  - intros other. destruct (decide (other = display)) as [->|Hne].
    + rewrite GetDisplay_store_eq, Hd. split; intros _; by eexists.
    + by rewrite GetDisplay_store_ne.
  - intros other. destruct (decide (other = layer)) as [->|Hne].
    + rewrite lookup_insert_eq. unfold get_layer in Hl. rewrite Hl.
      split; intros _; by eexists.
    + by rewrite lookup_insert_ne.
Qed.

(** X16.  Each setter changes only its own attribute of the layer: after a
    successful call every staged attribute that the setter is not
    responsible for reads as before (the dataspace setter is responsible for
    colour space and sample range, every other setter for one attribute). *)
Theorem layer_setter_footprint (c : LayerSetter) (hwc : DrmHwcTwo)
    (display layer : Z) (idisplay : HwcDisplay) (ilayer : HwcLayer.t)
    (Hd : GetDisplay hwc display = Some idisplay)
    (Hl : get_layer idisplay layer = Some ilayer) :
  exists idisplay' ilayer',
    GetDisplay (snd (call_setter c hwc display layer)) display = Some idisplay'
    /\ get_layer idisplay' layer = Some ilayer'
    /\ (setter_index c <> 0%nat ->
        HwcLayer.blend_mode_ ilayer' = HwcLayer.blend_mode_ ilayer)
    /\ (setter_index c <> 1%nat ->
        HwcLayer.buffer_ ilayer' = HwcLayer.buffer_ ilayer)
    /\ (setter_index c <> 2%nat ->
        HwcLayer.color_space_ ilayer' = HwcLayer.color_space_ ilayer
        /\ HwcLayer.sample_range_ ilayer' = HwcLayer.sample_range_ ilayer)
    /\ (setter_index c <> 3%nat ->
        HwcLayer.composition_type_ ilayer' = HwcLayer.composition_type_ ilayer)
    /\ (setter_index c <> 4%nat ->
        HwcLayer.display_frame_ ilayer' = HwcLayer.display_frame_ ilayer)
    /\ (setter_index c <> 5%nat ->
        HwcLayer.alpha_ ilayer' = HwcLayer.alpha_ ilayer)
    /\ (setter_index c <> 6%nat ->
        HwcLayer.source_crop_ ilayer' = HwcLayer.source_crop_ ilayer)
    /\ (setter_index c <> 7%nat ->
        HwcLayer.transform_ ilayer' = HwcLayer.transform_ ilayer)
    /\ (setter_index c <> 8%nat ->
        HwcLayer.z_order_ ilayer' = HwcLayer.z_order_ ilayer).
Proof.
  rewrite (call_setter_valid c hwc display layer idisplay ilayer Hd Hl).
  eexists _, (staged c ilayer). split; [apply GetDisplay_store_eq|].
  split; [apply lookup_insert_eq|].
  destruct c; cbn; repeat split; intros; done.
Qed.

Lemma staged_overwrites (c1 c2 : LayerSetter) (ilayer : HwcLayer.t) :
  setter_index c1 = setter_index c2 ->
  staged c2 (staged c1 ilayer) = staged c2 ilayer.
Proof. destruct c1, c2; intros Hsame; try discriminate Hsame; reflexivity. Qed.

Lemma staged_commute (c1 c2 : LayerSetter) (ilayer : HwcLayer.t) :
  setter_index c1 <> setter_index c2 ->
  staged c2 (staged c1 ilayer) = staged c1 (staged c2 ilayer).
Proof. destruct c1, c2; intros Hne; try (by destruct Hne); reflexivity. Qed.

(** X17.  The last write wins: calling a setter after the same setter was
    called on the same layer gives the result and the state that the second
    call alone gives (in particular, repeating a call changes nothing); this
    holds for handles that resolve and for handles that do not. *)
Theorem layer_setter_last_write_wins (c1 c2 : LayerSetter) (hwc : DrmHwcTwo)
    (display layer : Z)
    (Hsame : setter_index c1 = setter_index c2) :
  call_setter c2 (snd (call_setter c1 hwc display layer)) display layer
  = call_setter c2 hwc display layer.
Proof.
  rewrite !call_setter_with_layer. unfold with_layer at 2 3.
  destruct (GetDisplay hwc display) as [idisplay|] eqn:Hd; cbn [snd].
  2: { unfold with_layer. by rewrite Hd. }
  destruct (get_layer idisplay layer) as [ilayer|] eqn:Hl; cbn [snd].
  2: { unfold with_layer. by rewrite Hd, Hl. }
  unfold with_layer. rewrite GetDisplay_store_eq.
  unfold get_layer at 1. cbn [layers_]. rewrite lookup_insert_eq.
  rewrite (staged_overwrites c1 c2 ilayer Hsame).
  unfold store_layer. cbn. by rewrite !insert_insert_eq.
Qed.

(** X18.  Two setter calls commute when they address different displays,
    different layers, or are different setters: with all handles resolving,
    both orders return 0 twice and end in the same state. *)
Theorem layer_setters_commute (c1 c2 : LayerSetter) (hwc : DrmHwcTwo)
    (d1 l1 d2 l2 : Z) (disp1 disp2 : HwcDisplay) (lay1 lay2 : HwcLayer.t)
    (Hd1 : GetDisplay hwc d1 = Some disp1) (Hl1 : get_layer disp1 l1 = Some lay1)
    (Hd2 : GetDisplay hwc d2 = Some disp2) (Hl2 : get_layer disp2 l2 = Some lay2)
    (Hind : d1 <> d2 \/ l1 <> l2 \/ setter_index c1 <> setter_index c2) :
  exists final,
    call_setter c2 (snd (call_setter c1 hwc d1 l1)) d2 l2 = (0, final)
    /\ call_setter c1 (snd (call_setter c2 hwc d2 l2)) d1 l1 = (0, final).
Proof.
  rewrite (call_setter_valid c1 hwc d1 l1 disp1 lay1 Hd1 Hl1).
  rewrite (call_setter_valid c2 hwc d2 l2 disp2 lay2 Hd2 Hl2). cbn [snd].
  destruct (decide (d1 = d2)) as [<-|Hd].
  - assert (disp2 = disp1) as -> by congruence.
    destruct (decide (l1 = l2)) as [<-|Hl].
    + assert (lay2 = lay1) as -> by congruence.
      assert (Hne : setter_index c1 <> setter_index c2) by (destruct Hind as [?|[?|?]]; done).
      eexists.
      rewrite (call_setter_valid c2 _ d1 l1 _ (staged c1 lay1)
                 (GetDisplay_store_eq _ _ _ _ _) (lookup_insert_eq _ _ _)).
      rewrite (call_setter_valid c1 _ d1 l1 _ (staged c2 lay1)
                 (GetDisplay_store_eq _ _ _ _ _) (lookup_insert_eq _ _ _)).
      rewrite (staged_commute c1 c2 lay1 Hne).
      unfold store_layer. cbn. rewrite !insert_insert_eq. done.
    + eexists.
      rewrite (call_setter_valid c2 _ d1 l2 _ lay2 (GetDisplay_store_eq _ _ _ _ _)).
      2: { unfold get_layer. cbn. rewrite lookup_insert_ne by done. exact Hl2. }
      rewrite (call_setter_valid c1 _ d1 l1 _ lay1 (GetDisplay_store_eq _ _ _ _ _)).
      2: { unfold get_layer. cbn. rewrite lookup_insert_ne by done. exact Hl1. }
      unfold store_layer. cbn. rewrite !insert_insert_eq.
      rewrite (insert_insert_ne _ l1 l2) by done. done.
  - eexists.
    rewrite (call_setter_valid c2 _ d2 l2 disp2 lay2); [|by rewrite GetDisplay_store_ne|done].
    rewrite (call_setter_valid c1 _ d1 l1 disp1 lay1); [|by rewrite GetDisplay_store_ne|done].
    unfold store_layer. cbn. rewrite (insert_insert_ne _ d1 d2) by done. done.
Qed.

(** X19.  [SetLayerTransform] looks at the three low bits of the transform
    only: any two integers that agree on them have the same effect. *)
Theorem SetLayerTransform_ignores_other_bits (hwc : DrmHwcTwo)
    (display layer t : Z) :
  SetLayerTransform hwc display layer t
  = SetLayerTransform hwc display layer (Z.land t 7).
Proof.
  unfold SetLayerTransform, HAL_TRANSFORM_FLIP_H, HAL_TRANSFORM_FLIP_V,
    HAL_TRANSFORM_ROT_90.
  rewrite <- !Z.land_assoc. reflexivity.
Qed.

End LayerHooksState.

(** ** The dataspace decoders *)

Section Dataspace.
Import BufferInfo Hwc2Device Summary.

(** Masking with a shifted mask reads the field and puts it back in
    place. *)
Lemma land_shifted_mask (a m n : Z) :
  0 <= n -> Z.land a (Z.shiftl m n) = Z.shiftl (Z.land (Z.shiftr a n) m) n.
Proof.
  intros Hn. apply Z.bits_inj'. intros i Hi.
  rewrite Z.land_spec, !Z.shiftl_spec by lia.
  destruct (Z.ltb_spec i n) as [Hlt|Hge].
  - rewrite (Z.testbit_neg_r m (i - n)) by lia.
    rewrite (Z.testbit_neg_r _ (i - n)) by lia. apply andb_false_r.
  - rewrite Z.land_spec, Z.shiftr_spec by lia. do 2 f_equal. lia.
Qed.

Lemma shiftl_eqb (a b n : Z) : 0 <= n -> (Z.shiftl a n =? Z.shiftl b n) = (a =? b).
Proof.
  intros Hn. rewrite !Z.shiftl_mul_pow2 by done.
  assert (0 < 2 ^ n) by (apply Z.pow_pos_nonneg; lia).
  destruct (Z.eqb_spec a b) as [->|Hne]; [apply Z.eqb_refl|].
  apply Z.eqb_neq. nia.
Qed.

(** X20.  The colour space and the sample range staged for a dataspace
    depend on its standard field (bits 16-21) and its range field (bits
    27-29) only: standard 1 is BT.709, 2-5 are BT.601, 6-7 are BT.2020, range
    1 is full and 2 is limited; every other field value is undefined. *)
Theorem dataspace_decoding (ds : Z) :
  Hwc2ToColorSpace ds =
    match standard_field ds with
    | 1 => kItuRec709
    | 2 | 3 | 4 | 5 => kItuRec601
    | 6 | 7 => kItuRec2020
    | _ => ColorSpace_kUndefined
    end
  /\ Hwc2ToSampleRange ds =
       match range_field ds with
       | 1 => kFullRange
       | 2 => kLimitedRange
       | _ => SampleRange_kUndefined
       end.
Proof.
  unfold Hwc2ToColorSpace, Hwc2ToSampleRange, standard_field, range_field,
    HAL_DATASPACE_STANDARD_MASK, HAL_DATASPACE_RANGE_MASK,
    HAL_DATASPACE_STANDARD_BT709, HAL_DATASPACE_STANDARD_BT601_625,
    HAL_DATASPACE_STANDARD_BT601_625_UNADJUSTED, HAL_DATASPACE_STANDARD_BT601_525,
    HAL_DATASPACE_STANDARD_BT601_525_UNADJUSTED, HAL_DATASPACE_STANDARD_BT2020,
    HAL_DATASPACE_STANDARD_BT2020_CONSTANT_LUMINANCE, HAL_DATASPACE_RANGE_FULL,
    HAL_DATASPACE_RANGE_LIMITED.
  cbn zeta. rewrite !land_shifted_mask by lia. rewrite !shiftl_eqb by lia.
  split.
  - generalize (Z.land (Z.shiftr ds 16) 63). intros f.
    destruct f as [|p|p]; try reflexivity.
    do 4 (destruct p as [p|p|]; try reflexivity).
  - generalize (Z.land (Z.shiftr ds 27) 7). intros f.
    destruct f as [|p|p]; try reflexivity.
    do 3 (destruct p as [p|p|]; try reflexivity).
Qed.

End Dataspace.

Section LayerHooksStateOnSamples.
Import BufferInfo Hwc2Device Summary Samples MoreSamples.

Lemma layer_setter_writes_one_layer_witness :
  exists hwc' idisplay',
    call_setter (CallSetLayerZOrder 4) two_displays 5 2 = (0, hwc')
    /\ GetDisplay hwc' 5 = Some idisplay'
    /\ get_layer idisplay' 1 = Some fresh_layer
    /\ GetDisplay hwc' 0 = Some demo_display.
Proof.
  destruct (layer_setter_writes_one_layer (CallSetLayerZOrder 4) two_displays 5 2
              _ fresh_layer eq_refl eq_refl)
    as (hwc' & idisplay' & Hrun & Hd & _ & Hlayers & Hdisplays & _).
  exists hwc', idisplay'. split; [exact Hrun|]. split; [exact Hd|].
  split.
  - rewrite (Hlayers 1); [reflexivity|discriminate].
  - rewrite (Hdisplays 0); [reflexivity|discriminate].
Defined.

Lemma layer_setter_footprint_witness :
  exists idisplay' ilayer',
    GetDisplay (snd (call_setter (CallSetLayerDataspace 0) demo_composer 0 1)) 0
    = Some idisplay'
    /\ get_layer idisplay' 1 = Some ilayer'
    /\ HwcLayer.alpha_ ilayer' = HwcLayer.alpha_ fresh_layer
    /\ HwcLayer.z_order_ ilayer' = HwcLayer.z_order_ fresh_layer.
Proof.
  destruct (layer_setter_footprint (CallSetLayerDataspace 0) demo_composer 0 1
              demo_display fresh_layer eq_refl eq_refl)
    as (idisplay' & ilayer' & Hd & Hl & _ & _ & _ & _ & _ & Ha & _ & _ & Hz).
  exists idisplay', ilayer'. split; [exact Hd|]. split; [exact Hl|].
  split; [apply Ha|apply Hz]; discriminate.
Defined.

Lemma layer_setter_last_write_wins_witness :
  call_setter (CallSetLayerZOrder 7)
    (snd (call_setter (CallSetLayerZOrder 4) demo_composer 0 1)) 0 1
  = call_setter (CallSetLayerZOrder 7) demo_composer 0 1.
Proof.
  apply (layer_setter_last_write_wins (CallSetLayerZOrder 4) (CallSetLayerZOrder 7)
           demo_composer 0 1). reflexivity.
Defined.

Lemma layer_setters_commute_witness :
  exists final,
    call_setter (CallSetLayerBlendMode 2)
      (snd (call_setter (CallSetLayerZOrder 4) two_displays 5 1)) 5 2 = (0, final)
    /\ call_setter (CallSetLayerZOrder 4)
         (snd (call_setter (CallSetLayerBlendMode 2) two_displays 5 2)) 5 1
       = (0, final).
Proof.
  apply (layer_setters_commute (CallSetLayerZOrder 4) (CallSetLayerBlendMode 2)
           two_displays 5 1 5 2 _ _ fresh_layer fresh_layer
           eq_refl eq_refl eq_refl eq_refl).
  right. left. discriminate.
Defined.

End LayerHooksStateOnSamples.

(** ** Shortening the function name *)

Section FuncNameFacts.
Import FuncName.
Local Open Scope string_scope.

Lemma append_nil_l (y : string) : "" ++ y = y.
Proof. reflexivity. Qed.

Lemma append_cons (a : Ascii.ascii) (x y : string) :
  String a x ++ y = String a (x ++ y).
Proof. reflexivity. Qed.

Lemma prefix_nil (s : string) : String.prefix "" s = true.
Proof. by destruct s. Qed.

Lemma index_skip (x y c : string) (n : nat) :
  String.index (String.length x + n) c (x ++ y)
  = option_map (fun k => (String.length x + k)%nat) (String.index n c y).
Proof.
  induction x as [|a x IH]; rewrite ?append_nil_l, ?append_cons; cbn.
  - destruct (String.index n c y); reflexivity.
  - rewrite IH. destruct (String.index n c y); reflexivity.
Qed.

Lemma index_char_first (c : Ascii.ascii) (name rest : string) :
  String.index 0 (String c "") name = None ->
  String.index 0 (String c "") (name ++ String c rest) = Some (String.length name).
Proof.
  induction name as [|a name IH]; rewrite ?append_nil_l, ?append_cons;
    cbn [String.index String.prefix String.length]; rewrite ?prefix_nil.
  - intros _. by destruct (Ascii.ascii_dec c c).
  - destruct (Ascii.ascii_dec c a); [discriminate|].
    destruct (String.index 0 (String c "") name); [discriminate|].
    intros _. by rewrite IH.
Qed.

Lemma index_comma_first (name rest : string) :
  String.index 0 "," name = None ->
  String.index 0 "," (name ++ "," ++ rest) = Some (String.length name).
Proof. apply index_char_first. Qed.

Lemma substring_skip (x y : string) (n m : nat) :
  String.substring (String.length x + n) m (x ++ y) = String.substring n m y.
Proof.
  induction x as [|a x IH]; rewrite ?append_nil_l, ?append_cons; cbn;
    [reflexivity|exact IH].
Qed.

Lemma substring_prefix (x y : string) :
  String.substring 0 (String.length x) (x ++ y) = x.
Proof.
  induction x as [|a x IH]; rewrite ?append_nil_l, ?append_cons; cbn;
    [by destruct y|by rewrite IH].
Qed.

Lemma length_append (x y : string) :
  String.length (x ++ y) = (String.length x + String.length y)%nat.
Proof.
  induction x as [|a x IH]; rewrite ?append_nil_l, ?append_cons; cbn;
    [reflexivity|by rewrite IH].
Qed.

Lemma append_assoc (x y z : string) : x ++ y ++ z = (x ++ y) ++ z.
Proof.
  induction x as [|a x IH]; rewrite ?append_nil_l, ?append_cons;
    [reflexivity|by rewrite IH].
Qed.

(** X21.  On a string in which "func = &" first occurs right after [pre]
    and is followed by a comma-free [name] and a comma, [GetFuncName] returns
    exactly [name]. *)
Theorem GetFuncName_extracts_name (pre name rest : string)
    (Hfirst : String.index 0 start (pre ++ start ++ name ++ ("," ++ rest))
              = Some (String.length pre))
    (Hname : String.index 0 "," name = None)
    (Hsize : (strlen (pre ++ start ++ name ++ ("," ++ rest)) < 2 ^ 64)%Z) :
  GetFuncName (pre ++ start ++ name ++ ("," ++ rest)) = Returned name.
Proof.
  set (str := pre ++ start ++ name ++ ("," ++ rest)) in *.
  assert (Hlen : String.length str
                 = (String.length pre + 8 + String.length name + 1
                    + String.length rest)%nat).
  { unfold str. rewrite !length_append. cbn. lia. }
  unfold strlen in Hsize. rewrite Hlen in Hsize.
  assert (Hfind : find str start 0 = Z.of_nat (String.length pre)).
  { unfold find. change (Z.to_nat 0) with 0%nat. by rewrite Hfirst. }
  unfold GetFuncName. cbn zeta. rewrite Hfind.
  assert (Hp1 : size_t (Z.of_nat (String.length pre) + strlen start)
                = Z.of_nat (String.length pre + 8)).
  { unfold size_t, strlen. cbn. rewrite Z.mod_small; lia. }
  rewrite Hp1. unfold find. rewrite Nat2Z.id.
  assert (Hsplit : str = (pre ++ start) ++ (name ++ ("," ++ rest)))
    by apply append_assoc.
  assert (Hpl : String.length (pre ++ start) = (String.length pre + 8)%nat)
    by (rewrite length_append; reflexivity).
  assert (Hidx : String.index (String.length pre + 8) "," str
                 = Some (String.length pre + 8 + String.length name)%nat).
  { rewrite Hsplit, <- Hpl.
    rewrite <- (Nat.add_0_r (String.length (pre ++ start))) at 1.
    by rewrite index_skip, (index_comma_first name rest Hname). }
  rewrite Hidx. unfold substr, strlen. rewrite Hlen.
  destruct (Z.ltb_spec
              (Z.of_nat (String.length pre + 8 + String.length name + 1
                         + String.length rest))
              (Z.of_nat (String.length pre + 8))) as [?|_]; [lia|].
  f_equal.
  replace (size_t _) with (Z.of_nat (String.length name))
    by (unfold size_t; rewrite Z.mod_small; lia).
  rewrite Z.min_l by lia. rewrite !Nat2Z.id.
  rewrite Hsplit, <- Hpl.
  rewrite <- (Nat.add_0_r (String.length (pre ++ start))).
  rewrite substring_skip. apply substring_prefix.
Qed.

(** X22.  When "func = &" does not occur, the start position wraps around
    to 7: [GetFuncName] then cuts from the eighth character to the next
    comma, and a string shorter than seven characters makes [substr]
    throw. *)
Theorem GetFuncName_without_marker (str : string)
    (Habsent : String.index 0 start str = None) :
  GetFuncName str = substr str 7 (size_t (find str "," 7 - 7))
  /\ ((strlen str < 7)%Z -> GetFuncName str = OutOfRange)
  /\ ((7 <= strlen str)%Z -> exists name, GetFuncName str = Returned name).
Proof.
  assert (Hrun : GetFuncName str = substr str 7 (size_t (find str "," 7 - 7))).
  { assert (Hfind : find str start 0 = npos).
    { unfold find. change (Z.to_nat 0) with 0%nat. by rewrite Habsent. }
    unfold GetFuncName. cbn zeta. by rewrite Hfind. }
  rewrite Hrun. split; [reflexivity|]. unfold substr.
  destruct (Z.ltb_spec (strlen str) 7); split; try done; try lia.
  intros _. by eexists.
Qed.

Lemma GetFuncName_extracts_name_witness :
  GetFuncName
    "int32_t android::LayerHook(Args...) [HookType = X, func = &android::HwcLayer::SetLayerBuffer, Args = <int>]"
  = Returned "android::HwcLayer::SetLayerBuffer".
Proof.
  apply (GetFuncName_extracts_name
           "int32_t android::LayerHook(Args...) [HookType = X, "
           "android::HwcLayer::SetLayerBuffer" " Args = <int>]").
  - reflexivity.
  - reflexivity.
  - vm_compute. reflexivity.
Defined.

Lemma GetFuncName_without_marker_witness :
  GetFuncName "main" = OutOfRange
  /\ GetFuncName "void f(int, char)" = Returned "int".
Proof.
  split.
  - apply (GetFuncName_without_marker "main"); [reflexivity|]. vm_compute. reflexivity.
  - destruct (GetFuncName_without_marker "void f(int, char)" eq_refl) as [Hrun _].
    rewrite Hrun. reflexivity.
Defined.

End FuncNameFacts.
